(** * Luna Chat: FunctionGemma training-data generator

    A shallow embedding of [scripts/generate_functiongemma_training.py]
    and the properties of its corpus that the design document states.

    Conventions of the embedding.
    - A Python [str] is a [string]; a character is a code point below 256.
    - A Python [dict] whose key order is visible in the output is an
      association list in insertion order.
    - The module-level generator [random] is a tape of draws that every
      call consumes from the left; an exhausted tape keeps yielding 0.
      Quantifying over tapes covers every outcome that the sampling calls
      can have.
    - A [float] is the rational number it denotes; literals are given as
      the exact value of the IEEE double Python reads them as. *)

From Stdlib Require Import List String Ascii Bool Arith NArith ZArith QArith Lia.
From Stdlib Require Import DecimalString Permutation Sorted.
Import ListNotations.

Local Open Scope string_scope.
Local Open Scope list_scope.
Local Open Scope nat_scope.

(* ================================================================== *)
(** * Python string primitives *)
(* ================================================================== *)

Module PyStr.

Definition code (c : ascii) : nat := nat_of_ascii c.

(** [str.isspace] on one character: the ASCII separators and controls
    Python counts as white space, and the two Latin-1 ones. *)
Definition is_space (c : ascii) : bool :=
  let n := code c in
  ((9 <=? n) && (n <=? 13)) || ((28 <=? n) && (n <=? 32))
  || (n =? 133) || (n =? 160).

Definition is_upper (c : ascii) : bool :=
  let n := code c in
  ((65 <=? n) && (n <=? 90))
  || ((192 <=? n) && (n <=? 222) && negb (n =? 215)).

Definition is_ascii_lower (c : ascii) : bool :=
  let n := code c in (97 <=? n) && (n <=? 122).

Definition is_ascii_alpha (c : ascii) : bool :=
  let n := code c in
  ((65 <=? n) && (n <=? 90)) || ((97 <=? n) && (n <=? 122)).

Definition lower_char (c : ascii) : ascii :=
  if is_upper c then ascii_of_nat (code c + 32) else c.

Definition upper_char (c : ascii) : ascii :=
  if is_ascii_lower c then ascii_of_nat (code c - 32) else c.

(** [s.lower()] *)
Fixpoint lower (s : string) : string :=
  match s with
  | EmptyString => EmptyString
  | String c r => String (lower_char c) (lower r)
  end.

Fixpoint lstrip (s : string) : string :=
  match s with
  | EmptyString => EmptyString
  | String c r => if is_space c then lstrip r else s
  end.

Fixpoint rstrip (s : string) : string :=
  match s with
  | EmptyString => EmptyString
  | String c r =>
      match rstrip r with
      | EmptyString => if is_space c then EmptyString else String c EmptyString
      | r' => String c r'
      end
  end.

(** [s.strip()] *)
Definition strip (s : string) : string := rstrip (lstrip s).

(** [s.split()]: the maximal runs of characters that are not white
    space. *)
Fixpoint split (s : string) : list string :=
  match s with
  | EmptyString => []
  | String c r =>
      if is_space c then split r
      else
        match r with
        | EmptyString => [String c EmptyString]
        | String c' _ =>
            if is_space c' then String c EmptyString :: split r
            else
              match split r with
              | w :: ws => String c w :: ws
              | [] => [String c EmptyString]
              end
        end
  end.

(** [sep.join(parts)] *)
Definition join (sep : string) (parts : list string) : string :=
  String.concat sep parts.

(** [s.title()], used on ASCII event names only: a letter is upper-cased
    when the character before it is not a letter and lower-cased
    otherwise. *)
Fixpoint title_from (prev_cased : bool) (s : string) : string :=
  match s with
  | EmptyString => EmptyString
  | String c r =>
      String (if prev_cased then lower_char c else upper_char c)
             (title_from (is_ascii_alpha c) r)
  end.

Definition title (s : string) : string := title_from false s.

(** [pattern.format(k1=v1, ...)] for patterns whose replacement
    fields are one-letter names, as all patterns of the script are. The
    substitution is simultaneous: an inserted value is not scanned
    again. *)
Fixpoint lookup_field (k : ascii) (env : list (ascii * string)) : option string :=
  match env with
  | [] => None
  | (k', v) :: env' => if Ascii.eqb k k' then Some v else lookup_field k env'
  end.

Fixpoint format (env : list (ascii * string)) (pattern : string) : string :=
  match pattern with
  | String "{" (String k (String "}" r)) =>
      match lookup_field k env with
      | Some v => v ++ format env r
      | None => String "{" (String k (String "}" (format env r)))
      end
  | String c r => String c (format env r)
  | EmptyString => EmptyString
  end.

(** [str(n)] for a non-negative integer. *)
Definition of_nat (n : nat) : string := NilEmpty.string_of_uint (Nat.to_uint n).

(** [x in xs] on a list of strings. *)
Definition mem (x : string) (xs : list string) : bool :=
  existsb (String.eqb x) xs.

(** The double quote and the line feed, which have no literal form
    inside a string here. *)
Definition dq : string := String (ascii_of_nat 34) EmptyString.
Definition nl : string := String (ascii_of_nat 10) EmptyString.

End PyStr.

(* ================================================================== *)
(** * The random source *)
(* ================================================================== *)

(** The state of [random]: the draws still to come. *)
Definition Rng : Type := list N.

(** A computation that consumes draws. *)
Definition Gen (A : Type) : Type := Rng -> A * Rng.

Definition ret {A} (a : A) : Gen A := fun g => (a, g).

Definition bind {A B} (m : Gen A) (k : A -> Gen B) : Gen B :=
  fun g => let (a, g') := m g in k a g'.

Notation "x <- m ;; k" := (bind m (fun x => k))
  (at level 61, m at next level, right associativity).

(** [for x in xs: state = body(state, x)] *)
Fixpoint foldM {A S} (body : S -> A -> Gen S) (xs : list A) (s : S) : Gen S :=
  match xs with
  | [] => ret s
  | x :: xs' => s' <- body s x ;; foldM body xs' s'
  end.

(** [for x in xs: examples.append(...)]: a loop whose body only appends
    to the list it builds; the body returns what it appends. *)
Fixpoint for_each {A B} (xs : list A) (body : A -> Gen (list B)) : Gen (list B) :=
  match xs with
  | [] => ret []
  | x :: xs' =>
      out <- body x ;;
      outs <- for_each xs' body ;;
      ret (out ++ outs)
  end.

Module Random.

Definition next_draw (g : Rng) : N * Rng :=
  match g with
  | [] => (0%N, [])
  | x :: g' => (x, g')
  end.

(** [random._randbelow(n)] for [n > 0]: an index below [n]. *)
Definition randbelow (n : nat) : Gen nat :=
  fun g => let (x, g') := next_draw g in (N.to_nat (x mod N.of_nat n), g').

(** [random.random()]: a double [k / 2^53] in the interval [0, 1). *)
Definition two_53 : positive := 9007199254740992.

Definition random : Gen Q :=
  fun g => let (x, g') := next_draw g in
           (Z.of_N (x mod Npos two_53) # two_53, g').

(** [random.choice(seq)] for a non-empty [seq]; [d] stands for the
    [IndexError] of the empty case, which no call site reaches. *)
Definition choice {A} (d : A) (seq : list A) : Gen A :=
  j <- randbelow (List.length seq) ;; ret (nth j seq d).

Fixpoint list_set {A} (l : list A) (i : nat) (v : A) : list A :=
  match l, i with
  | [], _ => []
  | _ :: l', 0 => v :: l'
  | x :: l', S i' => x :: list_set l' i' v
  end.

(** [random.sample(population, k)] for [k <= len(population)]: selection
    without replacement. Each round draws an index into the pool of
    elements not yet chosen and moves the last pool element into the
    hole, as CPython's pool branch does; the rejection branch CPython
    takes for long populations selects without replacement as well. *)
Fixpoint sample_pool {A} (pool : list A) (k : nat) : Gen (list A) :=
  match k with
  | 0 => ret []
  | S k' =>
      match pool with
      | [] => ret []
      | d :: _ =>
          j <- randbelow (List.length pool) ;;
          let picked := nth j pool d in
          let pool' := firstn (List.length pool - 1) (list_set pool j (last pool d)) in
          rest <- sample_pool pool' k' ;;
          ret (picked :: rest)
      end
  end.

Definition sample {A} (population : list A) (k : nat) : Gen (list A) :=
  sample_pool population k.

(** [x[i], x[j] = x[j], x[i]] *)
Definition swap {A} (x : list A) (i j : nat) : list A :=
  match nth_error x i, nth_error x j with
  | Some a, Some b => list_set (list_set x i b) j a
  | _, _ => x
  end.

(** [random.shuffle(x)]: for [i] from [len(x) - 1] down to 1, swap
    position [i] with a position drawn below [i + 1]. *)
Definition shuffle {A} (x : list A) : Gen (list A) :=
  foldM (fun x i => j <- randbelow (i + 1) ;; ret (swap x i j))
        (rev (seq 1 (List.length x - 1))) x.

End Random.

(** Float literals of the script, each the exact value of its double. *)
Definition float_0_1 : Q := 3602879701896397 # 36028797018963968.
Definition float_0_15 : Q := 5404319552844595 # 36028797018963968.
Definition float_0_5 : Q := 1 # 2.
Definition float_0_8 : Q := 3602879701896397 # 4503599627370496.

(** [x < y] on floats. *)
Definition float_ltb (x y : Q) : bool :=
  (Qnum x * Zpos (Qden y) <? Qnum y * Zpos (Qden x))%Z.

(* ================================================================== *)
(** * Data model *)
(* ================================================================== *)

(** A JSON scalar used as an argument value. *)
Inductive Value : Type :=
| VStr (s : string)
| VInt (n : Z)
| VBool (b : bool).

(** A [dict] with string keys, in insertion order. *)
Definition Dict (V : Type) : Type := list (string * V).

Fixpoint dict_get {V} (d : Dict V) (k : string) : option V :=
  match d with
  | [] => None
  | (k', v) :: d' => if String.eqb k k' then Some v else dict_get d' k
  end.

(** [d[k] = v] *)
Fixpoint dict_set {V} (d : Dict V) (k : string) (v : V) : Dict V :=
  match d with
  | [] => [(k, v)]
  | (k', v') :: d' =>
      if String.eqb k k' then (k, v) :: d' else (k', v') :: dict_set d' k v
  end.

Definition dict_keys {V} (d : Dict V) : list string := map fst d.

(** One entry of a schema's ["properties"]. *)
Record PropertySpec : Type := mkProp {
  p_type : string;
  p_description : string;
  p_enum : option (list string);
  p_items : option string
}.

(** The ["parameters"] object of a tool. *)
Record ParamSchema : Type := mkSchema {
  s_type : string;
  s_properties : Dict PropertySpec;
  s_required : list string
}.

Record ToolSpec : Type := mkTool {
  tool_name : string;
  tool_description : string;
  tool_parameters : ParamSchema
}.

(** [{"name": n, "arguments": a}] *)
Record FunctionCall : Type := mkFunction {
  fn_name : string;
  fn_arguments : Dict Value
}.

(** [{"type": "function", "function": {...}}] *)
Record ToolCall : Type := mkCall {
  call_type : string;
  call_function : FunctionCall
}.

(** A message [dict]: ["role"], ["content"] and, on assistant turns that
    call tools, ["tool_calls"]. *)
Record Message : Type := mkMessage {
  role : string;
  content : string;
  tool_calls : option (list ToolCall)
}.

(** [{"messages": [...], "tools": [...]}] *)
Record Example : Type := mkExample {
  messages : list Message;
  tools : list ToolSpec
}.

Definition developer_prompt : string :=
  "You are a model that can do function calling with the following functions".

Definition think (thinking : string) : string :=
  "<think>" ++ thinking ++ "</think>".

Definition make_example (user_msg tool_name : string) (args : Dict Value)
    (tools : list ToolSpec) (thinking : string) : Example :=
  {| messages :=
       [ mkMessage "developer" developer_prompt None;
         mkMessage "user" user_msg None;
         mkMessage "assistant" (think thinking)
           (Some [mkCall "function" (mkFunction tool_name args)]) ];
     tools := tools |}.

Definition make_no_tool (user_msg response : string) (tools : list ToolSpec) : Example :=
  {| messages :=
       [ mkMessage "developer" developer_prompt None;
         mkMessage "user" user_msg None;
         mkMessage "assistant" response None ];
     tools := tools |}.

Definition make_multi_tool (user_msg : string) (calls : list (string * Dict Value))
    (tools : list ToolSpec) (thinking : string) : Example :=
  {| messages :=
       [ mkMessage "developer" developer_prompt None;
         mkMessage "user" user_msg None;
         mkMessage "assistant" (think thinking)
           (Some (map (fun c => mkCall "function" (mkFunction (fst c) (snd c))) calls)) ];
     tools := tools |}.

(* ================================================================== *)
(** * Template expansion *)
(* ================================================================== *)

Definition prefixes : list string :=
  [""; "hey "; "hi "; "luna "; "hey luna "; "yo "; "um "; "ok "; "please "].

Definition suffixes : list string :=
  [""; " please"; " pls"; " plz"; " thanks"; " thx"; " ty"].

(** The body of the inner loop of [vary_message]. *)
Definition vary_step (msg lower p : string) (variations : list string) (s : string)
    : list string :=
  let v := (p ++ lower ++ s)%string in
  if negb (String.eqb v msg) && negb (PyStr.mem v variations)
  then variations ++ [PyStr.strip v]
  else variations.

Definition vary_message (msg : string) : Gen (list string) :=
  let variations := [msg] in
  let lower := PyStr.lower msg in
  ps <- Random.sample prefixes 3 ;;
  variations <-
    foldM (fun variations p =>
             ss <- Random.sample suffixes 2 ;;
             ret (fold_left (vary_step msg lower p) ss variations))
          ps variations ;;
  ret (firstn 5 variations).

(* ================================================================== *)
(** * Tool catalog *)
(* ================================================================== *)

(** [{"type": t, "description": d}] *)
Definition prop (t d : string) : PropertySpec := mkProp t d None None.

(** [{"type": t, "enum": vals, "description": d}] *)
Definition prop_enum (t : string) (vals : list string) (d : string) : PropertySpec :=
  mkProp t d (Some vals) None.

(** [{"type": "array", "items": {"type": item}, "description": d}] *)
Definition prop_array (item d : string) : PropertySpec :=
  mkProp "array" d None (Some item).

(** [{"type": "object", "properties": props, "required": req}] *)
Definition schema (props : Dict PropertySpec) (req : list string) : ParamSchema :=
  mkSchema "object" props req.

Definition priorities : list string := ["low"; "medium"; "high"].

Definition TOOLS : Dict ToolSpec :=
  [ ("research",
     mkTool "research"
       "Conduct in-depth research using Claude Opus 4.5. Can search the web, analyze code, process documents, and perform data analysis."
       (schema
          [ ("query", prop "string" "The research question or topic to investigate thoroughly");
            ("depth", prop_enum "string" ["quick"; "thorough"] "Research depth");
            ("save_to_file", prop "string" "Optional filename to save results") ]
          ["query"]));
    ("search_knowledge",
     mkTool "search_knowledge"
       "Semantic search through user's knowledge base using embeddings"
       (schema
          [ ("query", prop "string" "Search query");
            ("limit", prop "integer" "Maximum results") ]
          ["query"]));
    ("create_knowledge",
     mkTool "create_knowledge" "Save knowledge to the user's knowledge base"
       (schema
          [ ("title", prop "string" "Title");
            ("content", prop "string" "Content to save");
            ("category", prop "string" "Category");
            ("tags", prop_array "string" "Tags") ]
          ["title"; "content"]));
    ("get_user_facts",
     mkTool "get_user_facts" "Retrieve stored facts about the user" (schema [] []));
    ("create_task",
     mkTool "create_task" "Create a new task or todo item"
       (schema
          [ ("title", prop "string" "Task title");
            ("description", prop "string" "Task description");
            ("due_at", prop "string" "Due date ISO format");
            ("priority", prop_enum "string" priorities "Priority") ]
          ["title"]));
    ("get_tasks",
     mkTool "get_tasks" "Get user's tasks with optional filtering"
       (schema
          [ ("status", prop_enum "string" ["pending"; "completed"] "Status filter");
            ("priority", prop_enum "string" priorities "Priority filter");
            ("upcoming", prop "boolean" "Only upcoming tasks") ]
          []));
    ("complete_task",
     mkTool "complete_task" "Mark a task as completed"
       (schema [("task_id", prop "string" "Task ID")] ["task_id"]));
    ("delete_task",
     mkTool "delete_task" "Delete a task"
       (schema [("task_id", prop "string" "Task ID")] ["task_id"]));
    ("get_calendar_events",
     mkTool "get_calendar_events" "Get upcoming calendar events"
       (schema
          [ ("days_ahead", prop "integer" "Days ahead to look");
            ("limit", prop "integer" "Max events") ]
          []));
    ("create_calendar_event",
     mkTool "create_calendar_event" "Create a calendar event"
       (schema
          [ ("title", prop "string" "Event title");
            ("start_at", prop "string" "Start time ISO");
            ("end_at", prop "string" "End time ISO");
            ("location", prop "string" "Location") ]
          ["title"; "start_at"; "end_at"]));
    ("get_emails",
     mkTool "get_emails" "Get user's emails"
       (schema
          [ ("unread_only", prop "boolean" "Only unread");
            ("limit", prop "integer" "Max emails") ]
          []));
    ("search_emails",
     mkTool "search_emails" "Search emails"
       (schema
          [ ("query", prop "string" "Search query");
            ("limit", prop "integer" "Max results") ]
          ["query"]));
    ("send_email",
     mkTool "send_email" "Send an email"
       (schema
          [ ("to", prop "string" "Recipient");
            ("subject", prop "string" "Subject");
            ("body", prop "string" "Body") ]
          ["to"; "subject"; "body"]));
    ("play_music",
     mkTool "play_music" "Play music on Spotify"
       (schema
          [ ("query", prop "string" "Search query or URI");
            ("type", prop_enum "string" ["track"; "album"; "artist"; "playlist"] "Content type");
            ("shuffle", prop "boolean" "Enable shuffle") ]
          ["query"]));
    ("pause_music", mkTool "pause_music" "Pause Spotify playback" (schema [] []));
    ("skip_track", mkTool "skip_track" "Skip to next track" (schema [] []));
    ("previous_track", mkTool "previous_track" "Go to previous track" (schema [] []));
    ("get_currently_playing",
     mkTool "get_currently_playing" "Get currently playing track info" (schema [] []));
    ("search_music",
     mkTool "search_music" "Search Spotify"
       (schema
          [ ("query", prop "string" "Search query");
            ("limit", prop "integer" "Max results") ]
          ["query"]));
    ("set_volume",
     mkTool "set_volume" "Set Spotify volume"
       (schema [("volume_percent", prop "integer" "Volume 0-100")] ["volume_percent"]));
    ("navigate",
     mkTool "navigate" "Navigate browser to URL"
       (schema [("url", prop "string" "Target URL")] ["url"]));
    ("screenshot",
     mkTool "screenshot" "Take browser screenshot"
       (schema [("full_page", prop "boolean" "Full page capture")] []));
    ("click",
     mkTool "click" "Click element by selector"
       (schema [("selector", prop "string" "CSS selector")] ["selector"]));
    ("fill",
     mkTool "fill" "Fill form input"
       (schema
          [ ("selector", prop "string" "CSS selector");
            ("text", prop "string" "Text to fill") ]
          ["selector"; "text"]));
    ("get_page_content",
     mkTool "get_page_content" "Get page content"
       (schema [("url", prop "string" "URL")] ["url"]));
    ("execute_python",
     mkTool "execute_python" "Execute Python code"
       (schema [("code", prop "string" "Python code")] ["code"]));
    ("execute_javascript",
     mkTool "execute_javascript" "Execute JavaScript code"
       (schema [("code", prop "string" "JavaScript code")] ["code"]));
    ("create_reminder",
     mkTool "create_reminder" "Create a reminder"
       (schema
          [ ("message", prop "string" "Reminder message");
            ("delay_minutes", prop "integer" "Minutes until reminder") ]
          ["message"; "delay_minutes"]));
    ("list_reminders", mkTool "list_reminders" "Get pending reminders" (schema [] []));
    ("write_file",
     mkTool "write_file" "Write file to workspace"
       (schema
          [ ("filename", prop "string" "Filename");
            ("content", prop "string" "Content") ]
          ["filename"; "content"]));
    ("read_file",
     mkTool "read_file" "Read file from workspace"
       (schema [("filename", prop "string" "Filename")] ["filename"]));
    ("list_files", mkTool "list_files" "List workspace files" (schema [] []));
    ("delete_file",
     mkTool "delete_file" "Delete workspace file"
       (schema [("filename", prop "string" "Filename")] ["filename"]));
    ("generate_image",
     mkTool "generate_image" "Generate image using AI"
       (schema [("prompt", prop "string" "Image prompt")] ["prompt"]));
    ("search_youtube",
     mkTool "search_youtube" "Search YouTube videos"
       (schema
          [ ("query", prop "string" "Search query");
            ("limit", prop "integer" "Max results") ]
          ["query"]));
    ("system_cpu_usage", mkTool "system_cpu_usage" "Get CPU usage" (schema [] []));
    ("system_memory", mkTool "system_memory" "Get memory usage" (schema [] []));
    ("system_disk", mkTool "system_disk" "Get disk usage" (schema [] []));
    ("system_uptime", mkTool "system_uptime" "Get system uptime" (schema [] []));
    ("system_load", mkTool "system_load" "Get system load" (schema [] []));
    ("docker_containers",
     mkTool "docker_containers" "Get Docker containers"
       (schema [("only_running", prop "boolean" "Only running")] []));
    ("docker_logs",
     mkTool "docker_logs" "Get Docker container logs"
       (schema
          [ ("container_id", prop "string" "Container ID");
            ("lines", prop "integer" "Log lines") ]
          ["container_id"]));
    ("docker_stats",
     mkTool "docker_stats" "Get Docker container stats"
       (schema [("container_id", prop "string" "Container ID")] ["container_id"]));
    ("analyze_mood",
     mkTool "analyze_mood" "Analyze mood in text"
       (schema [("message", prop "string" "Text to analyze")] ["message"]));
    ("get_mood_history", mkTool "get_mood_history" "Get mood history" (schema [] []));
    ("search_documents",
     mkTool "search_documents" "Search uploaded documents"
       (schema
          [ ("query", prop "string" "Search query");
            ("limit", prop "integer" "Max results") ]
          ["query"]));
    ("get_documents", mkTool "get_documents" "List uploaded documents" (schema [] []));
    ("generate_background",
     mkTool "generate_background" "Generate desktop background"
       (schema
          [ ("prompt", prop "string" "Background description");
            ("style", prop_enum "string" ["abstract"; "nature"; "artistic"] "Style") ]
          ["prompt"]));
    ("get_backgrounds", mkTool "get_backgrounds" "Get saved backgrounds" (schema [] []));
    ("create_project",
     mkTool "create_project" "Create a project"
       (schema
          [ ("name", prop "string" "Project name");
            ("type", prop "string" "Project type");
            ("description", prop "string" "Description") ]
          ["name"; "type"]));
    ("get_projects", mkTool "get_projects" "Get user's projects" (schema [] []));
    ("analyze_image",
     mkTool "analyze_image" "Analyze an image"
       (schema
          [ ("image_url", prop "string" "Image URL");
            ("prompt", prop "string" "Analysis prompt") ]
          ["image_url"]))
  ].

(** Stands for the [KeyError] of a missing key; every key the script
    looks up is in the catalog. *)
Definition missing_tool : ToolSpec := mkTool "" "" (schema [] []).

(** [TOOLS[key]] *)
Definition tool (key : string) : ToolSpec :=
  match dict_get TOOLS key with
  | Some t => t
  | None => missing_tool
  end.

(* ================================================================== *)
(** * Generators *)
(* ================================================================== *)

(** An f-string: the concatenation of its literal and interpolated
    parts. *)
Definition fstring (parts : list string) : string := String.concat "" parts.

(** [if x:] on a value that is [None] or a string. *)
Definition truthy (x : option string) : bool :=
  match x with
  | Some s => negb (String.eqb s "")
  | None => false
  end.

(** [pattern.format(x=value)] with the one field [x]. *)
Definition format1 (x : ascii) (pattern value : string) : string :=
  PyStr.format [(x, value)] pattern.

Definition gen_research_topics : list string :=
  [ "quantum computing"; "SpaceX Starship"; "climate change"; "Python async"; "machine learning";
    "AI regulation"; "James Webb telescope"; "mRNA vaccines"; "Internet history"; "dark matter";
    "blockchain"; "React best practices"; "cryptocurrency"; "healthy eating"; "space exploration";
    "renewable energy"; "neural networks"; "web3"; "rust programming"; "kubernetes";
    "CRISPR"; "electric vehicles"; "5G networks"; "cybersecurity"; "quantum cryptography";
    "AGI"; "fusion energy"; "Mars colonization"; "brain computer interface"; "NVIDIA AI";
    "transformers architecture"; "GPT models"; "diffusion models"; "reinforcement learning";
    "LLM fine-tuning"; "RAG systems"; "vector databases"; "prompt engineering"; "AI safety";
    "autonomous vehicles"; "drone technology"; "robotics"; "IoT security"; "edge computing";
    "microservices"; "serverless"; "GraphQL"; "WebAssembly"; "progressive web apps" ].

Definition gen_research_patterns : list string :=
  [ "Research {t}"; "Look up {t}"; "Research {t} for me"; "Tell me about {t}";
    "What do we know about {t}?"; "Find out about {t}"; "Investigate {t}";
    "I'm curious about {t}"; "Deep dive into {t}"; "What's the latest on {t}?";
    "research {t}"; "look into {t}"; "whats going on with {t}"; "info on {t}" ].

Definition gen_research : Gen (list Example) :=
  let tools := [tool "research"; tool "search_knowledge"] in
  for_each gen_research_topics (fun topic =>
    sampled <- Random.sample gen_research_patterns 4 ;;
    for_each sampled (fun pattern =>
      let user_msg := format1 "t" pattern topic in
      let query := fstring [topic; " latest developments"] in
      depth <- Random.choice "" ["quick"; "thorough"] ;;
      let args := [("query", VStr query)] in
      let args := if String.eqb depth "thorough"
                  then dict_set args "depth" (VStr depth) else args in
      let thinking := fstring ["User wants research on "; topic; ". Using research tool."] in
      vars <- vary_message user_msg ;;
      ret (make_example user_msg "research" args tools thinking
           :: flat_map (fun var =>
                          if negb (String.eqb var user_msg)
                          then [make_example var "research" args tools thinking]
                          else [])
                       (firstn 2 vars)))).

Definition gen_knowledge_search_terms : list string :=
  [ "Python"; "Luna project"; "databases"; "transformers"; "consciousness"; "API endpoints";
    "training"; "agent architecture"; "memory"; "embeddings"; "Docker"; "security";
    "async"; "vector databases"; "OpenAI API"; "React hooks"; "TypeScript"; "testing";
    "deployment"; "monitoring"; "authentication"; "caching"; "performance"; "debugging";
    "logging"; "error handling"; "git workflow"; "code review"; "refactoring"; "design patterns" ].

Definition gen_knowledge_patterns : list string :=
  [ "Search my notes for {t}"; "Find {t} in my knowledge"; "What did I write about {t}?";
    "Do I have notes on {t}?"; "Look up {t} notes"; "Search for {t}";
    "find {t} stuff"; "search knowledge for {t}"; "check my notes about {t}";
    "anything about {t}?"; "{t} notes"; "look for {t}" ].

Definition gen_knowledge_creates : list (string * string * string * string) :=
  [ ("Save this: {c}", "Saved Note", "{c}", "notes");
    ("Remember that {c}", "Reminder", "{c}", "reminders");
    ("Note: {c}", "Note", "{c}", "notes") ].

Definition gen_knowledge_contents : list string :=
  [ "Python list comprehensions are faster"; "API key expires March 15";
    "Server IP is 192.168.1.100"; "React hooks at top level";
    "TypeScript strict mode always"; "Redis port 6379";
    "JWT tokens expire 15 minutes"; "Use semantic versioning";
    "Always handle errors properly"; "Cache frequently accessed data" ].

Definition gen_knowledge_fact_queries : list string :=
  [ "What do you know about me?"; "Show my preferences"; "My profile";
    "What have you learned about me?"; "my facts"; "user facts" ].

Definition gen_knowledge_tools : list ToolSpec :=
  [tool "search_knowledge"; tool "create_knowledge"; tool "get_user_facts"].

(** The example a search term and a user message are labelled with. *)
Definition knowledge_search_example (term user_msg : string) : Example :=
  make_example user_msg "search_knowledge" [("query", VStr term)] gen_knowledge_tools
    (fstring ["User wants to search knowledge for: "; term]).

Definition gen_knowledge : Gen (list Example) :=
  let tools := gen_knowledge_tools in
  searches <-
    for_each gen_knowledge_search_terms (fun term =>
      sampled <- Random.sample gen_knowledge_patterns 3 ;;
      for_each sampled (fun pattern =>
        let user_msg := format1 "t" pattern term in
        vars <- vary_message user_msg ;;
        ret (knowledge_search_example term user_msg
             :: map (knowledge_search_example term) (firstn 2 vars)))) ;;
  let created :=
    flat_map (fun '(pattern, title, _, cat) =>
      map (fun content =>
             let user_msg := format1 "c" pattern content in
             let thinking := "User wants to save knowledge." in
             make_example user_msg "create_knowledge"
               [("title", VStr title); ("content", VStr content); ("category", VStr cat)]
               tools thinking)
          (firstn 5 gen_knowledge_contents))
      gen_knowledge_creates in
  let facts :=
    map (fun q => make_example q "get_user_facts" [] tools "User wants their facts.")
        gen_knowledge_fact_queries in
  ret (searches ++ created ++ facts).

Definition gen_tasks_tasks : list (string * string * option string * option string) :=
  [ ("review the code", "Review code", None, None);
    ("finish the report", "Finish report", Some "Complete report", Some "high");
    ("call mom", "Call mom", None, None);
    ("deploy to production", "Deploy", Some "Deploy to prod", Some "high");
    ("buy groceries", "Buy groceries", None, Some "low");
    ("update documentation", "Update docs", None, Some "medium");
    ("fix the login bug", "Fix login bug", Some "Fix auth issue", Some "high");
    ("send invoice", "Send invoice", None, Some "medium");
    ("review PRs", "Review PRs", Some "Review pull requests", Some "medium");
    ("clean up database", "Clean DB", Some "Remove old entries", Some "low");
    ("write unit tests", "Write tests", Some "Add unit tests", Some "medium");
    ("backup server", "Backup server", None, Some "high");
    ("update dependencies", "Update deps", Some "Update npm packages", Some "medium");
    ("schedule meeting", "Schedule meeting", None, Some "low");
    ("prepare presentation", "Prepare presentation", Some "Create slides", Some "high");
    ("respond to emails", "Respond emails", None, Some "medium");
    ("refactor auth module", "Refactor auth", Some "Improve auth code", Some "medium");
    ("set up monitoring", "Setup monitoring", Some "Configure alerts", Some "high");
    ("document API", "Document API", Some "Write API docs", Some "medium");
    ("run performance tests", "Perf tests", Some "Run load tests", Some "high");
    ("fix broken tests", "Fix tests", Some "Debug failing tests", Some "high");
    ("optimize queries", "Optimize queries", Some "Improve DB queries", Some "medium");
    ("review security", "Security review", Some "Check vulnerabilities", Some "high");
    ("update README", "Update README", None, Some "low");
    ("merge branches", "Merge branches", Some "Merge feature to main", Some "medium") ].

Definition gen_tasks_create_patterns : list string :=
  [ "Add a task to {t}"; "Create a todo: {t}"; "Remind me to {t}"; "Task: {t}";
    "I need to {t}"; "todo: {t}"; "add task {t}"; "new task: {t}";
    "remember to {t}"; "add to my list: {t}"; "make a task {t}" ].

Definition gen_tasks_get_patterns : list (string * Dict Value) :=
  [ ("What are my tasks?", []);
    ("Show my todo list", []);
    ("What do I need to do?", []);
    ("Show pending tasks", [("status", VStr "pending")]);
    ("What have I completed?", [("status", VStr "completed")]);
    ("High priority tasks", [("priority", VStr "high")]);
    ("What's coming up?", [("upcoming", VBool true)]);
    ("list my todos", []);
    ("my task list", []);
    ("tasks please", []);
    ("pending items", [("status", VStr "pending")]);
    ("medium priority", [("priority", VStr "medium")]);
    ("low priority stuff", [("priority", VStr "low")]) ].

Definition gen_tasks_tools : list ToolSpec :=
  [tool "create_task"; tool "get_tasks"; tool "complete_task"; tool "delete_task"].

(** The arguments [gen_tasks] derives from a row of its task table. *)
Definition create_task_args (title : string) (desc priority : option string) : Dict Value :=
  let args := [("title", VStr title)] in
  let args := match desc with
              | Some d => if truthy desc then dict_set args "description" (VStr d) else args
              | None => args
              end in
  match priority with
  | Some p => if truthy priority then dict_set args "priority" (VStr p) else args
  | None => args
  end.

Definition gen_tasks : Gen (list Example) :=
  let tools := gen_tasks_tools in
  created <-
    for_each gen_tasks_tasks (fun '(task_desc, title, desc, priority) =>
      sampled <- Random.sample gen_tasks_create_patterns 4 ;;
      for_each sampled (fun pattern =>
        let user_msg := format1 "t" pattern task_desc in
        let args := create_task_args title desc priority in
        let thinking := fstring ["User wants to create task: "; title] in
        vars <- vary_message user_msg ;;
        ret (make_example user_msg "create_task" args tools thinking
             :: map (fun var => make_example var "create_task" args tools thinking)
                    (firstn 2 vars)))) ;;
  listed <-
    for_each gen_tasks_get_patterns (fun '(user_msg, args) =>
      vars <- vary_message user_msg ;;
      ret (make_example user_msg "get_tasks" args tools "User wants their tasks."
           :: map (fun var => make_example var "get_tasks" args tools "User wants their tasks.")
                  (firstn 3 vars))) ;;
  ret (created ++ listed).

Definition gen_calendar_get_patterns : list (string * Dict Value) :=
  [ ("What's on my calendar?", []);
    ("Show my schedule", []);
    ("Any meetings today?", [("days_ahead", VInt 1)]);
    ("What's coming up this week?", [("days_ahead", VInt 7)]);
    ("Calendar for tomorrow", [("days_ahead", VInt 2)]);
    ("do i have appointments", []);
    ("whats my schedule", []);
    ("events this month", [("days_ahead", VInt 30)]);
    ("upcoming meetings", [("days_ahead", VInt 7)]);
    ("calendar please", []);
    ("my schedule today", [("days_ahead", VInt 1)]);
    ("meetings today", [("days_ahead", VInt 1)]);
    ("schedule this week", [("days_ahead", VInt 7)]);
    ("any events", []);
    ("check calendar", []) ].

Definition gen_calendar_events : list string :=
  [ "meeting with Henke"; "dentist appointment"; "lunch with Sarah"; "team standup";
    "client call"; "doctor appointment"; "interview"; "team lunch"; "1:1 with manager";
    "project review"; "demo presentation"; "training session"; "planning meeting" ].

Definition gen_calendar : Gen (list Example) :=
  let tools := [tool "get_calendar_events"; tool "create_calendar_event"] in
  listed <-
    for_each gen_calendar_get_patterns (fun '(user_msg, args) =>
      vars <- vary_message user_msg ;;
      ret (make_example user_msg "get_calendar_events" args tools "User wants calendar."
           :: map (fun var =>
                     make_example var "get_calendar_events" args tools "User wants calendar.")
                  (firstn 3 vars))) ;;
  let created :=
    flat_map (fun event =>
      let patterns :=
        [ fstring ["Schedule "; event; " tomorrow at 2pm"];
          fstring ["Add "; event; " on Friday at 10am"];
          fstring ["Book "; event; " next Monday noon"];
          fstring ["create event "; event; " at 3pm"] ] in
      map (fun user_msg =>
             let args := [ ("title", VStr (PyStr.title event));
                           ("start_at", VStr "2024-01-16T14:00:00");
                           ("end_at", VStr "2024-01-16T15:00:00") ] in
             let thinking := fstring ["User wants to create event: "; event] in
             make_example user_msg "create_calendar_event" args tools thinking)
          patterns)
      gen_calendar_events in
  ret (listed ++ created).

Definition gen_email_get_patterns : list (string * Dict Value) :=
  [ ("Check my email", []);
    ("Any new emails?", [("unread_only", VBool true)]);
    ("Show my inbox", []);
    ("Unread messages?", [("unread_only", VBool true)]);
    ("show emails", []);
    ("check mail", [("unread_only", VBool true)]);
    ("any messages?", []);
    ("inbox please", []);
    ("email inbox", []);
    ("new mail?", [("unread_only", VBool true)]) ].

Definition gen_email_searches : list string :=
  [ "Henke"; "project"; "invoice"; "meeting"; "contract"; "deployment";
    "Amazon"; "shipping"; "password reset"; "order"; "receipt"; "support" ].

Definition gen_email_sends : list (string * string * string) :=
  [ ("henke@example.com", "Report Ready", "The report is ready.");
    ("sarah@company.com", "Meeting", "Reminder about meeting.");
    ("support@vendor.com", "Order", "Order status inquiry.");
    ("team@company.com", "Deadline", "Reminder: deadline Friday.") ].

Definition gen_email : Gen (list Example) :=
  let tools := [tool "get_emails"; tool "search_emails"; tool "send_email"] in
  listed <-
    for_each gen_email_get_patterns (fun '(user_msg, args) =>
      vars <- vary_message user_msg ;;
      ret (make_example user_msg "get_emails" args tools "User wants emails."
           :: map (fun var => make_example var "get_emails" args tools "User wants emails.")
                  (firstn 3 vars))) ;;
  let searched :=
    flat_map (fun term =>
      let patterns :=
        [ fstring ["Find emails from "; term]; fstring ["Search for "; term; " emails"];
          fstring ["emails about "; term]; fstring ["search email "; term] ] in
      map (fun pattern =>
             make_example pattern "search_emails" [("query", VStr term)] tools
               (fstring ["Search emails: "; term]))
          patterns)
      gen_email_searches in
  let sent :=
    map (fun '(to, subj, body) =>
           let user_msg := fstring ["Send email to "; to; " about "; PyStr.lower subj] in
           make_example user_msg "send_email"
             [("to", VStr to); ("subject", VStr subj); ("body", VStr body)] tools
             (fstring ["Send email to "; to]))
        gen_email_sends in
  ret (listed ++ searched ++ sent).

Definition gen_music_items : list (string * string) :=
  [ ("jazz", "playlist"); ("Bohemian Rhapsody", "track"); ("Taylor Swift", "artist");
    ("Abbey Road", "album"); ("lo-fi beats", "playlist"); ("chill", "playlist");
    ("Beethoven", "artist"); ("workout", "playlist"); ("classical", "playlist");
    ("relaxing music", "playlist"); ("Daft Punk", "artist"); ("rock", "playlist");
    ("hip hop", "playlist"); ("EDM", "playlist"); ("pop hits", "playlist");
    ("80s music", "playlist"); ("country", "playlist"); ("indie", "playlist");
    ("metal", "playlist"); ("R&B", "playlist"); ("Blinding Lights", "track");
    ("Hotel California", "track"); ("Stairway to Heaven", "track"); ("Drake", "artist");
    ("The Beatles", "artist"); ("Coldplay", "artist"); ("Pink Floyd", "artist");
    ("Eminem", "artist"); ("Dark Side of the Moon", "album"); ("Thriller", "album");
    ("focus music", "playlist"); ("study music", "playlist"); ("party music", "playlist");
    ("ambient", "playlist"); ("acoustic", "playlist"); ("piano music", "playlist") ].

Definition gen_music_patterns : list string :=
  [ "Play {i}"; "Put on {i}"; "play {i}"; "i want to listen to {i}";
    "play me {i}"; "lets hear {i}"; "queue up {i}"; "start {i}" ].

Definition gen_music_volumes : list (nat * string) :=
  [ (70, "Turn up"); (30, "Turn down"); (50, "Set to 50"); (80, "Louder");
    (25, "Quieter"); (100, "Max"); (0, "Mute") ].

Definition gen_music_tools : list ToolSpec :=
  [ tool "play_music"; tool "pause_music"; tool "skip_track";
    tool "previous_track"; tool "get_currently_playing"; tool "search_music";
    tool "set_volume" ].

Definition gen_music : Gen (list Example) :=
  let tools := gen_music_tools in
  played <-
    for_each gen_music_items (fun '(item, typ) =>
      sampled <- Random.sample gen_music_patterns 3 ;;
      for_each sampled (fun pattern =>
        let user_msg := format1 "i" pattern item in
        let args := [("query", VStr item); ("type", VStr typ)] in
        r <- Random.random ;;
        let args := if float_ltb float_0_8 r
                    then dict_set args "shuffle" (VBool true) else args in
        let thinking := fstring ["Play music: "; item] in
        vars <- vary_message user_msg ;;
        ret (make_example user_msg "play_music" args tools thinking
             :: map (fun var => make_example var "play_music" args tools thinking)
                    (firstn 2 vars)))) ;;
  let simple (msgs : list string) (tool_name thinking : string) :=
    map (fun msg => make_example msg tool_name [] tools thinking) msgs in
  let paused :=
    simple ["Pause"; "Stop"; "pause music"; "stop playing"; "hold on"; "pause the music"]
           "pause_music" "Pause music." in
  let skipped :=
    simple ["Skip"; "Next"; "skip track"; "next song"; "skip this"; "play next"]
           "skip_track" "Skip track." in
  let previous :=
    simple ["Previous"; "Go back"; "last song"; "previous track"; "replay last"]
           "previous_track" "Previous track." in
  let current :=
    simple ["What's playing?"; "What song is this?"; "current track"; "now playing";
            "what am i listening to"]
           "get_currently_playing" "Get current track." in
  let volume :=
    map (fun '(vol, prefix) =>
           let msg := fstring [prefix; " the volume"] in
           make_example msg "set_volume" [("volume_percent", VInt (Z.of_nat vol))] tools
             (fstring ["Set volume to "; PyStr.of_nat vol; "."]))
        gen_music_volumes in
  ret (played ++ paused ++ skipped ++ previous ++ current ++ volume).

Definition gen_code_python_examples : list (string * string) :=
  let nl := PyStr.nl in
  [ ("Calculate 2+2", "print(2 + 2)");
    ("print hello", "print('hello')");
    ("Fibonacci sequence",
     fstring [ "def fib(n):"; nl; "    a, b = 0, 1"; nl; "    for _ in range(n):"; nl;
               "        print(a)"; nl; "        a, b = b, a + b"; nl; "fib(10)" ]);
    ("Factorial of 5", fstring ["import math"; nl; "print(math.factorial(5))"]);
    ("Sort a list", fstring ["nums = [3, 1, 4, 1, 5]"; nl; "print(sorted(nums))"]);
    ("100 divided by 7", "print(100 / 7)");
    ("Random number", fstring ["import random"; nl; "print(random.randint(1, 100))"]);
    ("Current date", fstring ["from datetime import datetime"; nl; "print(datetime.now())"]);
    ("List comprehension", "print([x**2 for x in range(10)])");
    ("String reverse", "print('hello'[::-1])");
    ("Is 17 prime", "print(all(17 % i != 0 for i in range(2, int(17**0.5)+1)))");
    ("Sum of 1-5", "print(sum([1,2,3,4,5]))");
    ("Max in list", "print(max([3, 7, 2, 9]))");
    ("Celsius to Fahrenheit 25C", "print(25 * 9/5 + 32)") ].

Definition gen_code_js_examples : list (string * string) :=
  [ ("console.log hi", "console.log('hi')");
    ("Reverse string", "console.log('hello'.split('').reverse().join(''))");
    ("Array sum", "console.log([1,2,3,4,5].reduce((a,b)=>a+b,0))");
    ("Current timestamp", "console.log(Date.now())") ].

Definition gen_code : Gen (list Example) :=
  let tools := [tool "execute_python"; tool "execute_javascript"] in
  let python :=
    flat_map (fun '(desc, code) =>
      let patterns :=
        [ fstring ["Python: "; desc]; fstring ["Calculate "; desc; " in Python"];
          fstring ["run python "; desc]; fstring ["execute python: "; desc];
          fstring ["python code: "; desc] ] in
      map (fun pattern =>
             make_example pattern "execute_python" [("code", VStr code)] tools "Execute Python.")
          patterns)
      gen_code_python_examples in
  let js :=
    flat_map (fun '(desc, code) =>
      let patterns :=
        [ fstring ["JavaScript: "; desc]; fstring ["Run JS: "; desc];
          fstring ["execute javascript "; desc] ] in
      map (fun pattern =>
             make_example pattern "execute_javascript" [("code", VStr code)] tools
               "Execute JavaScript.")
          patterns)
      gen_code_js_examples in
  ret (python ++ js).

Definition gen_reminders_reminders : list (string * nat) :=
  [ ("take a break", 30); ("check the oven", 60); ("call Henke", 15); ("Timer", 5);
    ("review PR", 120); ("team meeting", 45); ("stretch", 10); ("pick up laundry", 180);
    ("the call", 20); ("lunch", 90); ("drink water", 30); ("take medicine", 240);
    ("check email", 60); ("stand up", 25); ("save work", 30) ].

Definition gen_reminders_patterns : list string :=
  [ "Remind me to {m} in {t} minutes"; "Set reminder {t} min: {m}";
    "reminder in {t} mins {m}"; "remind me in {t} minutes to {m}" ].

Definition gen_reminders : Gen (list Example) :=
  let tools := [tool "create_reminder"; tool "list_reminders"] in
  let created :=
    flat_map (fun '(msg, mins) =>
      map (fun pattern =>
             let user_msg :=
               PyStr.format [("m"%char, msg); ("t"%char, PyStr.of_nat mins)] pattern in
             let thinking := fstring ["Create reminder in "; PyStr.of_nat mins; " minutes."] in
             make_example user_msg "create_reminder"
               [("message", VStr msg); ("delay_minutes", VInt (Z.of_nat mins))] tools thinking)
          gen_reminders_patterns)
      gen_reminders_reminders in
  let listed :=
    map (fun msg => make_example msg "list_reminders" [] tools "List reminders.")
        ["Show reminders"; "My reminders"; "list reminders"; "pending reminders"] in
  ret (created ++ listed).

Definition gen_files_writes : list (string * string) :=
  [ ("main.py", "print('hello')"); ("notes.txt", "Meeting notes");
    ("config.json", fstring ["{"; PyStr.dq; "debug"; PyStr.dq; ": true}"]);
    ("greeting.txt", "hello world");
    ("script.py", "import os"); ("data.csv", "name,age");
    ("README.md", "# Project"); (".env", "DEBUG=true") ].

Definition gen_files_files : list string :=
  [ "main.py"; "notes.txt"; "config.json"; "readme.md"; "log.txt";
    "data.csv"; "script.py"; "settings.json"; ".env"; "package.json" ].

Definition gen_files : Gen (list Example) :=
  let tools := [tool "write_file"; tool "read_file"; tool "list_files"; tool "delete_file"] in
  let written :=
    flat_map (fun '(filename, content) =>
      let patterns :=
        [ fstring ["Save to "; filename; ": "; content];
          fstring ["Create "; filename; " with "; content];
          fstring ["write to "; filename];
          fstring ["save "; content; " to "; filename] ] in
      map (fun pattern =>
             let thinking := fstring ["Write file: "; filename] in
             make_example pattern "write_file"
               [("filename", VStr filename); ("content", VStr content)] tools thinking)
          patterns)
      gen_files_writes in
  let read :=
    flat_map (fun f =>
      let patterns :=
        [ fstring ["Read "; f]; fstring ["Show "; f]; fstring ["What's in "; f; "?"];
          fstring ["open "; f]; fstring ["cat "; f] ] in
      map (fun pattern =>
             make_example pattern "read_file" [("filename", VStr f)] tools
               (fstring ["Read file: "; f]))
          patterns)
      gen_files_files in
  let listed :=
    map (fun msg => make_example msg "list_files" [] tools "List files.")
        ["Show files"; "List files"; "my files"; "workspace files"; "ls"] in
  let deleted :=
    map (fun f =>
           make_example (fstring ["Delete "; f]) "delete_file" [("filename", VStr f)] tools
             (fstring ["Delete: "; f]))
        ["old.txt"; "temp.log"; "backup.sql"] in
  ret (written ++ read ++ listed ++ deleted).

Definition gen_images_prompts : list (string * string) :=
  [ ("sunset over mountains", "Beautiful sunset over mountain peaks");
    ("cute cat", "Adorable fluffy cat with big eyes");
    ("futuristic city", "Cyberpunk city at night with neon lights");
    ("robot", "Friendly humanoid robot");
    ("space scene", "Deep space with colorful nebulas");
    ("abstract art", "Abstract modern art");
    ("forest", "Mystical forest with sunlight");
    ("dragon", "Majestic dragon breathing fire");
    ("beach", "Tropical beach with palm trees");
    ("castle", "Medieval castle at sunset");
    ("winter scene", "Snowy mountain cabin");
    ("aurora borealis", "Northern lights over frozen lake");
    ("steampunk", "Steampunk airship");
    ("garden", "Japanese zen garden");
    ("coffee shop", "Cozy coffee shop interior");
    ("spaceship", "Futuristic spaceship");
    ("waterfall", "Majestic waterfall in jungle");
    ("underwater", "Colorful coral reef");
    ("city skyline", "City skyline at night");
    ("landscape", "Rolling hills at golden hour") ].

Definition gen_images_patterns : list string :=
  [ "Generate image of {s}"; "Create picture of {s}"; "Make {s}";
    "Draw {s}"; "generate {s}"; "picture of {s}"; "image of {s}" ].

Definition gen_images : Gen (list Example) :=
  let tools := [tool "generate_image"] in
  ret (flat_map (fun '(subject, prompt) =>
         map (fun pattern =>
                let user_msg := format1 "s" pattern subject in
                make_example user_msg "generate_image" [("prompt", VStr prompt)] tools
                  "Generate image.")
             gen_images_patterns)
         gen_images_prompts).

Definition gen_youtube_searches : list string :=
  [ "Python tutorials"; "machine learning"; "cooking recipes"; "guitar lessons";
    "workout routines"; "React tutorial"; "funny cats"; "space documentary";
    "music videos"; "ted talks"; "how to tie a tie"; "gaming highlights";
    "photography tips"; "meditation"; "tech unboxing"; "learn Spanish";
    "science experiments"; "travel vlogs"; "DIY projects"; "coding tutorials" ].

Definition gen_youtube_patterns : list string :=
  [ "Search YouTube for {s}"; "Find {s} videos"; "youtube {s}";
    "look up {s} on youtube"; "youtube search {s}" ].

Definition gen_youtube : Gen (list Example) :=
  let tools := [tool "search_youtube"] in
  ret (flat_map (fun search =>
         map (fun pattern =>
                let user_msg := format1 "s" pattern search in
                make_example user_msg "search_youtube" [("query", VStr search)] tools
                  (fstring ["YouTube search: "; search]))
             gen_youtube_patterns)
         gen_youtube_searches).

Definition gen_system_containers : list string :=
  ["luna-api"; "redis"; "postgres"; "nginx"; "memorycore"; "frontend"].

Definition gen_system : Gen (list Example) :=
  let tools := [ tool "system_cpu_usage"; tool "system_memory"; tool "system_disk";
                 tool "system_uptime"; tool "system_load"; tool "docker_containers";
                 tool "docker_logs"; tool "docker_stats" ] in
  let simple (msgs : list string) (tool_name : string) (args : Dict Value) (thinking : string) :=
    map (fun msg => make_example msg tool_name args tools thinking) msgs in
  let cpu :=
    simple ["CPU usage"; "Check CPU"; "cpu stats"; "processor usage"; "how much cpu"]
           "system_cpu_usage" [] "Check CPU." in
  let memory :=
    simple ["Memory usage"; "Check RAM"; "memory stats"; "how much memory"; "ram usage"]
           "system_memory" [] "Check memory." in
  let disk :=
    simple ["Disk space"; "Check storage"; "disk usage"; "how much disk"; "storage left"]
           "system_disk" [] "Check disk." in
  let uptime :=
    simple ["Uptime"; "How long running"; "system uptime"; "server uptime"]
           "system_uptime" [] "Check uptime." in
  let load :=
    simple ["System load"; "Load average"; "server load"; "check load"]
           "system_load" [] "Check load." in
  let docker :=
    simple ["Docker containers"; "Running containers"; "docker ps"; "container status"]
           "docker_containers" [("only_running", VBool true)] "Docker containers." in
  let logs :=
    flat_map (fun c =>
      map (fun msg =>
             make_example msg "docker_logs" [("container_id", VStr c)] tools
               (fstring ["Logs: "; c]))
          [ fstring ["Logs for "; c]; fstring ["docker logs "; c]; fstring [c; " logs"] ])
      gen_system_containers in
  let stats :=
    map (fun c =>
           make_example (fstring ["Stats for "; c]) "docker_stats" [("container_id", VStr c)]
             tools (fstring ["Stats: "; c]))
        (firstn 3 gen_system_containers) in
  ret (cpu ++ memory ++ disk ++ uptime ++ load ++ docker ++ logs ++ stats).

Definition gen_browser_sites : list (string * string) :=
  [ ("google.com", "https://google.com"); ("github.com", "https://github.com");
    ("reddit", "https://reddit.com"); ("example.com", "https://example.com");
    ("anthropic.com", "https://anthropic.com"); ("stackoverflow", "https://stackoverflow.com");
    ("twitter", "https://twitter.com"); ("youtube", "https://youtube.com");
    ("wikipedia", "https://wikipedia.org"); ("amazon", "https://amazon.com") ].

Definition gen_browser_patterns : list string :=
  ["Go to {s}"; "Open {s}"; "Navigate to {s}"; "browse {s}"; "visit {s}"].

Definition gen_browser : Gen (list Example) :=
  let tools := [ tool "navigate"; tool "screenshot"; tool "click"; tool "fill";
                 tool "get_page_content" ] in
  let navigated :=
    flat_map (fun '(site, url) =>
      map (fun pattern =>
             let user_msg := format1 "s" pattern site in
             make_example user_msg "navigate" [("url", VStr url)] tools
               (fstring ["Navigate to "; url]))
          gen_browser_patterns)
      gen_browser_sites in
  let shots :=
    flat_map (fun msg =>
      [ make_example msg "screenshot" [] tools "Take screenshot.";
        make_example (fstring [msg; " full page"]) "screenshot" [("full_page", VBool true)]
          tools "Full page screenshot." ])
      ["Screenshot"; "Capture page"; "take screenshot"; "grab screenshot"] in
  let clicks :=
    [ ("submit button", "button[type='submit']"); ("login link", "a.login");
      ("Sign In", "button:contains('Sign In')") ] in
  let clicked :=
    map (fun '(desc, sel) =>
           make_example (fstring ["Click "; desc]) "click" [("selector", VStr sel)] tools
             "Click element.")
        clicks in
  let fills :=
    [ ("search box", "input[type='search']", "hello");
      ("email field", "input[name='email']", "user@example.com") ] in
  let filled :=
    map (fun '(desc, sel, text) =>
           make_example (fstring ["Type "; text; " in "; desc]) "fill"
             [("selector", VStr sel); ("text", VStr text)] tools "Fill form.")
        fills in
  ret (navigated ++ shots ++ clicked ++ filled).

Definition gen_documents_searches : list string :=
  [ "project specs"; "contract"; "API docs"; "meeting notes"; "invoice";
    "budget"; "report"; "presentation"; "proposal"; "design"; "requirements" ].

Definition gen_documents : Gen (list Example) :=
  let tools := [tool "search_documents"; tool "get_documents"] in
  let searched :=
    flat_map (fun term =>
      let patterns :=
        [ fstring ["Search docs for "; term]; fstring ["Find "; term; " in documents"];
          fstring ["search documents "; term]; fstring ["look for "; term] ] in
      map (fun pattern =>
             make_example pattern "search_documents" [("query", VStr term)] tools
               (fstring ["Search docs: "; term]))
          patterns)
      gen_documents_searches in
  let listed :=
    map (fun msg => make_example msg "get_documents" [] tools "List documents.")
        ["Show documents"; "My documents"; "list uploads"; "uploaded files"] in
  ret (searched ++ listed).

Definition gen_mood_texts : list string :=
  [ "I'm feeling stressed about work";
    "This is the best day ever!";
    "I'm so frustrated";
    "feeling great today";
    "worried about tomorrow";
    "excited about the project";
    "tired but happy" ].

Definition gen_mood : Gen (list Example) :=
  let tools := [tool "analyze_mood"; tool "get_mood_history"] in
  let analyzed :=
    flat_map (fun text =>
      let patterns :=
        [ fstring ["Analyze: "; text]; fstring ["How does this sound: "; text];
          fstring ["Sentiment of: "; text]; fstring ["mood of: "; text] ] in
      map (fun pattern =>
             make_example pattern "analyze_mood" [("message", VStr text)] tools "Analyze mood.")
          patterns)
      gen_mood_texts in
  let history :=
    map (fun msg => make_example msg "get_mood_history" [] tools "Mood history.")
        ["Mood history"; "How have I been feeling?"; "mood trends"; "my moods"] in
  ret (analyzed ++ history).

Definition gen_background_bgs : list (string * string * string) :=
  [ ("mountains", "Mountain landscape", "nature");
    ("abstract", "Abstract flowing shapes", "abstract");
    ("space", "Deep space nebulas", "artistic");
    ("forest", "Mystical forest", "nature");
    ("minimalist", "Clean minimalist design", "abstract");
    ("ocean", "Calm ocean waves", "nature");
    ("city skyline", "City at night", "artistic");
    ("geometric", "Geometric patterns", "abstract");
    ("sunset", "Beautiful sunset", "nature");
    ("aurora", "Northern lights", "nature") ].

Definition gen_background : Gen (list Example) :=
  let tools := [tool "generate_background"; tool "get_backgrounds"] in
  let generated :=
    flat_map (fun '(desc, prompt, style) =>
      let patterns :=
        [ fstring ["Generate background with "; desc]; fstring ["Create "; desc; " wallpaper"];
          fstring ["make "; desc; " background"]; fstring ["generate "; desc] ] in
      map (fun pattern =>
             make_example pattern "generate_background"
               [("prompt", VStr prompt); ("style", VStr style)] tools "Generate background.")
          patterns)
      gen_background_bgs in
  let listed :=
    map (fun msg => make_example msg "get_backgrounds" [] tools "List backgrounds.")
        ["Show backgrounds"; "My wallpapers"; "background list"] in
  ret (generated ++ listed).

Definition gen_projects_projects : list (string * string * string) :=
  [ ("Website Redesign", "web", "Redesign company website");
    ("API Migration", "development", "Migrate to new API");
    ("Mobile App", "mobile", "Develop mobile app");
    ("Data Pipeline", "data", "Build ETL pipeline");
    ("Security Audit", "security", "Security review");
    ("Performance Optimization", "optimization", "Improve performance");
    ("Documentation", "docs", "Update documentation");
    ("Testing Framework", "testing", "Implement tests") ].

Definition gen_projects : Gen (list Example) :=
  let tools := [tool "create_project"; tool "get_projects"] in
  let created :=
    flat_map (fun '(name, typ, desc) =>
      let patterns :=
        [ fstring ["Create project "; name]; fstring ["New project: "; name];
          fstring ["Start project "; name]; fstring ["create "; name; " project"] ] in
      map (fun pattern =>
             make_example pattern "create_project"
               [("name", VStr name); ("type", VStr typ); ("description", VStr desc)] tools
               (fstring ["Create project: "; name]))
          patterns)
      gen_projects_projects in
  let listed :=
    map (fun msg => make_example msg "get_projects" [] tools "List projects.")
        ["Show projects"; "My projects"; "list projects"; "project list"] in
  ret (created ++ listed).

Definition gen_negative_no_tool : list (string * string) :=
  [ ("What is the capital of France?", "Paris is the capital of France.");
    ("How many planets in solar system?", "There are 8 planets in our solar system.");
    ("Who wrote Romeo and Juliet?", "William Shakespeare wrote Romeo and Juliet.");
    ("What is 2 + 2?", "2 + 2 equals 4.");
    ("Tell me a joke", "Why don't scientists trust atoms? They make up everything!");
    ("Hello!", "Hello! How can I help you?");
    ("Thanks", "You're welcome!");
    ("Good morning", "Good morning! How are you?");
    ("What does Python mean?", "Python is a programming language named after Monty Python.");
    ("Explain machine learning", "Machine learning is AI that learns from data.");
    ("How do I cook pasta?", "Boil water, add pasta, cook 8-12 minutes, drain.");
    ("What is love?", "Love is deep affection and care for someone.");
    ("Bye", "Goodbye! Have a great day!");
    ("What's your name?", "I'm Luna, your AI assistant.");
    ("How are you?", "I'm doing well, thank you!");
    ("What can you do?", "I can help with tasks, research, music, and more.");
    ("Hi there", "Hi! What can I help you with?");
    ("Thank you", "You're welcome!");
    ("That's interesting", "Glad you find it interesting!");
    ("I see", "Let me know if you have questions.");
    ("Okay", "What would you like to do next?");
    ("Sure", "Great, how can I assist you?");
    ("Never mind", "No problem! Let me know if you need anything.");
    ("Just checking", "I'm here if you need me.");
    ("What's 15% of 80?", "15% of 80 is 12.");
    ("Spell necessary", "necessary: N-E-C-E-S-S-A-R-Y");
    ("Square root of 144?", "The square root of 144 is 12.");
    ("Define ephemeral", "Ephemeral means lasting a very short time.");
    ("What year is it?", "It's 2024.");
    ("How old is the Earth?", "Earth is about 4.5 billion years old.") ].

Definition gen_negative : Gen (list Example) :=
  let all_tools := map snd TOOLS in
  for_each gen_negative_no_tool (fun '(user_msg, response) =>
    tools <- Random.sample all_tools (Nat.min 5 (List.length all_tools)) ;;
    vars <- vary_message user_msg ;;
    ret (make_no_tool user_msg response tools
         :: map (fun var => make_no_tool var response tools) (firstn 2 vars))).

Definition gen_multi_tool_multi
    : list (string * list (string * Dict Value) * list ToolSpec * string) :=
  [ ("Play music and show tasks",
     [("play_music", [("query", VStr "music"); ("type", VStr "playlist")]); ("get_tasks", [])],
     [tool "play_music"; tool "get_tasks"],
     "Music and tasks.");
    ("Check email and calendar",
     [("get_emails", []); ("get_calendar_events", [])],
     [tool "get_emails"; tool "get_calendar_events"],
     "Email and calendar.");
    ("System status CPU memory disk",
     [("system_cpu_usage", []); ("system_memory", []); ("system_disk", [])],
     [tool "system_cpu_usage"; tool "system_memory"; tool "system_disk"],
     "Full system status.");
    ("Tasks and calendar today",
     [("get_tasks", []); ("get_calendar_events", [("days_ahead", VInt 1)])],
     [tool "get_tasks"; tool "get_calendar_events"],
     "Tasks and calendar.");
    ("Search knowledge and documents for API",
     [("search_knowledge", [("query", VStr "API")]); ("search_documents", [("query", VStr "API")])],
     [tool "search_knowledge"; tool "search_documents"],
     "Search both.");
    ("Show files and reminders",
     [("list_files", []); ("list_reminders", [])],
     [tool "list_files"; tool "list_reminders"],
     "Files and reminders.");
    ("Docker logs and stats for luna-api",
     [("docker_logs", [("container_id", VStr "luna-api")]);
      ("docker_stats", [("container_id", VStr "luna-api")])],
     [tool "docker_logs"; tool "docker_stats"],
     "Docker logs and stats.");
    ("Show backgrounds and projects",
     [("get_backgrounds", []); ("get_projects", [])],
     [tool "get_backgrounds"; tool "get_projects"],
     "Backgrounds and projects.") ].

Definition gen_multi_tool : Gen (list Example) :=
  for_each gen_multi_tool_multi (fun '(user_msg, calls, tools, thinking) =>
    vars <- vary_message user_msg ;;
    ret (make_multi_tool user_msg calls tools thinking
         :: map (fun var => make_multi_tool var calls tools thinking) (firstn 2 vars))).

(* ================================================================== *)
(** * Typo augmentation *)
(* ================================================================== *)

(** A computation that consumes draws and may raise. *)
Definition Fallible (A : Type) : Type := Rng -> option (A * Rng).

Definition retE {A} (a : A) : Fallible A := fun g => Some (a, g).

Definition bindE {A B} (m : Fallible A) (k : A -> Fallible B) : Fallible B :=
  fun g => match m g with
           | Some (a, g') => k a g'
           | None => None
           end.

Definition lift {A} (m : Gen A) : Fallible A := fun g => Some (m g).

Notation "x <-? m ;; k" := (bindE m (fun x => k))
  (at level 61, m at next level, right associativity).

(** [xs[i]], which raises [IndexError] out of range. *)
Definition index {A} (xs : list A) (i : nat) : Fallible A :=
  fun g => match nth_error xs i with
           | Some a => Some (a, g)
           | None => None
           end.

Fixpoint foldE {A S} (body : S -> A -> Fallible S) (xs : list A) (s : S) : Fallible S :=
  match xs with
  | [] => retE s
  | x :: xs' => s' <-? body s x ;; foldE body xs' s'
  end.

Definition typo_map : Dict (list string) :=
  [ ("what", ["wat"; "waht"]); ("the", ["teh"; "hte"]); ("check", ["chekc"]);
    ("show", ["shwo"]); ("search", ["serach"]); ("play", ["paly"]); ("create", ["crate"]) ].

(** What the inner loop of [add_typos] appends for the word [w]. *)
Definition typo_word (w : string) : Gen string :=
  match dict_get typo_map (PyStr.lower w) with
  | Some typos =>
      r <- Random.random ;;
      if float_ltb r float_0_5 then Random.choice w typos else ret w
  | None => ret w
  end.

Definition typo_words (words : list string) : Gen (list string) :=
  foldM (fun new_words w => t <- typo_word w ;; ret (new_words ++ [t])) words [].

(** The copy [add_typos] derives from [ex] for the perturbed text. *)
Definition typo_copy (ex : Example) (new_msg : string) : Fallible Example :=
  m0 <-? index (messages ex) 0 ;;
  m2 <-? index (messages ex) 2 ;;
  retE {| messages := [m0; mkMessage "user" new_msg None; m2]; tools := tools ex |}.

(** The body of the loop of [add_typos]. *)
Definition add_typos_step (rate : Q) (augmented : list Example) (ex : Example)
    : Fallible (list Example) :=
  let augmented := augmented ++ [ex] in
  r <-? lift Random.random ;;
  if float_ltb r rate then
    m1 <-? index (messages ex) 1 ;;
    let user_msg := content m1 in
    let words := PyStr.split user_msg in
    new_words <-? lift (typo_words words) ;;
    let new_msg := PyStr.join " " new_words in
    if negb (String.eqb new_msg user_msg) then
      copy <-? typo_copy ex new_msg ;;
      retE (augmented ++ [copy])
    else retE augmented
  else retE augmented.

(** [add_typos(examples, rate)]; [rate = None] is a call that leaves the
    parameter to its default. *)
Definition add_typos (examples : list Example) (rate : option Q)
    : Fallible (list Example) :=
  let rate := match rate with Some r => r | None => float_0_1 end in
  foldE (add_typos_step rate) examples [].

(* ================================================================== *)
(** * The pipeline *)
(* ================================================================== *)

(** What [main] writes to standard output. The percentage of the
    negative examples is a formatted float; its line is kept as the two
    counts it is computed from. *)
Inductive Output : Type :=
| Print (line : string)
| PrintNegative (no_tool total : nat).

Inductive Status : Type :=
| Returned
| Raised.

(** What the operating system does with the output file. [main] opens
    the path for writing, writes a line per example and closes the file,
    then opens it again for reading; it creates no directory and catches
    no [OSError]. With [WriteRaises] opening the file for writing, or
    writing it, raises [OSError]; with [ReadRaises] the file is written
    and opening it for reading raises [OSError]; with [Reliable] the file
    is written and read back as it was written. *)
Inductive Disk : Type :=
| WriteRaises
| ReadRaises
| Reliable.

(** A run of [main]: what it printed, the content of the output file as
    the run wrote it ([None] when the run did not get to write it) and
    how it ended. *)
Record Run : Type := mkRun {
  printed : list Output;
  file : option string;
  status : Status
}.

Definition generators : list (string * Gen (list Example)) :=
  [ ("Research", gen_research);
    ("Knowledge", gen_knowledge);
    ("Tasks", gen_tasks);
    ("Calendar", gen_calendar);
    ("Email", gen_email);
    ("Music", gen_music);
    ("Code", gen_code);
    ("Reminders", gen_reminders);
    ("Files", gen_files);
    ("Images", gen_images);
    ("YouTube", gen_youtube);
    ("System", gen_system);
    ("Browser", gen_browser);
    ("Documents", gen_documents);
    ("Mood", gen_mood);
    ("Background", gen_background);
    ("Projects", gen_projects);
    ("Negative", gen_negative);
    ("Multi-tool", gen_multi_tool) ].

(** The loop of [main] over the generators: the examples collected and
    the count printed for each generator. *)
Definition run_generators : Gen (list Example * list Output) :=
  foldM (fun '(all_examples, out) '(name, gen) =>
           exs <- gen ;;
           ret (all_examples ++ exs,
                out ++ [Print (fstring ["  "; name; ": "; PyStr.of_nat (List.length exs)])]))
        generators ([], []).

(** Iterating over a text file: its lines, each with its terminator read
    as a line feed. *)
Fixpoint read_lines (s : string) : list string :=
  match s with
  | EmptyString => []
  | String c r =>
      if PyStr.code c =? 10 then PyStr.nl :: read_lines r
      else if PyStr.code c =? 13 then
        match r with
        | String c' r' =>
            if PyStr.code c' =? 10 then PyStr.nl :: read_lines r'
            else PyStr.nl :: read_lines r
        | EmptyString => [PyStr.nl]
        end
      else
        match read_lines r with
        | [] => [String c EmptyString]
        | l :: ls => String c l :: ls
        end
  end.

Record Stats : Type := mkStats {
  tool_counts : Dict nat;
  no_tool : nat;
  multi_tool : nat
}.

(** The body of the statistics loop of [main]; [None] is the
    [IndexError] of an example with fewer than three messages. *)
Definition stats_step (st : Stats) (ex : Example) : option Stats :=
  match nth_error (messages ex) 2 with
  | None => None
  | Some msg =>
      match tool_calls msg with
      | None => Some (mkStats (tool_counts st) (no_tool st + 1) (multi_tool st))
      | Some calls =>
          let multi := if 1 <? List.length calls then multi_tool st + 1 else multi_tool st in
          let counts :=
            fold_left (fun counts c =>
                         let name := fn_name (call_function c) in
                         let seen := match dict_get counts name with
                                     | Some n => n
                                     | None => 0
                                     end in
                         dict_set counts name (seen + 1))
                      calls (tool_counts st) in
          Some (mkStats counts (no_tool st) multi)
      end
  end.

Fixpoint stats_loop (st : Stats) (exs : list Example) : option Stats :=
  match exs with
  | [] => Some st
  | ex :: exs' =>
      match stats_step st ex with
      | Some st' => stats_loop st' exs'
      | None => None
      end
  end.

(** [sorted(items, key=lambda x: -x[1])]: descending counts, ties in
    their original order. *)
Fixpoint insert_by_count (x : string * nat) (l : list (string * nat)) : list (string * nat) :=
  match l with
  | [] => [x]
  | y :: l' => if snd x <=? snd y then y :: insert_by_count x l' else x :: l
  end.

Definition sorted_by_count (items : list (string * nat)) : list (string * nat) :=
  fold_left (fun acc x => insert_by_count x acc) items [].

Definition output_path : string := "/opt/luna-chat/data/luna_functiongemma_training.jsonl".

Section Pipeline.

(** The [json] module and the seeding of [random] are taken as given:
    [json_dumps] is [json.dumps]; [json_loads line] is [inl e] when
    [json.loads(line)] raises the [JSONDecodeError] [e] and [inr] of the
    parsed document otherwise; [seed n] is the state [random.seed(n)]
    leaves the generator in. *)
Variable Json : Type.
Variable json_dumps : Example -> string.
Variable json_loads : string -> string + Json.
Variable seed : N -> Rng.

(** The validation loop of [main] from line number [i] on: the number
    and the error of the first line that does not parse. *)
Fixpoint validate_from (i : nat) (lines : list string) : option (nat * string) :=
  match lines with
  | [] => None
  | line :: lines' =>
      match json_loads line with
      | inl e => Some (i, e)
      | inr _ => validate_from (S i) lines'
      end
  end.

(** [for i, line in enumerate(f, 1): ...] *)
Definition validate (lines : list string) : option (nat * string) :=
  validate_from 1 lines.

(** The examples of the corpus in the order they are written: generated,
    augmented with rate 0.15, shuffled under seed 42. *)
Definition corpus (g : Rng) : option (list Example) :=
  let '(all_examples, _, g1) := run_generators g in
  match add_typos all_examples (Some float_0_15) g1 with
  | None => None
  | Some (all_examples, _) => Some (fst (Random.shuffle all_examples (seed 42)))
  end.

(** The text written to the output file. *)
Definition serialize (all_examples : list Example) : string :=
  String.concat "" (map (fun ex => fstring [json_dumps ex; PyStr.nl]) all_examples).

(** The statistics stage of [main]. *)
Definition print_stats (all_examples : list Example) : list Output * Status :=
  match stats_loop (mkStats [] 0 0) all_examples with
  | None => ([], Raised)
  | Some st =>
      let total := List.length all_examples in
      let out := [Print (fstring [PyStr.nl; "Total: "; PyStr.of_nat total])] in
      if total =? 0 then (out, Raised)
      else
        let out :=
          out ++ [ PrintNegative (no_tool st) total;
                   Print (fstring ["Multi-tool: "; PyStr.of_nat (multi_tool st)]);
                   Print (fstring [PyStr.nl; "Tool distribution:"]) ] in
        let top := firstn 20 (sorted_by_count (tool_counts st)) in
        (out ++ map (fun '(tool, count) =>
                       Print (fstring ["  "; tool; ": "; PyStr.of_nat count])) top,
         Returned)
  end.

(** [main()], started with the random source in state [g], on a system
    whose file system behaves as [disk]. *)
Definition main (disk : Disk) (g : Rng) : Run :=
  let out := [ Print "Generating FunctionGemma training data for Luna Chat...";
               Print (fstring ["Target: 2000-5000 examples"; PyStr.nl]) ] in
  let '(all_examples, counts, g1) := run_generators g in
  let out := out ++ counts in
  let out := out ++ [Print (fstring [PyStr.nl; "Base: ";
                                     PyStr.of_nat (List.length all_examples)])] in
  match add_typos all_examples (Some float_0_15) g1 with
  | None => mkRun out None Raised
  | Some (all_examples, _) =>
      let out := out ++ [Print (fstring ["After typos: ";
                                         PyStr.of_nat (List.length all_examples)])] in
      let all_examples := fst (Random.shuffle all_examples (seed 42)) in
      match disk with
      | WriteRaises => mkRun out None Raised
      | _ =>
          let written := serialize all_examples in
          let out := out ++ [Print (fstring [PyStr.nl; "Written ";
                                             PyStr.of_nat (List.length all_examples);
                                             " examples to "; output_path])] in
          match disk with
          | Reliable =>
              match validate (read_lines written) with
              | Some (i, e) =>
                  mkRun (out ++ [Print (fstring ["Error line "; PyStr.of_nat i; ": "; e])])
                        (Some written) Returned
              | None =>
                  let out := out ++ [Print "All JSON valid!"] in
                  let (stats_out, st) := print_stats all_examples in
                  mkRun (out ++ stats_out) (Some written) st
              end
          | _ => mkRun out (Some written) Raised
          end
      end
  end.

End Pipeline.

Arguments validate_from {Json} json_loads i lines.
Arguments validate {Json} json_loads lines.
Arguments main {Json} json_dumps json_loads seed disk g.

(* ================================================================== *)
(** * Vocabulary of the properties *)
(* ================================================================== *)

(** [blk] opens with [base] twice in a row. *)
Definition doubled (base : Example) (blk : list Example) : Prop :=
  exists rest, blk = base :: base :: rest.

(** [out] is what a generator appends for one row of its table when it
    visits [n] sampled patterns: one block per pattern, each opening
    with that pattern's base example twice. *)
Definition row_output (n : nat) (patterns : list string)
    (is_base : string -> Example -> Prop) (out : list Example) : Prop :=
  exists blocks,
    out = List.concat blocks /\ List.length blocks = n /\
    Forall (fun blk => exists pattern base,
                In pattern patterns /\ is_base pattern base /\ doubled base blk)
           blocks.

(** The user turn and the assistant turn of an example. *)
Definition user_message (ex : Example) : option Message := nth_error (messages ex) 1.

Definition assistant_message (ex : Example) : option Message := nth_error (messages ex) 2.

(** The tool calls of the assistant turn, in the order they are listed. *)
Definition example_calls (ex : Example) : list ToolCall :=
  match assistant_message ex with
  | Some m => match tool_calls m with
              | Some calls => calls
              | None => []
              end
  | None => []
  end.

Definition call_name (c : ToolCall) : string := fn_name (call_function c).

Definition call_arguments (c : ToolCall) : Dict Value := fn_arguments (call_function c).

(** An example as the three constructors build it: three messages, the
    second a plain user message. *)
Definition well_formed (ex : Example) : Prop :=
  exists m0 user_msg m2, messages ex = [m0; mkMessage "user" user_msg None; m2].

(** [copy] is made of the first and third messages of [ex], around a
    user message whose text is not the content of the second message of
    [ex], and of the [tools] of [ex]. *)
Definition augmented_copy_of (ex copy : Example) : Prop :=
  tools copy = tools ex /\
  exists m0 m1 m2 new_msg,
    nth_error (messages ex) 0 = Some m0 /\
    nth_error (messages ex) 1 = Some m1 /\
    nth_error (messages ex) 2 = Some m2 /\
    messages copy = [m0; mkMessage "user" new_msg None; m2] /\
    new_msg <> content m1.

(** [l1] is [l2] with some elements left out. *)
Inductive subsequence {A : Type} : list A -> list A -> Prop :=
| subsequence_nil : subsequence [] []
| subsequence_keep x l1 l2 : subsequence l1 l2 -> subsequence (x :: l1) (x :: l2)
| subsequence_skip x l1 l2 : subsequence l1 l2 -> subsequence l1 (x :: l2).

(** The content is a reasoning trace between the two markers. *)
Definition think_wrapped (s : string) : Prop := exists thinking, s = think thinking.

Definition think_close : string := "</think>".

Fixpoint drop_close (s : string) : option string :=
  if String.eqb s think_close then Some EmptyString
  else match s with
       | EmptyString => None
       | String c r => option_map (String c) (drop_close r)
       end.

(** The trace inside the markers, when the content has both. *)
Definition unthink (s : string) : option string :=
  match s with
  | String "<" (String "t" (String "h" (String "i" (String "n" (String "k"
      (String ">" r)))))) => drop_close r
  | _ => None
  end.

(** The call names a tool of [tools] and has a key for every required
    parameter of each spec of that name. *)
Definition call_valid (tools : list ToolSpec) (c : ToolCall) : Prop :=
  In (call_name c) (map tool_name tools) /\
  forall spec, In spec tools -> tool_name spec = call_name c ->
    forall p, In p (s_required (tool_parameters spec)) ->
              In p (dict_keys (call_arguments c)).

Definition calls_valid (ex : Example) : Prop :=
  Forall (call_valid (tools ex)) (example_calls ex).

(** The assistant turn has ["tool_calls"] exactly when its content is a
    marked reasoning trace. *)
Definition marker_iff_calls (ex : Example) : Prop :=
  exists m, assistant_message ex = Some m /\
            (tool_calls m <> None <-> think_wrapped (content m)).

Definition call_ok (tools : list ToolSpec) (c : ToolCall) : bool :=
  PyStr.mem (call_name c) (map tool_name tools)
  && forallb (fun spec =>
                if String.eqb (tool_name spec) (call_name c)
                then forallb (fun p => PyStr.mem p (dict_keys (call_arguments c)))
                             (s_required (tool_parameters spec))
                else true)
             tools.

(** The decidable form of the three properties above. *)
Definition example_ok (ex : Example) : bool :=
  match messages ex with
  | [_; m1; m2] =>
      String.eqb (role m1) "user"
      && match tool_calls m1 with None => true | Some _ => false end
      && match tool_calls m2 with
         | Some calls =>
             match unthink (content m2) with Some _ => true | None => false end
             && forallb (call_ok (tools ex)) calls
         | None =>
             match unthink (content m2) with Some _ => false | None => true end
         end
  | _ => false
  end.

(** The word of an utterance that asks for a tool, for the tools the
    multi-tool table calls. *)
Definition intent_keyword : Dict string :=
  [ ("play_music", "music"); ("get_tasks", "tasks"); ("get_emails", "email");
    ("get_calendar_events", "calendar"); ("system_cpu_usage", "cpu");
    ("system_memory", "memory"); ("system_disk", "disk");
    ("search_knowledge", "knowledge"); ("search_documents", "documents");
    ("list_files", "files"); ("list_reminders", "reminders");
    ("docker_logs", "logs"); ("docker_stats", "stats");
    ("get_backgrounds", "backgrounds"); ("get_projects", "projects") ].

(** Where the utterance first asks for the tool, case aside. *)
Definition intent_position (utterance tool_name : string) : option nat :=
  match dict_get intent_keyword tool_name with
  | Some word => String.index 0 word (PyStr.lower utterance)
  | None => None
  end.

(** Every position is known and each one is past the one before it. *)
Fixpoint increasing (positions : list (option nat)) : bool :=
  match positions with
  | [] => true
  | None :: _ => false
  | Some i :: rest =>
      match rest with
      | Some j :: _ => (i <? j) && increasing rest
      | None :: _ => false
      | [] => true
      end
  end.

(** The calls come in the order in which the utterance asks for them. *)
Definition intents_in_order (utterance : string) (calls : list ToolCall) : bool :=
  increasing (map (fun c => intent_position utterance (call_name c)) calls).

(** Every string [vary_message] can put in its list for [msg]. *)
Definition variation_candidates (msg : string) : list string :=
  msg :: flat_map (fun p => map (fun s => PyStr.strip (p ++ PyStr.lower msg ++ s)) suffixes)
                  prefixes.

(** What one round of the loop appends for [ex]: the example itself,
    followed or not by one copy of it. *)
Definition typo_block (ex : Example) (blk : list Example) : Prop :=
  blk = [ex] \/ exists copy, blk = [ex; copy] /\ augmented_copy_of ex copy.

(** An example with fewer than three messages, on which [add_typos] may
    raise [IndexError]. *)
Definition short (ex : Example) : Prop := List.length (messages ex) < 3.

(** Two examples of the corpus, used to run the augmenter. *)
Definition check_calendar_example : Example :=
  make_example "check calendar" "get_calendar_events" []
    [tool "get_calendar_events"; tool "create_calendar_event"] "User wants calendar.".

Definition pause_example : Example :=
  make_example "Pause" "pause_music" [] gen_music_tools "Pause music.".

(** A draw that [random.random()] turns into a float between 0.1 and
    0.15. *)
Definition draw_0_12 : N := 1080863910568919.

(** The example passes the check. *)
Definition passes (ex : Example) : Prop := example_ok ex = true.

(** The base example of the second row of the multi-tool table. *)
Definition check_email_and_calendar : Example :=
  make_multi_tool "Check email and calendar"
    [("get_emails", []); ("get_calendar_events", [])]
    [tool "get_emails"; tool "get_calendar_events"]
    "Email and calendar.".

(** The call [make_multi_tool] builds from a pair of its [calls]. *)
Definition to_call (c : string * Dict Value) : ToolCall :=
  mkCall "function" (mkFunction (fst c) (snd c)).

(** What evaluation checks of a row of the multi-tool table: it has more
    than one call, every candidate variation of its utterance asks for
    the tools in the order of the calls, and no candidate is the
    utterance of the second row unless the row is the second one. *)
Definition multi_row_ok (row : string * list (string * Dict Value) * list ToolSpec * string)
    : bool :=
  let '(m, calls, ts, th) := row in
  (1 <? List.length calls)
  && forallb (fun v => intents_in_order v (map to_call calls)) (variation_candidates m)
  && (String.eqb m "Check email and calendar"
      || negb (PyStr.mem "Check email and calendar" (variation_candidates m))).

(** The line parses. *)
Definition parses {Json : Type} (json_loads : string -> string + Json) (line : string) : Prop :=
  exists doc, json_loads line = inr doc.

(** The line [main] writes for an example. *)
Definition written_line (json_dumps : Example -> string) (ex : Example) : string :=
  (json_dumps ex ++ PyStr.nl)%string.

(** What [main] prints before it opens the output file: the two lines
    of the heading, the count of each generator, the number of examples
    generated and the number after the typo stage. *)
Definition generation_output (counts : list Output) (base augmented : nat) : list Output :=
  [ Print "Generating FunctionGemma training data for Luna Chat...";
    Print (fstring ["Target: 2000-5000 examples"; PyStr.nl]) ]
  ++ counts
  ++ [ Print (fstring [PyStr.nl; "Base: "; PyStr.of_nat base]);
       Print (fstring ["After typos: "; PyStr.of_nat augmented]) ].

(** The line [main] prints once the file is written. *)
Definition written_output (n : nat) : Output :=
  Print (fstring [PyStr.nl; "Written "; PyStr.of_nat n; " examples to "; output_path]).

(** The line [main] prints for the line [i] that raised the error [e]. *)
Definition error_output (i : nat) (e : string) : Output :=
  Print (fstring ["Error line "; PyStr.of_nat i; ": "; e]).

(** A JSON document at its top level: the kind of value it is and, for
    an object, its keys. *)
Inductive JsonValue : Type :=
| JNull
| JBool
| JNumber
| JString
| JArray
| JObject (keys : list string).

(** The record schema of the output format, as the design document has
    it: an object with the keys ["messages"] and ["tools"]. *)
Definition record_schema (doc : JsonValue) : bool :=
  match doc with
  | JObject keys => PyStr.mem "messages" keys && PyStr.mem "tools" keys
  | _ => false
  end.

(** [json.loads] on the line [null]: the document is [None]. Every other
    line is refused here; only the line [null] is put to it. *)
Definition json_loads_null (line : string) : string + JsonValue :=
  if String.eqb (PyStr.strip line) "null" then inr JNull
  else inl "Expecting value: line 1 column 1 (char 0)".

(* ================================================================== *)
(** * Vocabulary of the further properties *)
(* ================================================================== *)

(** What [vary_message] puts after the message. *)
Definition is_variation (msg v : string) : Prop :=
  PyStr.lower v = v /\
  exists p s, In p prefixes /\ In s suffixes /\
              v = PyStr.strip (p ++ PyStr.lower msg ++ s).

(** The least and the greatest number of examples of each generator, in
    the order of [generators]. *)
Definition generator_sizes : list (nat * nat) :=
  [ (392, 392); (291, 291); (339, 352); (97, 112); (82, 92); (353, 353); (82, 82);
    (64, 64); (90, 90); (140, 140); (100, 100); (48, 48); (63, 63); (48, 48); (32, 32);
    (43, 43); (36, 36); (90, 90); (24, 24) ].

(** [t] is the word [w] or one of the typos the lexicon has for [w] in
    lower case. *)
Definition typo_of (w t : string) : Prop :=
  t = w \/ exists typos, dict_get typo_map (PyStr.lower w) = Some typos /\ In t typos.

(** [v] is the text [u] with its words joined by single spaces, some of
    them replaced by a typo. *)
Definition perturbed (u v : string) : Prop :=
  exists new_words, Forall2 typo_of (PyStr.split u) new_words /\
                    v = PyStr.join " " new_words.

(** No word of the text is in the lexicon, whatever its case. *)
Definition lexicon_free (u : string) : Prop :=
  Forall (fun w => dict_get typo_map (PyStr.lower w) = None) (PyStr.split u).

(** The text is its words joined by single spaces. *)
Definition single_spaced (u : string) : Prop := PyStr.join " " (PyStr.split u) = u.

(** What one round of the loop appends for [ex], with the text of the
    copy. *)
Definition typo_block_text (ex : Example) (blk : list Example) : Prop :=
  blk = [ex] \/
  exists copy m1 new_msg,
    blk = [ex; copy] /\
    user_message ex = Some m1 /\
    user_message copy = Some (mkMessage "user" new_msg None) /\
    perturbed (content m1) new_msg /\
    new_msg <> content m1.

(** An example with a user text that no round of the loop can change. *)
Definition untouchable (ex : Example) : Prop :=
  exists m1, user_message ex = Some m1 /\
             lexicon_free (content m1) /\ single_spaced (content m1).

(** The value has the JSON type the property declares and, when the
    property lists its values, is one of them. *)
Definition value_conforms (v : Value) (p : PropertySpec) : Prop :=
  match v with
  | VStr s => p_type p = "string" /\ forall vals, p_enum p = Some vals -> In s vals
  | VInt _ => p_type p = "integer"
  | VBool _ => p_type p = "boolean"
  end.

(** Every argument of the call is a declared property of each spec of
    [tools] that has the name of the call, with a conforming value. *)
Definition arguments_conform (tools : list ToolSpec) (c : ToolCall) : Prop :=
  forall spec, In spec tools -> tool_name spec = call_name c ->
    forall k v, In (k, v) (call_arguments c) ->
      exists p, dict_get (s_properties (tool_parameters spec)) k = Some p /\
                value_conforms v p.

(** The spec is the entry the catalog has under its name. *)
Definition catalogued (t : ToolSpec) : Prop := dict_get TOOLS (tool_name t) = Some t.

(** The messages are the fixed developer prompt, a user message and an
    assistant message whose calls, if any, are of type ["function"]. *)
Definition framed (ex : Example) : Prop :=
  exists user_msg answer calls,
    messages ex = [ mkMessage "developer" developer_prompt None;
                    mkMessage "user" user_msg None;
                    mkMessage "assistant" answer calls ] /\
    forall cs, calls = Some cs -> Forall (fun c => call_type c = "function") cs.

Definition option_eqb {A} (eqb : A -> A -> bool) (x y : option A) : bool :=
  match x, y with
  | Some a, Some b => eqb a b
  | None, None => true
  | _, _ => false
  end.

Fixpoint list_eqb {A} (eqb : A -> A -> bool) (l1 l2 : list A) : bool :=
  match l1, l2 with
  | [], [] => true
  | a :: l1', b :: l2' => eqb a b && list_eqb eqb l1' l2'
  | _, _ => false
  end.

Definition prop_eqb (p q : PropertySpec) : bool :=
  String.eqb (p_type p) (p_type q)
  && String.eqb (p_description p) (p_description q)
  && option_eqb (list_eqb String.eqb) (p_enum p) (p_enum q)
  && option_eqb String.eqb (p_items p) (p_items q).

Definition schema_eqb (s1 s2 : ParamSchema) : bool :=
  String.eqb (s_type s1) (s_type s2)
  && list_eqb (fun a b => String.eqb (fst a) (fst b) && prop_eqb (snd a) (snd b))
              (s_properties s1) (s_properties s2)
  && list_eqb String.eqb (s_required s1) (s_required s2).

Definition tool_eqb (t1 t2 : ToolSpec) : bool :=
  String.eqb (tool_name t1) (tool_name t2)
  && String.eqb (tool_description t1) (tool_description t2)
  && schema_eqb (tool_parameters t1) (tool_parameters t2).

Definition catalogued_b (t : ToolSpec) : bool :=
  match dict_get TOOLS (tool_name t) with
  | Some t' => tool_eqb t' t
  | None => false
  end.

Definition value_ok (v : Value) (p : PropertySpec) : bool :=
  match v with
  | VStr s =>
      String.eqb (p_type p) "string"
      && match p_enum p with
         | Some vals => PyStr.mem s vals
         | None => true
         end
  | VInt _ => String.eqb (p_type p) "integer"
  | VBool _ => String.eqb (p_type p) "boolean"
  end.

Definition call_conforms (tools : list ToolSpec) (c : ToolCall) : bool :=
  forallb (fun spec =>
             if String.eqb (tool_name spec) (call_name c)
             then forallb (fun kv =>
                             match dict_get (s_properties (tool_parameters spec)) (fst kv) with
                             | Some p => value_ok (snd kv) p
                             | None => false
                             end)
                          (call_arguments c)
             else true)
          tools.

Definition tools_ok (tools : list ToolSpec) : bool :=
  match tools with
  | [] => false
  | _ => forallb catalogued_b tools
  end.

(** The decidable form of [framed], of a non-empty catalogued [tools]
    list and of conforming arguments. *)
Definition example_conforms (ex : Example) : bool :=
  match messages ex with
  | [m0; m1; m2] =>
      String.eqb (role m0) "developer"
      && String.eqb (content m0) developer_prompt
      && match tool_calls m0 with None => true | Some _ => false end
      && String.eqb (role m1) "user"
      && match tool_calls m1 with None => true | Some _ => false end
      && String.eqb (role m2) "assistant"
      && match tool_calls m2 with
         | Some calls =>
             forallb (fun c => String.eqb (call_type c) "function"
                               && call_conforms (tools ex) c) calls
         | None => true
         end
      && tools_ok (tools ex)
  | _ => false
  end.

Definition conforms (ex : Example) : Prop := example_conforms ex = true.

(** ["tool_calls" not in ex["messages"][2]] *)
Definition without_calls (ex : Example) : bool :=
  match assistant_message ex with
  | Some m => match tool_calls m with
              | None => true
              | Some _ => false
              end
  | None => false
  end.

(** The assistant message lists more than one call. *)
Definition with_many_calls (ex : Example) : bool := 1 <? List.length (example_calls ex).

(** How many calls of [exs] name [name]. *)
Definition times_called (name : string) (exs : list Example) : nat :=
  count_occ string_dec (map call_name (flat_map example_calls exs)) name.

(** The count [d] holds for [name], [0] for a name it does not hold. *)
Definition count_of (d : Dict nat) (name : string) : nat :=
  match dict_get d name with
  | Some n => n
  | None => 0
  end.

(** The line of the distribution for one tool. *)
Definition distribution_line (item : string * nat) : Output :=
  Print (fstring ["  "; fst item; ": "; PyStr.of_nat (snd item)]).

(** What the statistics hold after the loop, in terms of what they held
    before it. *)
Definition counted (st0 : Stats) (exs : list Example) (st : Stats) : Prop :=
  no_tool st = no_tool st0 + List.length (filter without_calls exs) /\
  multi_tool st = multi_tool st0 + List.length (filter with_many_calls exs) /\
  (forall name, count_of (tool_counts st) name
                = count_of (tool_counts st0) name + times_called name exs) /\
  (forall name, In name (dict_keys (tool_counts st))
                <-> In name (dict_keys (tool_counts st0)) \/ 0 < times_called name exs) /\
  (NoDup (dict_keys (tool_counts st0)) -> NoDup (dict_keys (tool_counts st))).

(** Counts in non-increasing order. *)
Definition descending (l : list (string * nat)) : Prop :=
  StronglySorted (fun x y => snd y <= snd x) l.

(** The text has no line feed and no carriage return. *)
Fixpoint one_line (s : string) : bool :=
  match s with
  | EmptyString => true
  | String c r => negb (PyStr.code c =? 10) && negb (PyStr.code c =? 13) && one_line r
  end.

(** No string occurs twice. *)
Fixpoint distinct (l : list string) : bool :=
  match l with
  | [] => true
  | x :: r => negb (PyStr.mem x r) && distinct r
  end.

(** What [gen_research] appends for one sampled pattern of a topic: the
    labelled utterance and one labelled variation of it. *)
Definition research_pair (blk : list Example) : Prop :=
  exists topic pattern args v,
    let user_msg := format1 "t" pattern topic in
    let query := VStr (fstring [topic; " latest developments"]) in
    let mk := fun m => make_example m "research" args
                         [tool "research"; tool "search_knowledge"]
                         (fstring ["User wants research on "; topic;
                                   ". Using research tool."]) in
    In topic gen_research_topics /\ In pattern gen_research_patterns /\
    (args = [("query", query)] \/
     args = [("query", query); ("depth", VStr "thorough")]) /\
    is_variation user_msg v /\ v <> user_msg /\
    blk = [mk user_msg; mk v].

(** What [gen_negative] appends for one row of its bank: the answered
    utterance twice and one variation of it, all three without calls
    and with the same five distinct specs of the catalog. *)
Definition negative_block (row : string * string) (blk : list Example) : Prop :=
  exists ts v,
    List.length ts = 5 /\ NoDup ts /\ Forall catalogued ts /\
    is_variation (fst row) v /\
    blk = [ make_no_tool (fst row) (snd row) ts;
            make_no_tool (fst row) (snd row) ts;
            make_no_tool v (snd row) ts ].

(** The line [main] prints for a generator and the number of examples
    it gave. *)
Definition count_line (name : string) (n : nat) : Output :=
  Print (fstring ["  "; name; ": "; PyStr.of_nat n]).

(* ================================================================== *)
(** * Evaluation on the scenarios of the design document *)
(* ================================================================== *)

Example lower_check_email : PyStr.lower "Check Email" = "check email".
Proof. reflexivity. Qed.

Example strip_spaces : PyStr.strip "  hey luna  " = "hey luna".
Proof. reflexivity. Qed.

Example split_words : PyStr.split " what  is the time " = ["what"; "is"; "the"; "time"].
Proof. reflexivity. Qed.

Example title_event : PyStr.title "1:1 with manager" = "1:1 With Manager".
Proof. reflexivity. Qed.

Example format_reminder :
  PyStr.format [("m"%char, "stretch"); ("t"%char, PyStr.of_nat 10)]
               "Remind me to {m} in {t} minutes"
  = "Remind me to stretch in 10 minutes".
Proof. reflexivity. Qed.

Example vary_play_jazz :
  fst (vary_message "Play jazz" [1; 2; 3; 4; 5; 6; 7; 8; 9]%N)
  = ["Play jazz"; "hey play jazz thanks"; "hey play jazz thx";
     "hi play jazz ty"; "hi play jazz please"].
Proof. vm_compute. reflexivity. Qed.

(** With an empty message the same string can be appended twice: the
    membership test sees the string before it is stripped. *)
Example vary_empty_message :
  fst (vary_message "" [8; 0; 0; 0; 0; 1]%N) = [""; "please"; "please  ty"; "please"; "ok"].
Proof. vm_compute. reflexivity. Qed.

Example str_of_zero : PyStr.of_nat 0 = "0".
Proof. reflexivity. Qed.

Example catalog_size : List.length TOOLS = 52.
Proof. reflexivity. Qed.

Example play_jazz_scenario :
  hd_error (fst (gen_music []))
  = Some (make_example "Play jazz" "play_music"
            [("query", VStr "jazz"); ("type", VStr "playlist")] gen_music_tools
            "Play music: jazz").
Proof. vm_compute. reflexivity. Qed.

Example my_tasks_scenario :
  nth_error (fst (gen_tasks [])) 300
  = Some (make_example "What are my tasks?" "get_tasks" [] gen_tasks_tools
            "User wants their tasks.").
Proof. vm_compute. reflexivity. Qed.

Example two_plus_two_scenario :
  option_map (fun ex => (option_map content (user_message ex),
                         option_map content (assistant_message ex),
                         example_calls ex, List.length (tools ex)))
             (nth_error (fst (gen_negative [])) 9)
  = Some (Some "What is 2 + 2?", Some "2 + 2 equals 4.", [], 5).
Proof. vm_compute. reflexivity. Qed.

Example base_corpus_size : List.length (fst (fst (run_generators []))) = 2452.
Proof. vm_compute. reflexivity. Qed.

(* ================================================================== *)
(** * Loops *)
(* ================================================================== *)

Section LoopLemmas.

Context {A S : Type}.

(** An invariant of the body, at the elements the loop visits, is an
    invariant of the loop. *)
Lemma foldM_invariant (P : S -> Prop) (body : S -> A -> Gen S) (xs : list A) :
  (forall s x g, In x xs -> P s -> P (fst (body s x g))) ->
  forall s g, P s -> P (fst (foldM body xs s g)).
Proof.
  induction xs as [|x xs IH]; intros Hbody s g Hs; simpl.
  - exact Hs.
  - unfold bind. destruct (body s x g) as [s' g'] eqn:E.
    apply IH.
    + intros s0 x0 g0 Hin. apply Hbody. now right.
    + specialize (Hbody s x g (or_introl eq_refl) Hs). now rewrite E in Hbody.
Qed.

End LoopLemmas.

Lemma for_each_Forall {A B} (P : B -> Prop) (xs : list A) (body : A -> Gen (list B)) :
  (forall x g, In x xs -> Forall P (fst (body x g))) ->
  forall g, Forall P (fst (for_each xs body g)).
Proof.
  induction xs as [|x xs IH]; intros Hbody g; simpl.
  - constructor.
  - unfold bind. destruct (body x g) as [out g'] eqn:E.
    destruct (for_each xs body g') as [outs g''] eqn:E'. simpl.
    apply Forall_app. split.
    + specialize (Hbody x g (or_introl eq_refl)). now rewrite E in Hbody.
    + specialize (IH (fun x0 g0 H => Hbody x0 g0 (or_intror H)) g'). now rewrite E' in IH.
Qed.

(** The output of an appending loop is the concatenation of what its
    body appended at each element. *)
Lemma for_each_blocks {A B} (R : A -> list B -> Prop) (xs : list A) (body : A -> Gen (list B)) :
  (forall x g, In x xs -> R x (fst (body x g))) ->
  forall g, exists blocks,
    fst (for_each xs body g) = List.concat blocks /\ Forall2 R xs blocks.
Proof.
  induction xs as [|x xs IH]; intros Hbody g; simpl.
  - exists []. split; [reflexivity | constructor].
  - unfold bind. destruct (body x g) as [out g'] eqn:E.
    destruct (IH (fun x0 g0 H => Hbody x0 g0 (or_intror H)) g') as [blocks [Hc HF]].
    destruct (for_each xs body g') as [outs g''] eqn:E'. simpl in *.
    exists (out :: blocks). split.
    + simpl. now rewrite Hc.
    + constructor; [|exact HF].
      specialize (Hbody x g (or_introl eq_refl)). now rewrite E in Hbody.
Qed.

(* ================================================================== *)
(** * Sampling *)
(* ================================================================== *)

Lemma list_set_In {A} (l : list A) i v x :
  In x (Random.list_set l i v) -> x = v \/ In x l.
Proof.
  revert i; induction l as [|a l IH]; intros [|i] H; simpl in *; try tauto.
  - destruct H; auto.
  - destruct H as [H|H]; auto. apply IH in H. tauto.
Qed.

Lemma In_firstn {A} (n : nat) (l : list A) x : In x (firstn n l) -> In x l.
Proof.
  intros H. rewrite <- (firstn_skipn n l). apply in_or_app. now left.
Qed.

Lemma last_In {A} (l : list A) d : l <> [] -> In (last l d) l.
Proof.
  induction l as [|a l IH]; intros H; [congruence|].
  destruct l as [|b l]; simpl; [now left|].
  right. apply IH. discriminate.
Qed.

Lemma randbelow_lt n g : 0 < n -> fst (Random.randbelow n g) < n.
Proof.
  intros Hn. unfold Random.randbelow. destruct (Random.next_draw g) as [x g']. simpl.
  assert (H : (x mod N.of_nat n < N.of_nat n)%N) by (apply N.mod_lt; lia).
  lia.
Qed.

(** Whatever the draws, a sample is made of elements of the population. *)
Lemma sample_pool_In {A} (k : nat) : forall (pool : list A) g x,
  In x (fst (Random.sample_pool pool k g)) -> In x pool.
Proof.
  induction k as [|k IH]; intros pool g x H; simpl in H; [contradiction|].
  destruct pool as [|d pool']; [contradiction|].
  remember (d :: pool') as pool eqn:Hpool.
  assert (Hne : pool <> []) by (subst; discriminate).
  unfold bind in H.
  pose proof (randbelow_lt (List.length pool) g) as Hlt.
  destruct (Random.randbelow (List.length pool) g) as [j g1].
  destruct (Random.sample_pool _ k g1) as [rest g2] eqn:Er.
  simpl in H. destruct H as [H|H].
  - subst x. apply nth_In. apply Hlt. subst pool. simpl. lia.
  - assert (Hin : In x (fst (Random.sample_pool
        (firstn (List.length pool - 1) (Random.list_set pool j (last pool d))) k g1)))
      by (rewrite Er; exact H).
    apply IH in Hin. apply In_firstn in Hin. apply list_set_In in Hin.
    destruct Hin as [->|Hin]; [apply last_In; exact Hne | exact Hin].
Qed.

Lemma sample_In {A} (population : list A) k g x :
  In x (fst (Random.sample population k g)) -> In x population.
Proof. apply sample_pool_In. Qed.

(* ================================================================== *)
(** * Strings *)
(* ================================================================== *)

Lemma mem_In x xs : PyStr.mem x xs = true <-> In x xs.
Proof.
  unfold PyStr.mem. rewrite existsb_exists. split.
  - intros [y [Hy E]]. apply String.eqb_eq in E. now subst.
  - intros H. exists x. split; [exact H | apply String.eqb_refl].
Qed.

Lemma is_space_lower_char c : PyStr.is_space (PyStr.lower_char c) = PyStr.is_space c.
Proof.
  destruct c as [[] [] [] [] [] [] [] []]; reflexivity.
Qed.

Lemma lstrip_lower s : PyStr.lstrip (PyStr.lower s) = PyStr.lower (PyStr.lstrip s).
Proof.
  induction s as [|c r IH]; simpl; [reflexivity|].
  rewrite is_space_lower_char. destruct (PyStr.is_space c); [exact IH | reflexivity].
Qed.

Lemma rstrip_lower s : PyStr.rstrip (PyStr.lower s) = PyStr.lower (PyStr.rstrip s).
Proof.
  induction s as [|c r IH]; simpl; [reflexivity|].
  rewrite IH, is_space_lower_char.
  destruct (PyStr.rstrip r); simpl; [destruct (PyStr.is_space c)|]; reflexivity.
Qed.

Lemma strip_lower s : PyStr.strip (PyStr.lower s) = PyStr.lower (PyStr.strip s).
Proof. unfold PyStr.strip. now rewrite lstrip_lower, rstrip_lower. Qed.

Lemma lstrip_length s : String.length (PyStr.lstrip s) <= String.length s.
Proof.
  induction s as [|c r IH]; simpl; [lia|].
  destruct (PyStr.is_space c); simpl; lia.
Qed.

Lemma rstrip_length s : String.length (PyStr.rstrip s) <= String.length s.
Proof.
  induction s as [|c r IH]; simpl; [lia|].
  destruct (PyStr.rstrip r); [destruct (PyStr.is_space c)|]; simpl in *; lia.
Qed.

(** A string that [strip] leaves alone is left alone by both of its
    halves. *)
Lemma strip_fixed s :
  PyStr.strip s = s -> PyStr.lstrip s = s /\ PyStr.rstrip s = s.
Proof.
  intros H. unfold PyStr.strip in H.
  assert (Hl : PyStr.lstrip s = s).
  { destruct s as [|c r]; [reflexivity|]. simpl in *.
    destruct (PyStr.is_space c); [|reflexivity].
    exfalso.
    pose proof (rstrip_length (PyStr.lstrip r)) as H1.
    pose proof (lstrip_length r) as H2.
    rewrite H in H1. simpl in H1. lia. }
  split; [exact Hl | now rewrite Hl in H].
Qed.

Lemma append_nil_r s : (s ++ "")%string = s.
Proof. induction s; simpl; congruence. Qed.

Lemma append_nonempty x y : y <> "" -> (x ++ y)%string <> "".
Proof. destruct x; simpl; [tauto | discriminate]. Qed.

Lemma rstrip_append x y :
  PyStr.rstrip y <> "" -> PyStr.rstrip (x ++ y) = (x ++ PyStr.rstrip y)%string.
Proof.
  intros Hy. induction x as [|c x IH]; simpl; [reflexivity|].
  rewrite IH. destruct (x ++ PyStr.rstrip y)%string eqn:E; [|reflexivity].
  exfalso. revert E. now apply append_nonempty.
Qed.

Lemma lstrip_append x y :
  x <> "" -> PyStr.lstrip x = x -> PyStr.lstrip (x ++ y) = (x ++ y)%string.
Proof.
  intros Hne H. destruct x as [|c x]; [congruence|]. simpl in *.
  destruct (PyStr.is_space c); [|reflexivity].
  exfalso. pose proof (lstrip_length x) as Hl. rewrite H in Hl. simpl in Hl. lia.
Qed.

Lemma lower_nonempty s : s <> "" -> PyStr.lower s <> "".
Proof. destruct s; simpl; [tauto | discriminate]. Qed.

(** Every prefix and suffix of the expander keeps a stripped sentence
    stripped. *)
Lemma strip_variation lower p s :
  lower <> "" -> PyStr.strip lower = lower ->
  In p prefixes -> In s suffixes ->
  PyStr.strip (p ++ lower ++ s) = (p ++ lower ++ s)%string.
Proof.
  intros Hne Hfix Hp Hs.
  destruct (strip_fixed _ Hfix) as [Hl Hr].
  assert (Hls : PyStr.lstrip (lower ++ s) = (lower ++ s)%string)
    by (now apply lstrip_append).
  assert (Hrs : PyStr.rstrip (lower ++ s) = (lower ++ s)%string).
  { simpl in Hs.
    repeat (destruct Hs as [<-|Hs];
            [first [ now rewrite append_nil_r
                   | rewrite rstrip_append; [reflexivity | discriminate] ] |]).
    contradiction. }
  assert (Hnes : (lower ++ s)%string <> "").
  { destruct lower; [congruence | discriminate]. }
  unfold PyStr.strip.
  assert (Hlp : PyStr.lstrip (p ++ lower ++ s) = (p ++ lower ++ s)%string).
  { simpl in Hp.
    repeat (destruct Hp as [<-|Hp]; [first [exact Hls | reflexivity] |]).
    contradiction. }
  rewrite Hlp. rewrite rstrip_append; rewrite Hrs; [reflexivity | exact Hnes].
Qed.

(* ================================================================== *)
(** * The template expander *)
(* ================================================================== *)

(** A property of the list [vary_message] builds that holds of [[msg]]
    and that each step keeps, for every prefix and suffix it may sample,
    holds of the list that is cut to five elements at the end. *)
Lemma vary_message_invariant (P : list string -> Prop) (msg : string) :
  P [msg] ->
  (forall p s l, In p prefixes -> In s suffixes -> P l ->
                 P (vary_step msg (PyStr.lower msg) p l s)) ->
  forall g, exists variations,
    fst (vary_message msg g) = firstn 5 variations /\ P variations.
Proof.
  intros Hinit Hstep g. unfold vary_message, bind.
  destruct (Random.sample prefixes 3 g) as [ps g1] eqn:Eps.
  assert (Hps : forall p, In p ps -> In p prefixes).
  { intros p Hp. apply (sample_In prefixes 3 g). now rewrite Eps. }
  match goal with
  | |- context [foldM ?body ps [msg] g1] =>
      pose proof (foldM_invariant P body ps) as Hfold;
      destruct (foldM body ps [msg] g1) as [variations g2] eqn:Ef
  end.
  exists variations. split; [reflexivity|].
  assert (Hgoal : P (fst (variations, g2))); [|exact Hgoal].
  rewrite <- Ef. apply Hfold; [|exact Hinit].
  intros l p g0 Hp Hl. unfold bind.
  destruct (Random.sample suffixes 2 g0) as [ss g3] eqn:Ess. simpl.
  assert (Hss : forall s, In s ss -> In s suffixes).
  { intros s Hs. apply (sample_In suffixes 2 g0). now rewrite Ess. }
  clear Ess. revert l Hl. induction ss as [|s ss IH]; intros l Hl; simpl; [exact Hl|].
  apply IH.
  - intros s0 Hs0. apply Hss. now right.
  - apply Hstep; [apply Hps, Hp | apply Hss; now left | exact Hl].
Qed.

Lemma vary_message_length msg g : List.length (fst (vary_message msg g)) <= 5.
Proof.
  destruct (vary_message_invariant (fun _ => True) msg I (fun _ _ _ _ _ _ => I) g)
    as [variations [-> _]].
  apply firstn_le_length.
Qed.

(** The original message opens the list. *)
Lemma vary_message_head msg g : exists rest, fst (vary_message msg g) = msg :: rest.
Proof.
  destruct (vary_message_invariant (fun l => exists rest, l = msg :: rest) msg) with (g := g)
    as [variations [-> [rest ->]]].
  - now exists [].
  - intros p s l _ _ [rest ->]. unfold vary_step.
    destruct (_ && _); [exists (rest ++ [PyStr.strip (p ++ PyStr.lower msg ++ s)]) | exists rest];
      reflexivity.
  - now exists (firstn 4 rest).
Qed.

Lemma NoDup_snoc {A} (l : list A) x : NoDup l -> ~ In x l -> NoDup (l ++ [x]).
Proof.
  intros Hl Hx. apply NoDup_app; [exact Hl | repeat constructor; simpl; tauto |].
  intros a Ha [<-|[]]. contradiction.
Qed.

Lemma vary_message_NoDup msg g :
  msg <> "" -> PyStr.strip msg = msg -> NoDup (fst (vary_message msg g)).
Proof.
  intros Hne Hfix.
  destruct (vary_message_invariant (@NoDup string) msg) with (g := g)
    as [variations [-> Hnd]].
  - repeat constructor. simpl. tauto.
  - intros p s l Hp Hs Hl. unfold vary_step.
    destruct (negb (String.eqb (p ++ PyStr.lower msg ++ s) msg)
              && negb (PyStr.mem (p ++ PyStr.lower msg ++ s) l)) eqn:E; [|exact Hl].
    apply andb_true_iff in E. destruct E as [_ E].
    rewrite strip_variation; try assumption.
    + apply NoDup_snoc; [exact Hl|]. intros Hin. apply mem_In in Hin.
      rewrite Hin in E. discriminate.
    + now apply lower_nonempty.
    + now rewrite strip_lower, Hfix.
  - rewrite <- (firstn_skipn 5 variations) in Hnd. now apply NoDup_app_remove_r in Hnd.
Qed.

Lemma list_set_length {A} (l : list A) i v :
  List.length (Random.list_set l i v) = List.length l.
Proof.
  revert i; induction l as [|a l IH]; intros [|i]; simpl; auto.
Qed.

Lemma sample_pool_length {A} (k : nat) : forall (pool : list A) g,
  List.length (fst (Random.sample_pool pool k g)) = Nat.min k (List.length pool).
Proof.
  induction k as [|k IH]; intros pool g; [reflexivity|].
  destruct pool as [|d pool']; [reflexivity|].
  change (Random.sample_pool (d :: pool') (S k) g)
    with (bind (Random.randbelow (List.length (d :: pool')))
            (fun j =>
               bind (Random.sample_pool
                       (firstn (List.length (d :: pool') - 1)
                          (Random.list_set (d :: pool') j (last (d :: pool') d))) k)
                    (fun rest => ret (nth j (d :: pool') d :: rest))) g).
  unfold bind.
  destruct (Random.randbelow (List.length (d :: pool')) g) as [j g1].
  match goal with
  | |- context [Random.sample_pool ?p k g1] =>
      specialize (IH p g1); destruct (Random.sample_pool p k g1) as [rest g2]
  end.
  cbn [fst ret List.length] in *. rewrite IH, length_firstn, list_set_length.
  cbn [List.length]. lia.
Qed.

Lemma sample_length {A} (population : list A) k g :
  k <= List.length population ->
  List.length (fst (Random.sample population k g)) = k.
Proof. intros H. unfold Random.sample. rewrite sample_pool_length. lia. Qed.

(** A base example followed by the examples of the first two variations
    is followed by itself. *)
Lemma doubled_by_variations (mk : string -> Example) (n : nat) msg g :
  doubled (mk msg) (mk msg :: map mk (firstn (S n) (fst (vary_message msg g)))).
Proof.
  destruct (vary_message_head msg g) as [rest ->].
  exists (map mk (firstn n rest)). reflexivity.
Qed.

(** Closes the goal that the body of a loop which labels the first two
    variations with [mk] doubles its base example. *)
Ltac doubled_step mk :=
  unfold bind;
  match goal with
  | |- context [vary_message ?m ?g] =>
      let Hd := fresh "Hd" in
      pose proof (doubled_by_variations mk 1 m g) as Hd;
      destruct (vary_message m g); exact Hd
  end.

Lemma Forall2_length_eq {A B} (R : A -> B -> Prop) l l' :
  Forall2 R l l' -> List.length l = List.length l'.
Proof. induction 1; simpl; congruence. Qed.

Lemma Forall2_Forall_r {A B} (R : A -> B -> Prop) (Q : B -> Prop) l l' :
  Forall2 R l l' -> (forall a b, In a l -> R a b -> Q b) -> Forall Q l'.
Proof.
  induction 1 as [|a b l l' Hab _ IH]; intros HQ; constructor.
  - apply (HQ a); [now left | exact Hab].
  - apply IH. intros a0 b0 Ha0. apply HQ. now right.
Qed.

(** The pattern loop of a generator that doubles its base example. *)
Lemma sampled_row_output (patterns : list string) (k : nat)
    (body : string -> Gen (list Example)) (is_base : string -> Example -> Prop) :
  k <= List.length patterns ->
  (forall pattern g, In pattern patterns ->
     exists base, is_base pattern base /\ doubled base (fst (body pattern g))) ->
  forall g,
    row_output k patterns is_base
      (fst ((sampled <- Random.sample patterns k ;; for_each sampled body) g)).
Proof.
  intros Hk Hbody g. unfold bind.
  pose proof (sample_length patterns k g Hk) as Hlen.
  pose proof (sample_In patterns k g) as Hin.
  destruct (Random.sample patterns k g) as [sampled g1]. simpl in Hlen, Hin.
  destruct (for_each_blocks
              (fun pattern blk => exists base, is_base pattern base /\ doubled base blk)
              sampled body) with (g := g1) as [blocks [Hc HF]].
  { intros x g0 Hx. apply Hbody. now apply Hin. }
  exists blocks. split; [exact Hc|]. split.
  - rewrite <- (Forall2_length_eq _ _ _ HF). exact Hlen.
  - apply (Forall2_Forall_r _ _ _ _ HF).
    intros pattern blk Hp [base [Hb Hd]]. exists pattern, base. auto.
Qed.

Lemma gen_knowledge_doubles g :
  exists outs tail,
    fst (gen_knowledge g) = List.concat outs ++ tail /\
    Forall2 (fun term out =>
               row_output 3 gen_knowledge_patterns
                 (fun pattern base =>
                    base = knowledge_search_example term (format1 "t" pattern term))
                 out)
            gen_knowledge_search_terms outs.
Proof.
  unfold gen_knowledge. unfold bind at 1.
  match goal with
  | |- context [for_each gen_knowledge_search_terms ?body g] =>
      destruct (for_each_blocks
                  (fun term out =>
                     row_output 3 gen_knowledge_patterns
                       (fun pattern base =>
                          base = knowledge_search_example term (format1 "t" pattern term))
                       out)
                  gen_knowledge_search_terms body) with (g := g) as [outs [Hc HF]];
      [| destruct (for_each gen_knowledge_search_terms body g) as [searches g1] ]
  end.
  - intros term g0 _. apply sampled_row_output; [simpl; lia|].
    intros pattern g1 _. eexists. split; [reflexivity|].
    doubled_step (knowledge_search_example term).
  - simpl in *. subst searches. eexists outs, _. split; [reflexivity | exact HF].
Qed.

Lemma gen_tasks_doubles g :
  exists outs tail,
    fst (gen_tasks g) = List.concat outs ++ tail /\
    Forall2 (fun '(task_desc, title, desc, priority) out =>
               row_output 4 gen_tasks_create_patterns
                 (fun pattern base =>
                    base = make_example (format1 "t" pattern task_desc) "create_task"
                             (create_task_args title desc priority) gen_tasks_tools
                             (fstring ["User wants to create task: "; title]))
                 out)
            gen_tasks_tasks outs.
Proof.
  unfold gen_tasks. unfold bind at 1.
  match goal with
  | |- context [for_each gen_tasks_tasks ?body g] =>
      destruct (for_each_blocks
                  (fun '(task_desc, title, desc, priority) out =>
                     row_output 4 gen_tasks_create_patterns
                       (fun pattern base =>
                          base = make_example (format1 "t" pattern task_desc) "create_task"
                                   (create_task_args title desc priority) gen_tasks_tools
                                   (fstring ["User wants to create task: "; title]))
                       out)
                  gen_tasks_tasks body) with (g := g) as [outs [Hc HF]];
      [| destruct (for_each gen_tasks_tasks body g) as [created g1] ]
  end.
  - intros [[[task_desc title] desc] priority] g0 _.
    apply sampled_row_output; [simpl; lia|].
    intros pattern g1 _. eexists. split; [reflexivity|].
    doubled_step (fun var => make_example var "create_task"
                               (create_task_args title desc priority) gen_tasks_tools
                               (fstring ["User wants to create task: "; title])).
  - unfold bind.
    match goal with |- context [for_each gen_tasks_get_patterns ?b g1] =>
      destruct (for_each gen_tasks_get_patterns b g1) as [listed g2] end.
    simpl in *. subst created. eexists outs, _. split; [reflexivity | exact HF].
Qed.

Lemma gen_music_doubles g :
  exists outs tail,
    fst (gen_music g) = List.concat outs ++ tail /\
    Forall2 (fun '(item, typ) out =>
               row_output 3 gen_music_patterns
                 (fun pattern base =>
                    exists args,
                      base = make_example (format1 "i" pattern item) "play_music" args
                               gen_music_tools (fstring ["Play music: "; item]))
                 out)
            gen_music_items outs.
Proof.
  unfold gen_music. unfold bind at 1.
  match goal with
  | |- context [for_each gen_music_items ?body g] =>
      destruct (for_each_blocks
                  (fun '(item, typ) out =>
                     row_output 3 gen_music_patterns
                       (fun pattern base =>
                          exists args,
                            base = make_example (format1 "i" pattern item) "play_music" args
                                     gen_music_tools (fstring ["Play music: "; item]))
                       out)
                  gen_music_items body) with (g := g) as [outs [Hc HF]];
      [| destruct (for_each gen_music_items body g) as [played g1] ]
  end.
  - intros [item typ] g0 _.
    apply sampled_row_output; [simpl; lia|].
    intros pattern g1 _. unfold bind at 1.
    destruct (Random.random g1) as [r g2].
    eexists. split; [eexists; reflexivity|].
    match goal with
    | |- context [make_example _ "play_music" ?args _ _ :: _] =>
        doubled_step (fun var => make_example var "play_music" args gen_music_tools
                                   (fstring ["Play music: "; item]))
    end.
  - simpl in *. subst played. eexists outs, _. split; [reflexivity | exact HF].
Qed.

Lemma gen_negative_doubles g :
  exists blocks,
    fst (gen_negative g) = List.concat blocks /\
    Forall2 (fun '(user_msg, response) blk =>
               exists tools, doubled (make_no_tool user_msg response tools) blk)
            gen_negative_no_tool blocks.
Proof.
  unfold gen_negative. apply for_each_blocks.
  intros [user_msg response] g0 _. unfold bind at 1.
  match goal with |- context [Random.sample ?p ?k g0] =>
    destruct (Random.sample p k g0) as [tools g1] end.
  exists tools. doubled_step (fun var => make_no_tool var response tools).
Qed.

Lemma gen_multi_tool_doubles g :
  exists blocks,
    fst (gen_multi_tool g) = List.concat blocks /\
    Forall2 (fun '(user_msg, calls, tools, thinking) blk =>
               doubled (make_multi_tool user_msg calls tools thinking) blk)
            gen_multi_tool_multi blocks.
Proof.
  unfold gen_multi_tool. apply for_each_blocks.
  intros [[[user_msg calls] tools] thinking] g0 _.
  doubled_step (fun var => make_multi_tool var calls tools thinking).
Qed.

(** C9. Whatever the message and the draws, [vary_message] returns a
    list that opens with the message itself. So every generator that
    labels [vary_message(msg)[:2]] without comparing the variation with
    the message ([gen_knowledge], [gen_tasks], [gen_music],
    [gen_negative], [gen_multi_tool]) follows each base example with an
    equal copy: its loop output is a concatenation of blocks, one per
    base example, each opening with the base example twice. *)
Theorem vary_message_returns_original_first :
  (forall msg g, exists rest, fst (vary_message msg g) = msg :: rest) /\
  (forall g, exists outs tail,
      fst (gen_knowledge g) = List.concat outs ++ tail /\
      Forall2 (fun term out =>
                 row_output 3 gen_knowledge_patterns
                   (fun pattern base =>
                      base = knowledge_search_example term (format1 "t" pattern term))
                   out)
              gen_knowledge_search_terms outs) /\
  (forall g, exists outs tail,
      fst (gen_tasks g) = List.concat outs ++ tail /\
      Forall2 (fun '(task_desc, title, desc, priority) out =>
                 row_output 4 gen_tasks_create_patterns
                   (fun pattern base =>
                      base = make_example (format1 "t" pattern task_desc) "create_task"
                               (create_task_args title desc priority) gen_tasks_tools
                               (fstring ["User wants to create task: "; title]))
                   out)
              gen_tasks_tasks outs) /\
  (forall g, exists outs tail,
      fst (gen_music g) = List.concat outs ++ tail /\
      Forall2 (fun '(item, typ) out =>
                 row_output 3 gen_music_patterns
                   (fun pattern base =>
                      exists args,
                        base = make_example (format1 "i" pattern item) "play_music" args
                                 gen_music_tools (fstring ["Play music: "; item]))
                   out)
              gen_music_items outs) /\
  (forall g, exists blocks,
      fst (gen_negative g) = List.concat blocks /\
      Forall2 (fun '(user_msg, response) blk =>
                 exists tools, doubled (make_no_tool user_msg response tools) blk)
              gen_negative_no_tool blocks) /\
  (forall g, exists blocks,
      fst (gen_multi_tool g) = List.concat blocks /\
      Forall2 (fun '(user_msg, calls, tools, thinking) blk =>
                 doubled (make_multi_tool user_msg calls tools thinking) blk)
              gen_multi_tool_multi blocks).
Proof.
  split; [exact vary_message_head|].
  split; [exact gen_knowledge_doubles|].
  split; [exact gen_tasks_doubles|].
  split; [exact gen_music_doubles|].
  split; [exact gen_negative_doubles | exact gen_multi_tool_doubles].
Qed.

(** C2, as the code has it. Whatever the message and the draws, the
    list [vary_message] returns has at most five elements and opens with
    the message itself; when the message is not empty and has no white
    space at either end, no string occurs twice in the list. *)
Theorem vary_message_bounded_original_first_distinct (msg : string) (g : Rng) :
  List.length (fst (vary_message msg g)) <= 5 /\
  (exists rest, fst (vary_message msg g) = msg :: rest) /\
  (msg <> "" -> PyStr.strip msg = msg -> NoDup (fst (vary_message msg g))).
Proof.
  split; [apply vary_message_length|].
  split; [apply vary_message_head | apply vary_message_NoDup].
Qed.

Lemma vary_message_bounded_original_first_distinct_witness :
  "Play jazz" <> "" /\ PyStr.strip "Play jazz" = "Play jazz" /\
  NoDup (fst (vary_message "Play jazz" [1; 2; 3; 4; 5; 6; 7; 8; 9]%N)).
Proof.
  split; [discriminate|]. split; [reflexivity|].
  apply (vary_message_bounded_original_first_distinct
           "Play jazz" [1; 2; 3; 4; 5; 6; 7; 8; 9]%N);
    [discriminate | reflexivity].
Defined.

(** C2 as stated fails: the list returned for ["Play jazz"] contains
    ["Play jazz"]. *)
Lemma vary_message_excludes_original_counterexample :
  ~ (List.length (fst (vary_message "Play jazz" [])) <= 5 /\
     ~ In "Play jazz" (fst (vary_message "Play jazz" [])) /\
     NoDup (fst (vary_message "Play jazz" []))).
Proof.
  intros [_ [H _]]. apply H. vm_compute. now left.
Qed.

(* ================================================================== *)
(** * The typo augmenter *)
(* ================================================================== *)

Lemma nth_error_short (ex : Example) i :
  i < 3 -> nth_error (messages ex) i = None -> short ex.
Proof. intros Hi H. apply nth_error_None in H. unfold short. lia. Qed.

(** One round of the loop: what it appends when it returns, and why it
    raises when it does. *)
Lemma add_typos_step_spec rate augmented ex g :
  match add_typos_step rate augmented ex g with
  | Some (augmented', _) => exists blk, augmented' = augmented ++ blk /\ typo_block ex blk
  | None => short ex
  end.
Proof.
  unfold add_typos_step, bindE, lift, index, typo_copy, bindE, index, retE.
  destruct (Random.random g) as [r g1].
  destruct (float_ltb r rate); [|exists [ex]; split; [reflexivity | now left]].
  destruct (nth_error (messages ex) 1) as [m1|] eqn:E1;
    [|apply (nth_error_short ex 1); [lia | exact E1]].
  destruct (typo_words (PyStr.split (content m1)) g1) as [new_words g2].
  destruct (String.eqb (PyStr.join " " new_words) (content m1)) eqn:E; cbn [negb];
    [exists [ex]; split; [reflexivity | now left]|].
  destruct (nth_error (messages ex) 0) as [m0|] eqn:E0;
    [|apply (nth_error_short ex 0); [lia | exact E0]].
  destruct (nth_error (messages ex) 2) as [m2|] eqn:E2;
    [|apply (nth_error_short ex 2); [lia | exact E2]].
  eexists [ex; _]. split; [now rewrite <- app_assoc|].
  right. eexists. split; [reflexivity|]. split; [reflexivity|].
  exists m0, m1, m2, (PyStr.join " " new_words).
  repeat split; try assumption. now apply String.eqb_neq.
Qed.

Lemma foldE_add_typos_spec rate examples : forall augmented g,
  match foldE (add_typos_step rate) examples augmented g with
  | Some (out, _) =>
      exists blocks, out = augmented ++ List.concat blocks /\
                     Forall2 typo_block examples blocks
  | None => Exists short examples
  end.
Proof.
  induction examples as [|ex examples IH]; intros augmented g; cbn [foldE].
  - exists []. simpl. rewrite app_nil_r. split; [reflexivity | constructor].
  - unfold bindE. pose proof (add_typos_step_spec rate augmented ex g) as Hstep.
    destruct (add_typos_step rate augmented ex g) as [[augmented' g1]|]; [|now left].
    destruct Hstep as [blk [-> Hblk]].
    specialize (IH (augmented ++ blk) g1).
    destruct (foldE (add_typos_step rate) examples (augmented ++ blk) g1) as [[out g2]|];
      [|now right].
    destruct IH as [blocks [-> HF]]. exists (blk :: blocks). split.
    + simpl. now rewrite app_assoc.
    + now constructor.
Qed.

(** The output of [add_typos]: one block per input example, in the order
    of the input; it raises only on an example with fewer than three
    messages. *)
Lemma add_typos_spec examples rate g :
  match add_typos examples rate g with
  | Some (out, _) =>
      exists blocks, out = List.concat blocks /\ Forall2 typo_block examples blocks
  | None => Exists short examples
  end.
Proof.
  unfold add_typos.
  apply (foldE_add_typos_spec
           (match rate with Some r => r | None => float_0_1 end) examples [] g).
Qed.

Lemma well_formed_not_short examples :
  Forall well_formed examples -> ~ Exists short examples.
Proof.
  intros Hwf Hshort. apply Exists_exists in Hshort. destruct Hshort as [ex [Hin Hs]].
  rewrite Forall_forall in Hwf. destruct (Hwf ex Hin) as [m0 [u [m2 Hm]]].
  unfold short in Hs. rewrite Hm in Hs. simpl in Hs. lia.
Qed.

(** On well-formed examples [add_typos] returns. *)
Lemma add_typos_blocks examples rate g :
  Forall well_formed examples ->
  exists blocks g',
    add_typos examples rate g = Some (List.concat blocks, g') /\
    Forall2 typo_block examples blocks.
Proof.
  intros Hwf. pose proof (add_typos_spec examples rate g) as H.
  destruct (add_typos examples rate g) as [[out g']|].
  - destruct H as [blocks [-> HF]]. now exists blocks, g'.
  - exfalso. now apply (well_formed_not_short examples).
Qed.

Lemma blocks_subsequence examples blocks :
  Forall2 typo_block examples blocks -> subsequence examples (List.concat blocks).
Proof.
  induction 1 as [|ex blk examples blocks Hblk _ IH]; simpl; [constructor|].
  destruct Hblk as [->|[copy [-> _]]]; simpl.
  - now constructor.
  - constructor. now constructor.
Qed.

Lemma subsequence_length {A} (l1 l2 : list A) :
  subsequence l1 l2 -> List.length l1 <= List.length l2.
Proof. induction 1; simpl; lia. Qed.

(** A property of examples that a copy inherits holds of the whole
    output when it holds of the whole input. *)
Lemma blocks_Forall (P : Example -> Prop) examples blocks :
  (forall ex copy, augmented_copy_of ex copy -> P ex -> P copy) ->
  Forall2 typo_block examples blocks ->
  Forall P examples -> Forall P (List.concat blocks).
Proof.
  intros Hcopy. induction 1 as [|ex blk examples blocks Hblk _ IH]; intros HP; simpl.
  - constructor.
  - inversion HP as [|? ? Hex Hrest]; subst. apply Forall_app. split; [|now apply IH].
    destruct Hblk as [->|[copy [-> Hc]]]; repeat constructor; try assumption.
    now apply (Hcopy ex).
Qed.

Lemma make_example_well_formed m n args ts th : well_formed (make_example m n args ts th).
Proof. eexists _, m, _. reflexivity. Qed.

(** A run of the augmenter: the first example gets a copy, the second
    has no word of the typo lexicon. *)
Example add_typos_run :
  option_map (fun r => map user_message (fst r))
             (add_typos [check_calendar_example; pause_example] (Some float_0_15) [])
  = Some [ Some (mkMessage "user" "check calendar" None);
           Some (mkMessage "user" "chekc calendar" None);
           Some (mkMessage "user" "Pause" None) ].
Proof. vm_compute. reflexivity. Qed.

(** C4. Whatever the examples, the rate and the draws, when [add_typos]
    returns, every copy it has added comes right after the example it was
    made from and has the [tools] of that example, the same tool calls
    (names and arguments), the same assistant message, hence the same
    reasoning trace, and the same first message; it has three messages,
    the second a user message whose text is not the text of the example,
    so no copy repeats the text it was made from. [add_typos] raises only
    when an example has fewer than three messages. *)
Theorem add_typos_copy_keeps_label (examples : list Example) (rate : option Q) (g : Rng) :
  match add_typos examples rate g with
  | Some (out, _) =>
      exists blocks,
        out = List.concat blocks /\
        Forall2 (fun ex blk =>
                   blk = [ex] \/
                   exists copy,
                     blk = [ex; copy] /\
                     tools copy = tools ex /\
                     map call_name (example_calls copy) = map call_name (example_calls ex) /\
                     map call_arguments (example_calls copy)
                       = map call_arguments (example_calls ex) /\
                     assistant_message copy = assistant_message ex /\
                     nth_error (messages copy) 0 = nth_error (messages ex) 0 /\
                     List.length (messages copy) = 3 /\
                     exists m1 new_text,
                       user_message ex = Some m1 /\
                       user_message copy = Some (mkMessage "user" new_text None) /\
                       new_text <> content m1)
                examples blocks
  | None => Exists short examples
  end.
Proof.
  pose proof (add_typos_spec examples rate g) as H.
  destruct (add_typos examples rate g) as [[out g']|]; [|exact H].
  destruct H as [blocks [-> HF]]. exists blocks. split; [reflexivity|].
  induction HF as [|ex blk examples blocks Hblk _ IH]; constructor; [|exact IH].
  destruct Hblk as [->|[copy [-> Hc]]]; [now left|]. right. exists copy.
  destruct Hc as [Ht [m0 [m1 [m2 [new_text [H0 [H1 [H2 [Hcopy Hneq]]]]]]]]].
  assert (Ha : assistant_message copy = assistant_message ex).
  { unfold assistant_message. rewrite Hcopy, H2. reflexivity. }
  split; [reflexivity|]. split; [exact Ht|].
  split; [unfold example_calls; now rewrite Ha|].
  split; [unfold example_calls; now rewrite Ha|].
  split; [exact Ha|]. split; [now rewrite Hcopy, H0|]. split; [now rewrite Hcopy|].
  exists m1, new_text. unfold user_message. rewrite Hcopy, H1. auto.
Qed.

(** C5, as the code has it. Whatever the examples, the rate and the
    draws, when [add_typos] returns, its output is the input examples in
    their order, each one followed at once by the copy made from it when
    a copy was accepted. [add_typos] raises only when an example has
    fewer than three messages. *)
Theorem add_typos_copy_follows_its_example
    (examples : list Example) (rate : option Q) (g : Rng) :
  match add_typos examples rate g with
  | Some (out, _) =>
      exists blocks,
        out = List.concat blocks /\
        Forall2 (fun ex blk =>
                   blk = [ex] \/ exists copy, blk = [ex; copy] /\ augmented_copy_of ex copy)
                examples blocks
  | None => Exists short examples
  end.
Proof. exact (add_typos_spec examples rate g). Qed.

(** C5 as stated fails: here the copy of the first example comes before
    the second example, so the output is not the input followed by
    copies. *)
Lemma add_typos_appends_at_end_counterexample :
  exists out g',
    add_typos [check_calendar_example; pause_example] (Some float_0_15) [] = Some (out, g') /\
    ~ exists copies, out = [check_calendar_example; pause_example] ++ copies.
Proof.
  eexists _, _. split; [vm_compute; reflexivity|].
  intros [copies H]. vm_compute in H. discriminate H.
Qed.

(** C10. Whatever the examples, the rate and the draws, when [add_typos]
    returns, its output has every input example, unchanged and in the
    input order, among its elements, and is at least as long as the
    input. [add_typos] raises only when an example has fewer than three
    messages. *)
Theorem add_typos_keeps_every_example (examples : list Example) (rate : option Q) (g : Rng) :
  match add_typos examples rate g with
  | Some (out, _) => subsequence examples out /\ List.length examples <= List.length out
  | None => Exists short examples
  end.
Proof.
  pose proof (add_typos_spec examples rate g) as H.
  destruct (add_typos examples rate g) as [[out g']|]; [|exact H].
  destruct H as [blocks [-> HF]].
  pose proof (blocks_subsequence _ _ HF) as Hsub.
  split; [exact Hsub | now apply subsequence_length].
Qed.

(** C8 as stated fails: on this draw a call that leaves the rate to its
    default adds no copy, and a call with rate 0.15 adds one. *)
Lemma add_typos_default_rate_counterexample :
  add_typos [check_calendar_example] None [draw_0_12]
  <> add_typos [check_calendar_example] (Some float_0_15) [draw_0_12].
Proof. vm_compute. discriminate. Qed.

(** C8, as the code has it. A call of [add_typos] that leaves the rate to
    its default is a call with rate 0.1, a rate under which a draw
    [k / 2^53] of [random.random()] lets the example be augmented exactly
    when it is below one tenth; the pipeline passes the rate 0.15. *)
Theorem add_typos_default_rate_is_one_tenth :
  (forall examples g,
      add_typos examples None g = add_typos examples (Some float_0_1) g) /\
  (forall k : N,
      float_ltb (Z.of_N (k mod Npos Random.two_53) # Random.two_53) float_0_1 = true
      <-> (10 * (k mod Npos Random.two_53) < Npos Random.two_53)%N) /\
  (forall seed g,
      corpus seed g =
      option_map (fun r => fst (Random.shuffle (fst r) (seed 42%N)))
                 (add_typos (fst (fst (run_generators g))) (Some float_0_15)
                            (snd (run_generators g)))).
Proof.
  split; [reflexivity|]. split.
  - intros k. unfold float_ltb, float_0_1, Random.two_53. cbn [Qnum Qden].
    rewrite Z.ltb_lt. lia.
  - intros seed g. unfold corpus.
    destruct (run_generators g) as [[all_examples counts] g1]. cbn [fst snd].
    destruct (add_typos all_examples (Some float_0_15) g1) as [[out g2]|]; reflexivity.
Qed.

(* ================================================================== *)
(** * Reasoning-trace markers *)
(* ================================================================== *)

Lemma drop_close_sound s : forall t, drop_close s = Some t -> s = (t ++ think_close)%string.
Proof.
  induction s as [|c r IH]; intros t H.
  - simpl in H. discriminate.
  - cbn [drop_close] in H. destruct (String.eqb (String c r) think_close) eqn:E.
    + apply String.eqb_eq in E. inversion H; subst. exact E.
    + destruct (drop_close r) as [t'|]; [|discriminate].
      inversion H; subst. simpl. f_equal. now apply IH.
Qed.

Lemma append_length x y : String.length (x ++ y) = String.length x + String.length y.
Proof. induction x; simpl; congruence. Qed.

Lemma drop_close_append t : drop_close (t ++ think_close) = Some t.
Proof.
  induction t as [|c t IH]; [reflexivity|].
  change ((String c t ++ think_close)%string) with (String c (t ++ think_close)).
  cbn [drop_close]. rewrite IH.
  destruct (String.eqb (String c (t ++ think_close)) think_close) eqn:E; [|reflexivity].
  apply String.eqb_eq in E. apply (f_equal String.length) in E.
  simpl in E. rewrite append_length in E. simpl in E. lia.
Qed.

Lemma unthink_sound s t : unthink s = Some t -> s = think t.
Proof.
  unfold unthink, think. intros H.
  repeat match type of H with
         | match ?x with _ => _ end = _ => destruct x; try discriminate
         end.
  apply drop_close_sound in H. subst. reflexivity.
Qed.

Lemma unthink_think t : unthink (think t) = Some t.
Proof. unfold think. cbn [append unthink]. apply drop_close_append. Qed.

Lemma think_wrapped_unthink s : think_wrapped s <-> unthink s <> None.
Proof.
  split.
  - intros [t ->]. rewrite unthink_think. discriminate.
  - intros H. destruct (unthink s) as [t|] eqn:E; [|congruence].
    exists t. now apply unthink_sound.
Qed.

(* ================================================================== *)
(** * The decidable check and the properties it decides *)
(* ================================================================== *)

Lemma call_ok_valid tools c : call_ok tools c = true -> call_valid tools c.
Proof.
  unfold call_ok, call_valid. intros H. apply andb_true_iff in H. destruct H as [Hn Hr].
  split; [now apply mem_In|].
  intros spec Hspec Hname p Hp.
  rewrite forallb_forall in Hr. specialize (Hr spec Hspec).
  rewrite Hname, String.eqb_refl, forallb_forall in Hr.
  apply mem_In. now apply Hr.
Qed.

Lemma example_ok_sound ex :
  example_ok ex = true -> well_formed ex /\ calls_valid ex /\ marker_iff_calls ex.
Proof.
  unfold example_ok, well_formed, calls_valid, marker_iff_calls, example_calls,
    assistant_message.
  destruct (messages ex) as [|m0 [|m1 [|m2 [|? ?]]]]; try discriminate.
  destruct m1 as [r1 c1 t1]. cbn [role tool_calls nth_error].
  intros H. apply andb_true_iff in H. destruct H as [H H2].
  apply andb_true_iff in H. destruct H as [Hr Ht].
  apply String.eqb_eq in Hr. destruct t1; [discriminate|]. subst r1.
  split; [now exists m0, c1, m2|].
  destruct (tool_calls m2) as [calls|] eqn:Etc.
  - apply andb_true_iff in H2. destruct H2 as [Hu Hc].
    split.
    + rewrite forallb_forall in Hc. apply Forall_forall. intros c Hin.
      apply call_ok_valid. now apply Hc.
    + exists m2. rewrite Etc. split; [reflexivity|]. split; [|intros _; discriminate].
      intros _. apply think_wrapped_unthink.
      destruct (unthink (content m2)); [discriminate | discriminate Hu].
  - split; [constructor|]. exists m2. rewrite Etc. split; [reflexivity|].
    split; [congruence|].
    intros Hw. apply think_wrapped_unthink in Hw.
    destruct (unthink (content m2)); [discriminate H2 | congruence].
Qed.

Lemma make_example_ok m n args ts th :
  call_ok ts (mkCall "function" (mkFunction n args)) = true ->
  example_ok (make_example m n args ts th) = true.
Proof.
  intros H. unfold example_ok, make_example.
  cbn [messages tools role tool_calls content forallb]. rewrite unthink_think, H.
  reflexivity.
Qed.

Lemma make_no_tool_ok m r ts :
  unthink r = None -> example_ok (make_no_tool m r ts) = true.
Proof.
  intros H. unfold example_ok, make_no_tool.
  cbn [messages tools role tool_calls content]. rewrite H. reflexivity.
Qed.

Lemma make_multi_tool_ok m calls ts th :
  forallb (fun c => call_ok ts (mkCall "function" (mkFunction (fst c) (snd c)))) calls = true ->
  example_ok (make_multi_tool m calls ts th) = true.
Proof.
  intros H. unfold example_ok, make_multi_tool.
  cbn [messages tools role tool_calls content]. rewrite unthink_think.
  rewrite forallb_forall in H. cbn [andb String.eqb Ascii.eqb Bool.eqb].
  apply forallb_forall. intros c Hc. apply in_map_iff in Hc.
  destruct Hc as [x [<- Hx]]. now apply H.
Qed.

(** A copy that differs in the user text passes the check its example
    passes. *)
Lemma augmented_copy_ok ex copy :
  augmented_copy_of ex copy -> example_ok ex = true -> example_ok copy = true.
Proof.
  intros [Ht [m0 [m1 [m2 [new_text [H0 [H1 [H2 [Hcopy _]]]]]]]]].
  unfold example_ok. rewrite Hcopy, Ht.
  destruct (messages ex) as [|a [|b [|c [|? ?]]]]; try discriminate.
  cbn [nth_error] in H0, H1, H2.
  injection H0 as ->. injection H1 as ->. injection H2 as ->.
  cbn [role tool_calls]. intros H. apply andb_true_iff in H. destruct H as [_ H].
  rewrite H. reflexivity.
Qed.

Lemma forallb_ok_Forall l : forallb example_ok l = true -> Forall passes l.
Proof. intros H. apply Forall_forall. intros ex Hin. now apply (proj1 (forallb_forall _ _) H). Qed.

(* ================================================================== *)
(** * Every generator passes the check *)
(* ================================================================== *)

Lemma variations_ok (mk : string -> Example) (vars : list string) (n : nat) :
  (forall v, example_ok (mk v) = true) -> Forall passes (map mk (firstn n vars)).
Proof.
  intros H. apply Forall_forall. intros ex Hin. apply in_map_iff in Hin.
  destruct Hin as [v [<- _]]. apply H.
Qed.

(** Splits the examples of a generator into the output of its loops,
    covered by a hypothesis, and the examples it lists without drawing,
    which are checked by evaluation. *)
Ltac split_output :=
  repeat (apply Forall_app; split);
  first [ assumption | (apply forallb_ok_Forall; vm_compute; reflexivity) ].

Ltac call_ok_by_evaluation := apply make_example_ok; vm_compute; reflexivity.

Lemma gen_research_ok g : Forall passes (fst (gen_research g)).
Proof.
  unfold gen_research. apply for_each_Forall. intros topic g0 _. unfold bind at 1.
  destruct (Random.sample gen_research_patterns 4 g0) as [sampled g1]. cbn [fst].
  apply for_each_Forall. intros pattern g2 _. unfold bind.
  destruct (Random.choice "" ["quick"; "thorough"] g2) as [depth g3].
  destruct (vary_message (format1 "t" pattern topic) g3) as [vars g4]. cbn [fst ret].
  destruct (String.eqb depth "thorough").
  - constructor; [call_ok_by_evaluation|].
    apply Forall_flat_map, Forall_forall. intros var _.
    destruct (negb _); repeat constructor. call_ok_by_evaluation.
  - constructor; [call_ok_by_evaluation|].
    apply Forall_flat_map, Forall_forall. intros var _.
    destruct (negb _); repeat constructor. call_ok_by_evaluation.
Qed.

Lemma gen_knowledge_ok g : Forall passes (fst (gen_knowledge g)).
Proof.
  unfold gen_knowledge. unfold bind at 1.
  match goal with
  | |- context [for_each gen_knowledge_search_terms ?body g] =>
      assert (Hloop : Forall passes (fst (for_each gen_knowledge_search_terms body g)));
      [| destruct (for_each gen_knowledge_search_terms body g) as [searches g1] ]
  end.
  - apply for_each_Forall. intros term g0 _. unfold bind at 1.
    destruct (Random.sample gen_knowledge_patterns 3 g0) as [sampled g1]. cbn [fst].
    apply for_each_Forall. intros pattern g2 _. unfold bind.
    destruct (vary_message (format1 "t" pattern term) g2) as [vars g3]. cbn [fst ret].
    constructor; [call_ok_by_evaluation|].
    apply variations_ok. intros v. call_ok_by_evaluation.
  - cbn [fst ret] in *. split_output.
Qed.

Lemma create_task_args_ok title desc priority :
  call_ok gen_tasks_tools
    (mkCall "function" (mkFunction "create_task" (create_task_args title desc priority)))
  = true.
Proof.
  unfold create_task_args.
  destruct desc as [d|], priority as [p|]; cbn [truthy];
    repeat match goal with
           | |- context [negb ?b] => destruct b; cbn [negb]
           end;
    vm_compute; reflexivity.
Qed.

Lemma gen_tasks_ok g : Forall passes (fst (gen_tasks g)).
Proof.
  unfold gen_tasks. unfold bind at 1.
  match goal with
  | |- context [for_each gen_tasks_tasks ?body g] =>
      assert (Hcreated : Forall passes (fst (for_each gen_tasks_tasks body g)));
      [| destruct (for_each gen_tasks_tasks body g) as [created g1] ]
  end.
  - apply for_each_Forall. intros [[[task_desc title] desc] priority] g0 _. unfold bind at 1.
    destruct (Random.sample gen_tasks_create_patterns 4 g0) as [sampled g1]. cbn [fst].
    apply for_each_Forall. intros pattern g2 _. unfold bind.
    destruct (vary_message (format1 "t" pattern task_desc) g2) as [vars g3]. cbn [fst ret].
    constructor; [apply make_example_ok, create_task_args_ok|].
    apply variations_ok. intros v. apply make_example_ok, create_task_args_ok.
  - unfold bind.
    match goal with
    | |- context [for_each gen_tasks_get_patterns ?body g1] =>
        assert (Hlisted : Forall passes (fst (for_each gen_tasks_get_patterns body g1)));
        [| destruct (for_each gen_tasks_get_patterns body g1) as [listed g2] ]
    end.
    + apply for_each_Forall. intros [user_msg args] g0 _. unfold bind.
      destruct (vary_message user_msg g0) as [vars g3]. cbn [fst ret].
      constructor; [call_ok_by_evaluation|].
      apply variations_ok. intros v. call_ok_by_evaluation.
    + cbn [fst ret] in *. split_output.
Qed.

Lemma gen_calendar_ok g : Forall passes (fst (gen_calendar g)).
Proof.
  unfold gen_calendar. unfold bind at 1.
  match goal with
  | |- context [for_each gen_calendar_get_patterns ?body g] =>
      assert (Hlisted : Forall passes (fst (for_each gen_calendar_get_patterns body g)));
      [| destruct (for_each gen_calendar_get_patterns body g) as [listed g1] ]
  end.
  - apply for_each_Forall. intros [user_msg args] g0 _. unfold bind.
    destruct (vary_message user_msg g0) as [vars g3]. cbn [fst ret].
    constructor; [call_ok_by_evaluation|].
    apply variations_ok. intros v. call_ok_by_evaluation.
  - cbn [fst ret] in *. split_output.
Qed.

Lemma gen_email_ok g : Forall passes (fst (gen_email g)).
Proof.
  unfold gen_email. unfold bind at 1.
  match goal with
  | |- context [for_each gen_email_get_patterns ?body g] =>
      assert (Hlisted : Forall passes (fst (for_each gen_email_get_patterns body g)));
      [| destruct (for_each gen_email_get_patterns body g) as [listed g1] ]
  end.
  - apply for_each_Forall. intros [user_msg args] g0 _. unfold bind.
    destruct (vary_message user_msg g0) as [vars g3]. cbn [fst ret].
    constructor; [call_ok_by_evaluation|].
    apply variations_ok. intros v. call_ok_by_evaluation.
  - cbn [fst ret] in *. split_output.
Qed.

Lemma gen_music_ok g : Forall passes (fst (gen_music g)).
Proof.
  unfold gen_music. unfold bind at 1.
  match goal with
  | |- context [for_each gen_music_items ?body g] =>
      assert (Hplayed : Forall passes (fst (for_each gen_music_items body g)));
      [| destruct (for_each gen_music_items body g) as [played g1] ]
  end.
  - apply for_each_Forall. intros [item typ] g0 _. unfold bind at 1.
    destruct (Random.sample gen_music_patterns 3 g0) as [sampled g1]. cbn [fst].
    apply for_each_Forall. intros pattern g2 _. unfold bind.
    destruct (Random.random g2) as [r g3].
    destruct (vary_message (format1 "i" pattern item) g3) as [vars g4]. cbn [fst ret].
    destruct (float_ltb float_0_8 r).
    + constructor; [call_ok_by_evaluation|].
      apply variations_ok. intros v. call_ok_by_evaluation.
    + constructor; [call_ok_by_evaluation|].
      apply variations_ok. intros v. call_ok_by_evaluation.
  - cbn [fst ret] in *. split_output.
Qed.

Lemma gen_code_ok g : Forall passes (fst (gen_code g)).
Proof. apply forallb_ok_Forall. vm_compute. reflexivity. Qed.

Lemma gen_reminders_ok g : Forall passes (fst (gen_reminders g)).
Proof. apply forallb_ok_Forall. vm_compute. reflexivity. Qed.

Lemma gen_files_ok g : Forall passes (fst (gen_files g)).
Proof. apply forallb_ok_Forall. vm_compute. reflexivity. Qed.

Lemma gen_images_ok g : Forall passes (fst (gen_images g)).
Proof. apply forallb_ok_Forall. vm_compute. reflexivity. Qed.

Lemma gen_youtube_ok g : Forall passes (fst (gen_youtube g)).
Proof. apply forallb_ok_Forall. vm_compute. reflexivity. Qed.

Lemma gen_system_ok g : Forall passes (fst (gen_system g)).
Proof. apply forallb_ok_Forall. vm_compute. reflexivity. Qed.

Lemma gen_browser_ok g : Forall passes (fst (gen_browser g)).
Proof. apply forallb_ok_Forall. vm_compute. reflexivity. Qed.

Lemma gen_documents_ok g : Forall passes (fst (gen_documents g)).
Proof. apply forallb_ok_Forall. vm_compute. reflexivity. Qed.

Lemma gen_mood_ok g : Forall passes (fst (gen_mood g)).
Proof. apply forallb_ok_Forall. vm_compute. reflexivity. Qed.

Lemma gen_background_ok g : Forall passes (fst (gen_background g)).
Proof. apply forallb_ok_Forall. vm_compute. reflexivity. Qed.

Lemma gen_projects_ok g : Forall passes (fst (gen_projects g)).
Proof. apply forallb_ok_Forall. vm_compute. reflexivity. Qed.

(** No answer of the negative bank is a marked reasoning trace. *)
Lemma negative_responses_plain user_msg response :
  In (user_msg, response) gen_negative_no_tool -> unthink response = None.
Proof.
  assert (H : forallb (fun row => match unthink (snd row) with
                                  | None => true
                                  | Some _ => false
                                  end) gen_negative_no_tool = true)
    by (vm_compute; reflexivity).
  rewrite forallb_forall in H. intros Hin. specialize (H _ Hin). cbn [snd] in H.
  destruct (unthink response); [discriminate | reflexivity].
Qed.

Lemma gen_negative_ok g : Forall passes (fst (gen_negative g)).
Proof.
  unfold gen_negative. apply for_each_Forall. intros [user_msg response] g0 Hin.
  pose proof (negative_responses_plain _ _ Hin) as Hplain. unfold bind.
  match goal with |- context [Random.sample ?p ?k g0] =>
    destruct (Random.sample p k g0) as [ts g1] end.
  destruct (vary_message user_msg g1) as [vars g2]. cbn [fst ret].
  constructor; [now apply make_no_tool_ok|].
  apply variations_ok. intros v. now apply make_no_tool_ok.
Qed.

(** Every row of the multi-tool table calls tools it lists, with their
    required parameters. *)
Lemma multi_rows_ok user_msg calls ts thinking :
  In (user_msg, calls, ts, thinking) gen_multi_tool_multi ->
  forallb (fun c => call_ok ts (mkCall "function" (mkFunction (fst c) (snd c)))) calls = true.
Proof.
  assert (H : forallb (fun '(_, calls, ts, _) =>
                         forallb (fun c => call_ok ts (mkCall "function"
                                                       (mkFunction (fst c) (snd c)))) calls)
                      gen_multi_tool_multi = true)
    by (vm_compute; reflexivity).
  rewrite forallb_forall in H. intros Hin. exact (H _ Hin).
Qed.

Lemma gen_multi_tool_ok g : Forall passes (fst (gen_multi_tool g)).
Proof.
  unfold gen_multi_tool. apply for_each_Forall.
  intros [[[user_msg calls] ts] thinking] g0 Hin.
  pose proof (multi_rows_ok _ _ _ _ Hin) as Hrow. unfold bind.
  destruct (vary_message user_msg g0) as [vars g1]. cbn [fst ret].
  constructor; [now apply make_multi_tool_ok|].
  apply variations_ok. intros v. now apply make_multi_tool_ok.
Qed.

(* ================================================================== *)
(** * The corpus *)
(* ================================================================== *)

Lemma generators_ok name gen g :
  In (name, gen) generators -> Forall passes (fst (gen g)).
Proof.
  intros H. unfold generators in H. cbn [In] in H.
  destruct H as [H|H]; [injection H as <- <-; apply gen_research_ok|].
  destruct H as [H|H]; [injection H as <- <-; apply gen_knowledge_ok|].
  destruct H as [H|H]; [injection H as <- <-; apply gen_tasks_ok|].
  destruct H as [H|H]; [injection H as <- <-; apply gen_calendar_ok|].
  destruct H as [H|H]; [injection H as <- <-; apply gen_email_ok|].
  destruct H as [H|H]; [injection H as <- <-; apply gen_music_ok|].
  destruct H as [H|H]; [injection H as <- <-; apply gen_code_ok|].
  destruct H as [H|H]; [injection H as <- <-; apply gen_reminders_ok|].
  destruct H as [H|H]; [injection H as <- <-; apply gen_files_ok|].
  destruct H as [H|H]; [injection H as <- <-; apply gen_images_ok|].
  destruct H as [H|H]; [injection H as <- <-; apply gen_youtube_ok|].
  destruct H as [H|H]; [injection H as <- <-; apply gen_system_ok|].
  destruct H as [H|H]; [injection H as <- <-; apply gen_browser_ok|].
  destruct H as [H|H]; [injection H as <- <-; apply gen_documents_ok|].
  destruct H as [H|H]; [injection H as <- <-; apply gen_mood_ok|].
  destruct H as [H|H]; [injection H as <- <-; apply gen_background_ok|].
  destruct H as [H|H]; [injection H as <- <-; apply gen_projects_ok|].
  destruct H as [H|H]; [injection H as <- <-; apply gen_negative_ok|].
  destruct H as [H|H]; [injection H as <- <-; apply gen_multi_tool_ok|].
  contradiction.
Qed.

Lemma run_generators_ok g : Forall passes (fst (fst (run_generators g))).
Proof.
  unfold run_generators.
  apply (foldM_invariant (fun st : list Example * list Output => Forall passes (fst st))).
  - intros [all_examples out] [name gen] g0 Hin Hall. unfold bind.
    pose proof (generators_ok name gen g0 Hin) as Hgen.
    destruct (gen g0) as [exs g1]. cbn [fst ret] in *.
    apply Forall_app. split; assumption.
  - constructor.
Qed.

Lemma list_set_Forall {A} (P : A -> Prop) (l : list A) i v :
  Forall P l -> P v -> Forall P (Random.list_set l i v).
Proof.
  intros Hl Hv. revert i. induction Hl as [|a l Ha Hl IH]; intros [|i]; simpl;
    constructor; auto.
Qed.

Lemma swap_Forall {A} (P : A -> Prop) (x : list A) i j :
  Forall P x -> Forall P (Random.swap x i j).
Proof.
  intros Hx. unfold Random.swap.
  destruct (nth_error x i) as [a|] eqn:Ea; [|exact Hx].
  destruct (nth_error x j) as [b|] eqn:Eb; [|exact Hx].
  rewrite Forall_forall in Hx.
  apply list_set_Forall; [apply list_set_Forall|].
  - now apply Forall_forall.
  - apply Hx. eapply nth_error_In; eassumption.
  - apply Hx. eapply nth_error_In; eassumption.
Qed.

(** Shuffling keeps what holds of every element. *)
Lemma shuffle_Forall {A} (P : A -> Prop) (x : list A) g :
  Forall P x -> Forall P (fst (Random.shuffle x g)).
Proof.
  intros Hx. unfold Random.shuffle. apply (foldM_invariant (Forall P)); [|exact Hx].
  intros s i g0 _ Hs. unfold bind. destruct (Random.randbelow (i + 1) g0) as [j g1].
  cbn [fst ret]. now apply swap_Forall.
Qed.

Lemma passes_well_formed examples : Forall passes examples -> Forall well_formed examples.
Proof.
  apply Forall_impl. intros ex H. now apply example_ok_sound.
Qed.

(** The pipeline gets to write a corpus, and every example of it passes
    the check. *)
Lemma corpus_ok seed g : exists c, corpus seed g = Some c /\ Forall passes c.
Proof.
  unfold corpus. pose proof (run_generators_ok g) as Hgen.
  destruct (run_generators g) as [[all_examples counts] g1]. cbn [fst] in Hgen.
  destruct (add_typos_blocks all_examples (Some float_0_15) g1
              (passes_well_formed _ Hgen)) as [blocks [g2 [Htypos HF]]].
  rewrite Htypos. eexists. split; [reflexivity|].
  apply shuffle_Forall. apply (blocks_Forall passes all_examples blocks); try assumption.
  exact augmented_copy_ok.
Qed.

(** C1. Whatever the draws, in every example of every generator, and in
    every example of the corpus the pipeline gets to write (the generated
    examples, their typo copies, shuffled), each tool call names a tool of
    the example's [tools] list and has a key for every parameter that the
    spec of that name lists as required. *)
Theorem corpus_calls_valid (seed : N -> Rng) (g : Rng) :
  Forall (fun entry => forall g0, Forall calls_valid (fst (snd entry g0))) generators /\
  exists c, corpus seed g = Some c /\ Forall calls_valid c.
Proof.
  split.
  - apply Forall_forall. intros [name gen] Hin g0. cbn [snd].
    generalize (generators_ok name gen g0 Hin). apply Forall_impl.
    intros ex H. now apply example_ok_sound.
  - destruct (corpus_ok seed g) as [c [Hc Hok]]. exists c. split; [exact Hc|].
    revert Hok. apply Forall_impl. intros ex H. now apply example_ok_sound.
Qed.

(** C3. Whatever the draws, in every example of every generator, and in
    every example of the corpus the pipeline gets to write, the assistant
    message has ["tool_calls"] exactly when its content is a reasoning
    trace between the two markers. *)
Theorem corpus_marker_iff_calls (seed : N -> Rng) (g : Rng) :
  Forall (fun entry => forall g0, Forall marker_iff_calls (fst (snd entry g0))) generators /\
  exists c, corpus seed g = Some c /\ Forall marker_iff_calls c.
Proof.
  split.
  - apply Forall_forall. intros [name gen] Hin g0. cbn [snd].
    generalize (generators_ok name gen g0 Hin). apply Forall_impl.
    intros ex H. now apply example_ok_sound.
  - destruct (corpus_ok seed g) as [c [Hc Hok]]. exists c. split; [exact Hc|].
    revert Hok. apply Forall_impl. intros ex H. now apply example_ok_sound.
Qed.

(* ================================================================== *)
(** * Multi-tool examples *)
(* ================================================================== *)

Lemma vary_message_candidates msg g :
  Forall (fun v => In v (variation_candidates msg)) (fst (vary_message msg g)).
Proof.
  destruct (vary_message_invariant
              (Forall (fun v => In v (variation_candidates msg))) msg) with (g := g)
    as [variations [-> H]].
  - constructor; [now left | constructor].
  - intros p s l Hp Hs Hl. unfold vary_step. destruct (_ && _); [|exact Hl].
    apply Forall_app. split; [exact Hl|]. constructor; [|constructor].
    unfold variation_candidates. right. apply in_flat_map. exists p. split; [exact Hp|].
    apply in_map_iff. exists s. split; [reflexivity | exact Hs].
  - apply Forall_forall. intros v Hv. apply In_firstn in Hv.
    rewrite Forall_forall in H. now apply H.
Qed.

(** Every example of [gen_multi_tool] labels a candidate variation of
    the utterance of a table row with the calls and tools of that row. *)
Lemma gen_multi_tool_rows g :
  Forall (fun ex => exists m calls ts th v,
              In (m, calls, ts, th) gen_multi_tool_multi /\
              In v (variation_candidates m) /\
              ex = make_multi_tool v calls ts th)
         (fst (gen_multi_tool g)).
Proof.
  unfold gen_multi_tool. apply for_each_Forall.
  intros [[[m calls] ts] th] g0 Hin. unfold bind.
  pose proof (vary_message_candidates m g0) as Hc.
  destruct (vary_message m g0) as [vars g1]. cbn [fst ret] in *.
  constructor.
  - exists m, calls, ts, th, m. split; [exact Hin|]. split; [now left | reflexivity].
  - apply Forall_forall. intros ex Hex. apply in_map_iff in Hex.
    destruct Hex as [v [<- Hv]]. apply In_firstn in Hv.
    rewrite Forall_forall in Hc. exists m, calls, ts, th, v. auto.
Qed.

Lemma multi_rows_checked : forallb multi_row_ok gen_multi_tool_multi = true.
Proof. vm_compute. reflexivity. Qed.

Lemma multi_rows_tools :
  Forall (fun '(m, calls, ts, th) => ts = map tool (map fst calls)) gen_multi_tool_multi.
Proof. repeat constructor. Qed.

(** The specs a row lists are entries of the catalog, filed under the
    names of the row's calls, in the order of the calls. *)
Lemma multi_rows_specs :
  Forall (fun '(m, calls, ts, th) =>
            map tool_name ts = map fst calls /\
            Forall (fun t => dict_get TOOLS (tool_name t) = Some t) ts)
         gen_multi_tool_multi.
Proof. repeat constructor. Qed.

Lemma Forall2_In_l {A B} (R : A -> B -> Prop) l l' x :
  Forall2 R l l' -> In x l -> exists y, In y l' /\ R x y.
Proof.
  induction 1 as [|a b l l' Hab _ IH]; intros Hin; [contradiction|].
  destruct Hin as [->|Hin].
  - exists b. split; [now left | exact Hab].
  - destruct (IH Hin) as [y [Hy Hr]]. exists y. split; [now right | exact Hr].
Qed.

Lemma example_calls_multi v calls ts th :
  example_calls (make_multi_tool v calls ts th) = map to_call calls.
Proof. reflexivity. Qed.

(** C6. Whatever the draws, every example of [gen_multi_tool] has more
    than one call, its calls come in the order in which its utterance
    asks for the tools, and its [tools] are the catalog specs of the
    calls, in that order: each is the entry the catalog has under its
    name, and the names are the names of the calls. The example for
    ["Check email and calendar"] is in the output; it is the only one
    with that utterance; it calls [get_emails] and then
    [get_calendar_events], without arguments, and its [tools] are the
    two specs written out below. *)
Theorem multi_tool_calls_follow_utterance (g : Rng) :
  Forall (fun ex => exists utterance,
              option_map content (user_message ex) = Some utterance /\
              1 < List.length (example_calls ex) /\
              intents_in_order utterance (example_calls ex) = true /\
              tools ex = map tool (map call_name (example_calls ex)) /\
              map tool_name (tools ex) = map call_name (example_calls ex) /\
              Forall catalogued (tools ex))
         (fst (gen_multi_tool g)) /\
  In check_email_and_calendar (fst (gen_multi_tool g)) /\
  Forall (fun ex =>
            option_map content (user_message ex) = Some "Check email and calendar" ->
            ex = check_email_and_calendar)
         (fst (gen_multi_tool g)) /\
  option_map content (user_message check_email_and_calendar)
    = Some "Check email and calendar" /\
  map call_name (example_calls check_email_and_calendar)
    = ["get_emails"; "get_calendar_events"] /\
  map call_arguments (example_calls check_email_and_calendar) = [[]; []] /\
  tools check_email_and_calendar
    = [ mkTool "get_emails" "Get user's emails"
          (mkSchema "object"
             [ ("unread_only", mkProp "boolean" "Only unread" None None);
               ("limit", mkProp "integer" "Max emails" None None) ]
             []);
        mkTool "get_calendar_events" "Get upcoming calendar events"
          (mkSchema "object"
             [ ("days_ahead", mkProp "integer" "Days ahead to look" None None);
               ("limit", mkProp "integer" "Max events" None None) ]
             []) ].
Proof.
  pose proof multi_rows_checked as Hrows. rewrite forallb_forall in Hrows.
  pose proof multi_rows_tools as Htools. rewrite Forall_forall in Htools.
  pose proof multi_rows_specs as Hspecs. rewrite Forall_forall in Hspecs.
  pose proof (gen_multi_tool_rows g) as Hgen.
  split; [|split; [|split; [|repeat split]]].
  - revert Hgen. apply Forall_impl.
    intros ex [m [calls [ts [th [v [Hrow [Hv ->]]]]]]].
    specialize (Hrows _ Hrow). specialize (Htools _ Hrow). specialize (Hspecs _ Hrow).
    cbn beta iota in Hrows, Htools, Hspecs. destruct Hspecs as [Hnames Hcat].
    apply andb_true_iff in Hrows. destruct Hrows as [Hrows _].
    apply andb_true_iff in Hrows. destruct Hrows as [Hlen Horder].
    rewrite forallb_forall in Horder.
    exists v. rewrite example_calls_multi. split; [reflexivity|].
    split; [rewrite length_map; now apply Nat.ltb_lt|].
    split; [now apply Horder|].
    cbn [tools make_multi_tool]. rewrite !map_map. rewrite map_map in Htools.
    split; [exact Htools|]. split; [exact Hnames | exact Hcat].
  - destruct (gen_multi_tool_doubles g) as [blocks [-> HF]].
    destruct (Forall2_In_l _ _ _
                ("Check email and calendar",
                 [("get_emails", []); ("get_calendar_events", [])],
                 [tool "get_emails"; tool "get_calendar_events"],
                 "Email and calendar.") HF) as [blk [Hblk [rest ->]]].
    { right. left. reflexivity. }
    apply in_concat. eexists. split; [exact Hblk | now left].
  - revert Hgen. apply Forall_impl.
    intros ex [m [calls [ts [th [v [Hrow [Hv ->]]]]]]] Htext.
    cbn in Htext. injection Htext as ->.
    specialize (Hrows _ Hrow). cbn beta iota in Hrows.
    apply andb_true_iff in Hrows. destruct Hrows as [_ Honly].
    apply orb_true_iff in Honly. destruct Honly as [Hm|Hnot].
    + apply String.eqb_eq in Hm. subst m.
      unfold gen_multi_tool_multi in Hrow. cbn [In] in Hrow.
      repeat (destruct Hrow as [Hrow|Hrow]; [first [discriminate Hrow
                                                    | injection Hrow as <- <- <-; reflexivity]|]).
      contradiction.
    + apply mem_In in Hv. rewrite Hv in Hnot. discriminate.
Qed.

(* ================================================================== *)
(** * Validation *)
(* ================================================================== *)

Lemma validate_from_fails {Json : Type} (json_loads : string -> string + Json) lines :
  forall i j e,
  validate_from json_loads i lines = Some (j, e) ->
  exists before bad after,
    lines = before ++ bad :: after /\
    Forall (parses json_loads) before /\
    json_loads bad = inl e /\
    j = i + List.length before.
Proof.
  induction lines as [|line lines IH]; intros i j e H; cbn [validate_from] in H.
  - discriminate.
  - destruct (json_loads line) as [e'|doc] eqn:E.
    + inversion H; subst. exists [], line, lines.
      split; [reflexivity|]. split; [constructor|]. split; [exact E | simpl; lia].
    + destruct (IH _ _ _ H) as [before [bad [after [-> [Hb [Hbad ->]]]]]].
      exists (line :: before), bad, after.
      split; [reflexivity|]. split; [constructor; [now exists doc | exact Hb]|].
      split; [exact Hbad | simpl; lia].
Qed.

Lemma validate_from_first {Json : Type} (json_loads : string -> string + Json) before :
  forall i bad after e,
  Forall (parses json_loads) before ->
  json_loads bad = inl e ->
  validate_from json_loads i (before ++ bad :: after) = Some (i + List.length before, e).
Proof.
  induction before as [|line before IH]; intros i bad after e Hb Hbad; cbn [validate_from app].
  - rewrite Hbad. f_equal. f_equal. simpl. lia.
  - inversion Hb as [|? ? [doc Hdoc] Hrest]; subst. rewrite Hdoc.
    rewrite (IH (S i) bad after e Hrest Hbad). f_equal. f_equal. simpl. lia.
Qed.

Lemma validate_from_passes {Json : Type} (json_loads : string -> string + Json) lines :
  forall i,
  validate_from json_loads i lines = None <-> Forall (parses json_loads) lines.
Proof.
  induction lines as [|line lines IH]; intros i; cbn [validate_from].
  - split; [constructor | reflexivity].
  - destruct (json_loads line) as [e|doc] eqn:E.
    + split; [discriminate|]. intros H. inversion H as [|? ? [doc Hdoc] _]; subst. congruence.
    + rewrite IH. split.
      * intros H. constructor; [now exists doc | exact H].
      * intros H. now inversion H.
Qed.


(* ================================================================== *)
(** * Sampling and shuffling rearrange *)
(* ================================================================== *)

Lemma list_set_nth_error {A} (l : list A) : forall i a v,
  nth_error l i = Some a ->
  exists l1 l2, l = l1 ++ a :: l2 /\ List.length l1 = i /\
                Random.list_set l i v = l1 ++ v :: l2.
Proof.
  induction l as [|x l IH]; intros [|i] a v H; simpl in H; try discriminate.
  - injection H as ->. exists [], l. auto.
  - destruct (IH i a v H) as [l1 [l2 [-> [Hlen Hset]]]].
    exists (x :: l1), l2. simpl. rewrite Hset, Hlen. auto.
Qed.

(** Swapping two positions rearranges the list. *)
Lemma swap_Permutation {A} (x : list A) i j : Permutation (Random.swap x i j) x.
Proof.
  unfold Random.swap.
  destruct (nth_error x i) as [a|] eqn:Ea; [|reflexivity].
  destruct (nth_error x j) as [b|] eqn:Eb; [|reflexivity].
  destruct (list_set_nth_error x i a b Ea) as [l1 [l2 [Hx [Hl1 Hset]]]].
  rewrite Hset.
  destruct (Nat.eq_dec i j) as [<-|Hij].
  - assert (a = b) by congruence. subst b.
    destruct (list_set_nth_error (l1 ++ a :: l2) i a a) as [k1 [k2 [Hk [_ ->]]]].
    { rewrite <- Hx. exact Ea. }
    rewrite <- Hk, <- Hx. reflexivity.
  - assert (Hb : nth_error (l1 ++ b :: l2) j = Some b).
    { rewrite Hx in Eb. destruct (Nat.lt_ge_cases j (List.length l1)) as [Hlt|Hge].
      - rewrite nth_error_app1 in * by assumption. exact Eb.
      - rewrite nth_error_app2 in * by assumption.
        destruct (j - List.length l1) as [|n] eqn:En; [lia|]. exact Eb. }
    destruct (list_set_nth_error (l1 ++ b :: l2) j b a Hb) as [k1 [k2 [Hk [_ ->]]]].
    rewrite Hx.
    transitivity (a :: k1 ++ k2); [symmetry; apply Permutation_middle|].
    transitivity (a :: l1 ++ l2).
    + constructor. apply Permutation_cons_inv with (a := b).
      transitivity (k1 ++ b :: k2); [apply Permutation_middle|].
      rewrite <- Hk. symmetry. apply Permutation_middle.
    + apply Permutation_middle.
Qed.

Lemma shuffle_Permutation {A} (x : list A) g : Permutation (fst (Random.shuffle x g)) x.
Proof.
  unfold Random.shuffle.
  apply (foldM_invariant (fun s => Permutation s x)); [|reflexivity].
  intros s i g0 _ Hs. unfold bind. destruct (Random.randbelow (i + 1) g0) as [j g1].
  cbn [fst ret]. transitivity s; [apply swap_Permutation | exact Hs].
Qed.

Lemma removelast_firstn_len {A} (l : list A) :
  firstn (List.length l - 1) l = removelast l.
Proof.
  induction l as [|a l IH]; [reflexivity|].
  destruct l as [|b l]; [reflexivity|].
  cbn [List.length] in *. replace (S (S (List.length l)) - 1) with (S (List.length l)) by lia.
  cbn [firstn]. replace (S (List.length l) - 1) with (List.length l) in IH by lia.
  rewrite IH. reflexivity.
Qed.

(** One round of [sample]: the element picked and the pool left are the
    pool, rearranged. *)
Lemma sample_round_Permutation {A} (pool : list A) (d : A) j :
  j < List.length pool ->
  Permutation
    (nth j pool d
     :: firstn (List.length pool - 1) (Random.list_set pool j (last pool d)))
    pool.
Proof.
  intros Hj.
  assert (Hne : pool <> []) by (destruct pool; [simpl in Hj; lia | discriminate]).
  destruct (nth_error pool j) as [a|] eqn:Ea; [|apply nth_error_None in Ea; lia].
  rewrite (nth_error_nth pool j d Ea).
  destruct (list_set_nth_error pool j a (last pool d) Ea) as [l1 [l2 [Hp [Hl1 Hset]]]].
  rewrite Hset.
  replace (List.length pool - 1) with (List.length (l1 ++ last pool d :: l2) - 1)
    by (rewrite Hp, !length_app; simpl; lia).
  rewrite removelast_firstn_len.
  destruct l2 as [|b l2 _] using rev_ind.
  - (* the last element was picked *)
    rewrite removelast_last. rewrite Hp. apply Permutation_cons_append.
  - (* another element was picked; the last one fills its place *)
    assert (Hlast : last pool d = b).
    { rewrite Hp. rewrite app_comm_cons, app_assoc. apply last_last. }
    rewrite Hlast.
    replace (l1 ++ b :: l2 ++ [b]) with ((l1 ++ b :: l2) ++ [b])
      by (now rewrite <- app_assoc).
    rewrite removelast_last. rewrite Hp.
    replace (l1 ++ a :: l2 ++ [b]) with ((l1 ++ a :: l2) ++ [b])
      by (now rewrite <- app_assoc).
    transitivity (a :: b :: l1 ++ l2).
    + constructor. symmetry. apply Permutation_middle.
    + transitivity (b :: a :: l1 ++ l2); [constructor|].
      transitivity (b :: l1 ++ a :: l2); [constructor; apply Permutation_middle|].
      apply Permutation_cons_append.
Qed.

(** A sample of a population without repetition has no repetition. *)
Lemma sample_pool_NoDup {A} (k : nat) : forall (pool : list A) g,
  NoDup pool -> NoDup (fst (Random.sample_pool pool k g)).
Proof.
  induction k as [|k IH]; intros pool g Hnd; [constructor|].
  destruct pool as [|d pool']; [constructor|].
  change (Random.sample_pool (d :: pool') (S k) g)
    with (bind (Random.randbelow (List.length (d :: pool')))
            (fun j =>
               bind (Random.sample_pool
                       (firstn (List.length (d :: pool') - 1)
                          (Random.list_set (d :: pool') j (last (d :: pool') d))) k)
                    (fun rest => ret (nth j (d :: pool') d :: rest))) g).
  unfold bind.
  pose proof (randbelow_lt (List.length (d :: pool')) g) as Hlt.
  destruct (Random.randbelow (List.length (d :: pool')) g) as [j g1].
  cbn [fst] in Hlt. specialize (Hlt ltac:(simpl; lia)).
  pose proof (sample_round_Permutation (d :: pool') d j Hlt) as Hperm.
  assert (Hnd' : NoDup (nth j (d :: pool') d
                        :: firstn (List.length (d :: pool') - 1)
                             (Random.list_set (d :: pool') j (last (d :: pool') d))))
    by (eapply Permutation_NoDup; [symmetry; exact Hperm | exact Hnd]).
  inversion Hnd' as [|? ? Hnotin Hrest]; subst.
  match goal with
  | |- context [Random.sample_pool ?p k g1] =>
      pose proof (IH p g1 Hrest) as Hsub;
      pose proof (sample_pool_In k p g1) as Hin;
      destruct (Random.sample_pool p k g1) as [rest g2]
  end.
  cbn [fst ret] in *. constructor; [|exact Hsub].
  intros Hx. apply Hnotin. now apply Hin.
Qed.

Lemma sample_NoDup {A} (population : list A) k g :
  NoDup population -> NoDup (fst (Random.sample population k g)).
Proof. apply sample_pool_NoDup. Qed.

(* ================================================================== *)
(** * More on the template expander *)
(* ================================================================== *)

Lemma append_inj_r (x y z : string) : (x ++ y)%string = (x ++ z)%string -> y = z.
Proof. induction x as [|c x IH]; simpl; intros H; [exact H | injection H as H; auto]. Qed.

Lemma vary_step_grows msg lower p l s :
  List.length l <= List.length (vary_step msg lower p l s).
Proof.
  unfold vary_step. destruct (_ && _); [rewrite length_app; simpl; lia | lia].
Qed.

Lemma fold_vary_step_grows msg lower p ss : forall l,
  List.length l <= List.length (fold_left (vary_step msg lower p) ss l).
Proof.
  induction ss as [|s ss IH]; intros l; simpl; [lia|].
  etransitivity; [apply vary_step_grows | apply IH].
Qed.

(** Two different suffixes after the same prefix add at least one string
    to the list that holds the message alone. *)
Lemma first_round_adds msg lower p s1 s2 :
  s1 <> s2 ->
  2 <= List.length (fold_left (vary_step msg lower p) [s1; s2] [msg]).
Proof.
  intros Hs. cbn [fold_left]. unfold vary_step at 2.
  destruct (String.eqb (p ++ lower ++ s1) msg) eqn:E1; cbn [negb andb].
  - apply String.eqb_eq in E1. unfold vary_step.
    assert (E2 : String.eqb (p ++ lower ++ s2) msg = false).
    { apply String.eqb_neq. intros E2. rewrite <- E1 in E2.
      apply append_inj_r, append_inj_r in E2. congruence. }
    rewrite E2. cbn [negb andb PyStr.mem existsb orb]. rewrite E2. simpl. lia.
  - cbn [PyStr.mem existsb orb]. rewrite E1. cbn [negb].
    etransitivity; [|apply vary_step_grows]. simpl. lia.
Qed.

Lemma NoDup_suffixes : NoDup suffixes.
Proof.
  unfold suffixes.
  repeat (constructor; [simpl; intuition discriminate|]). constructor.
Qed.

Lemma NoDup_prefixes : NoDup prefixes.
Proof.
  unfold prefixes.
  repeat (constructor; [simpl; intuition discriminate|]). constructor.
Qed.

Lemma vary_message_at_least_two msg g : 2 <= List.length (fst (vary_message msg g)).
Proof.
  unfold vary_message, bind.
  pose proof (sample_length prefixes 3 g ltac:(simpl; lia)) as Hlen.
  destruct (Random.sample prefixes 3 g) as [ps g1]. cbn [fst] in Hlen.
  destruct ps as [|p ps]; [discriminate|]. cbn [foldM]. unfold bind at 1.
  pose proof (sample_length suffixes 2 g1 ltac:(simpl; lia)) as Hss.
  pose proof (sample_NoDup suffixes 2 g1 NoDup_suffixes) as Hnd.
  destruct (Random.sample suffixes 2 g1) as [ss g2]. cbn [fst ret] in *.
  destruct ss as [|s1 [|s2 [|? ?]]]; try discriminate.
  assert (Hs : s1 <> s2).
  { inversion Hnd as [|? ? Hnotin _]; subst. intros ->. apply Hnotin. now left. }
  pose proof (first_round_adds msg (PyStr.lower msg) p s1 s2 Hs) as Hfirst.
  match goal with
  | |- context [foldM ?body ps ?init g2] =>
      pose proof (foldM_invariant (fun l => 2 <= List.length l) body ps) as Hfold;
      specialize (Hfold ltac:(
        intros l p0 g0 _ Hl; unfold bind;
        destruct (Random.sample suffixes 2 g0) as [ss0 g3]; cbn [fst ret];
        etransitivity; [exact Hl | apply fold_vary_step_grows]) init g2 Hfirst);
      destruct (foldM body ps init g2) as [variations g3]
  end.
  cbn [fst ret] in *. rewrite length_firstn. lia.
Qed.

Lemma lower_char_idempotent c : PyStr.lower_char (PyStr.lower_char c) = PyStr.lower_char c.
Proof. destruct c as [[] [] [] [] [] [] [] []]; reflexivity. Qed.

Lemma lower_idempotent s : PyStr.lower (PyStr.lower s) = PyStr.lower s.
Proof. induction s as [|c s IH]; simpl; [reflexivity|]. now rewrite lower_char_idempotent, IH. Qed.

Lemma lower_append x y : PyStr.lower (x ++ y) = (PyStr.lower x ++ PyStr.lower y)%string.
Proof. induction x as [|c x IH]; simpl; [reflexivity | now rewrite IH]. Qed.

Lemma lower_prefixes p : In p prefixes -> PyStr.lower p = p.
Proof.
  intros H. simpl in H. repeat (destruct H as [<-|H]; [reflexivity|]). contradiction.
Qed.

Lemma lower_suffixes s : In s suffixes -> PyStr.lower s = s.
Proof.
  intros H. simpl in H. repeat (destruct H as [<-|H]; [reflexivity|]). contradiction.
Qed.

Lemma vary_message_tail msg g :
  exists rest,
    fst (vary_message msg g) = msg :: rest /\ Forall (is_variation msg) rest.
Proof.
  destruct (vary_message_invariant
              (fun l => exists rest, l = msg :: rest /\ Forall (is_variation msg) rest) msg)
    with (g := g) as [variations [-> [rest [-> Hrest]]]].
  - exists []. split; [reflexivity | constructor].
  - intros p s l Hp Hs [rest [-> Hrest]]. unfold vary_step.
    destruct (_ && _); [|now exists rest].
    exists (rest ++ [PyStr.strip (p ++ PyStr.lower msg ++ s)]). split; [reflexivity|].
    apply Forall_app. split; [exact Hrest|]. constructor; [|constructor]. split.
    + rewrite <- strip_lower, !lower_append, lower_idempotent.
      now rewrite (lower_prefixes p Hp), (lower_suffixes s Hs).
    + now exists p, s.
  - exists (firstn 4 rest). split; [reflexivity|].
    apply Forall_forall. intros v Hv. apply In_firstn in Hv.
    rewrite Forall_forall in Hrest. now apply Hrest.
Qed.

(** X1. Whatever the message and the draws, [vary_message] returns the
    message followed by at least one and at most four variations. *)
Theorem vary_message_between_two_and_five (msg : string) (g : Rng) :
  2 <= List.length (fst (vary_message msg g)) <= 5.
Proof. split; [apply vary_message_at_least_two | apply vary_message_length]. Qed.

(** X2. Whatever the message and the draws, every string that
    [vary_message] returns after the message is in lower case and is a
    sampled prefix, the lower-cased message and a sampled suffix,
    stripped: the case of the message survives in the first element
    only. *)
Theorem vary_message_variations_lower_case (msg : string) (g : Rng) :
  exists rest,
    fst (vary_message msg g) = msg :: rest /\
    Forall (fun v =>
              PyStr.lower v = v /\
              exists p s, In p prefixes /\ In s suffixes /\
                          v = PyStr.strip (p ++ PyStr.lower msg ++ s))
           rest.
Proof. exact (vary_message_tail msg g). Qed.

(* ================================================================== *)
(** * The size of the corpus *)
(* ================================================================== *)

Lemma for_each_length {A B} (lo hi : nat) (xs : list A) (body : A -> Gen (list B)) :
  (forall x g, In x xs -> lo <= List.length (fst (body x g)) <= hi) ->
  forall g, List.length xs * lo <= List.length (fst (for_each xs body g))
            <= List.length xs * hi.
Proof.
  induction xs as [|x xs IH]; intros Hbody g; simpl; [lia|].
  unfold bind. pose proof (Hbody x g (or_introl eq_refl)) as Hx.
  destruct (body x g) as [out g1].
  specialize (IH (fun x0 g0 H => Hbody x0 g0 (or_intror H)) g1).
  destruct (for_each xs body g1) as [outs g2]. cbn [fst ret] in *.
  rewrite length_app. lia.
Qed.

(** The pattern loop of a generator: [k] sampled patterns, each adding
    between [lo] and [hi] examples. *)
Lemma sampled_length (lo hi k : nat) (patterns : list string)
    (body : string -> Gen (list Example)) g :
  k <= List.length patterns ->
  (forall pattern g0, lo <= List.length (fst (body pattern g0)) <= hi) ->
  k * lo <= List.length (fst ((sampled <- Random.sample patterns k ;;
                               for_each sampled body) g)) <= k * hi.
Proof.
  intros Hk Hbody. unfold bind.
  pose proof (sample_length patterns k g Hk) as Hlen.
  destruct (Random.sample patterns k g) as [sampled g1]. cbn [fst] in Hlen.
  rewrite <- Hlen. apply for_each_length. intros x g0 _. apply Hbody.
Qed.

(** A base example and the examples of the first [n] variations. *)
Lemma labelled_length (mk : string -> Example) (n : nat) msg g :
  2 <= n ->
  3 <= List.length (mk msg :: map mk (firstn n (fst (vary_message msg g)))) <= S n.
Proof.
  intros Hn. pose proof (vary_message_at_least_two msg g) as H2.
  cbn [List.length]. rewrite length_map, length_firstn. lia.
Qed.

Ltac labelled_step mk n :=
  unfold bind;
  match goal with
  | |- context [vary_message ?m ?g] =>
      let H := fresh "H" in
      pose proof (labelled_length mk n m g ltac:(lia)) as H;
      destruct (vary_message m g); cbn [fst ret] in *; lia
  end.

(** The list of variations goes on, after the message, with a variation
    of it. *)
Lemma vary_message_first_two msg g :
  exists v rest, fst (vary_message msg g) = msg :: v :: rest /\ is_variation msg v.
Proof.
  destruct (vary_message_tail msg g) as [rest [Hv Hrest]].
  pose proof (vary_message_at_least_two msg g) as H2. rewrite Hv in *.
  destruct rest as [|v rest]; [simpl in H2; lia|].
  exists v, rest. split; [reflexivity|]. now inversion Hrest.
Qed.

(** Every utterance [gen_research] builds is non-empty and has no white
    space at either end. *)
Lemma research_message_stripped topic pattern :
  In topic gen_research_topics -> In pattern gen_research_patterns ->
  format1 "t" pattern topic <> "" /\
  PyStr.strip (format1 "t" pattern topic) = format1 "t" pattern topic.
Proof.
  intros Ht Hp.
  assert (H : forallb (fun topic =>
                forallb (fun pattern =>
                           negb (String.eqb (format1 "t" pattern topic) "")
                           && String.eqb (PyStr.strip (format1 "t" pattern topic))
                                         (format1 "t" pattern topic))
                        gen_research_patterns)
              gen_research_topics = true) by (vm_compute; reflexivity).
  rewrite forallb_forall in H. specialize (H topic Ht).
  rewrite forallb_forall in H. specialize (H pattern Hp).
  apply andb_true_iff in H. destruct H as [H1 H2].
  apply negb_true_iff, String.eqb_neq in H1. apply String.eqb_eq in H2. now split.
Qed.

(** The guarded loop of [gen_research] over the first two variations
    adds one example: the first is the utterance itself, the second
    differs from it. *)
Lemma research_variation (mk : string -> Example) msg g :
  msg <> "" -> PyStr.strip msg = msg ->
  exists v, is_variation msg v /\ v <> msg /\
    flat_map (fun var => if negb (String.eqb var msg) then [mk var] else [])
             (firstn 2 (fst (vary_message msg g)))
    = [mk v].
Proof.
  intros Hne Hfix. destruct (vary_message_first_two msg g) as [v [rest [Hv Hvar]]].
  pose proof (vary_message_NoDup msg g Hne Hfix) as Hnd. rewrite Hv in *.
  assert (Hdiff : v <> msg).
  { intros ->. inversion Hnd as [|? ? Hnotin _]; subst. apply Hnotin. now left. }
  exists v. split; [exact Hvar|]. split; [exact Hdiff|].
  cbn [firstn flat_map]. rewrite String.eqb_refl.
  apply String.eqb_neq in Hdiff. rewrite Hdiff. reflexivity.
Qed.

Lemma sampled_length_in (lo hi k : nat) (patterns : list string)
    (body : string -> Gen (list Example)) g :
  k <= List.length patterns ->
  (forall pattern g0, In pattern patterns ->
                      lo <= List.length (fst (body pattern g0)) <= hi) ->
  k * lo <= List.length (fst ((sampled <- Random.sample patterns k ;;
                               for_each sampled body) g)) <= k * hi.
Proof.
  intros Hk Hbody. unfold bind.
  pose proof (sample_length patterns k g Hk) as Hlen.
  assert (Hsub : forall p, In p (fst (Random.sample patterns k g)) -> In p patterns)
    by (intros p; apply sample_In).
  destruct (Random.sample patterns k g) as [sampled g1]. cbn [fst] in Hlen, Hsub.
  rewrite <- Hlen. apply for_each_length. intros x g0 Hx. apply Hbody. now apply Hsub.
Qed.

Lemma gen_research_size g : List.length (fst (gen_research g)) = 392.
Proof.
  enough (H : 392 <= List.length (fst (gen_research g)) <= 392) by lia.
  unfold gen_research.
  match goal with |- context [for_each gen_research_topics ?body g] =>
    pose proof (for_each_length 8 8 gen_research_topics body) as H end.
  apply H. clear H. intros topic g0 Htopic.
  apply (sampled_length_in 2 2 4); [simpl; lia|]. intros pattern g2 Hpattern. unfold bind.
  destruct (Random.choice "" ["quick"; "thorough"] g2) as [depth g3].
  destruct (research_message_stripped topic pattern Htopic Hpattern) as [Hne Hfix].
  match goal with
  | |- context [flat_map ?f (firstn 2 _)] =>
      match f with
      | (fun var => if _ then [@?mk var] else []) =>
          destruct (research_variation mk (format1 "t" pattern topic) g3 Hne Hfix)
            as [v [_ [_ Hblock]]]
      end
  end.
  destruct (vary_message (format1 "t" pattern topic) g3) as [vars g4].
  cbn [fst ret] in *. rewrite Hblock. simpl. lia.
Qed.

Lemma gen_knowledge_size g : List.length (fst (gen_knowledge g)) = 291.
Proof.
  unfold gen_knowledge. unfold bind at 1.
  match goal with |- context [for_each gen_knowledge_search_terms ?body g] =>
    pose proof (for_each_length 9 9 gen_knowledge_search_terms body) as H;
    specialize (H ltac:(
      intros term g0 _; apply (sampled_length 3 3 3); [simpl; lia|];
      intros pattern g1; labelled_step (knowledge_search_example term) 2) g);
    destruct (for_each gen_knowledge_search_terms body g) as [searches g1]
  end.
  cbn [fst ret] in *. rewrite !length_app.
  change (List.length gen_knowledge_search_terms) with 30 in H.
  match goal with |- _ + (List.length ?a + List.length ?b) = _ =>
    change (List.length a) with 15; change (List.length b) with 6 end.
  lia.
Qed.

Lemma gen_tasks_size g : 339 <= List.length (fst (gen_tasks g)) <= 352.
Proof.
  unfold gen_tasks.
  match goal with |- context [for_each gen_tasks_tasks ?b] =>
    set (created_loop := for_each gen_tasks_tasks b) end.
  match goal with |- context [for_each gen_tasks_get_patterns ?b] =>
    set (listed_loop := for_each gen_tasks_get_patterns b) end.
  assert (H1 : forall g0, 25 * 12 <= List.length (fst (created_loop g0)) <= 25 * 12).
  { intros g0. apply (for_each_length 12 12 gen_tasks_tasks).
    intros [[[task_desc title] desc] priority] g1 _.
    apply (sampled_length 3 3 4); [simpl; lia|]. intros pattern g2.
    labelled_step (fun var => make_example var "create_task"
                                (create_task_args title desc priority) gen_tasks_tools
                                (fstring ["User wants to create task: "; title])) 2. }
  assert (H2 : forall g0, 13 * 3 <= List.length (fst (listed_loop g0)) <= 13 * 4).
  { intros g0. apply (for_each_length 3 4 gen_tasks_get_patterns).
    intros [user_msg args] g1 _.
    labelled_step (fun var => make_example var "get_tasks" args gen_tasks_tools
                                "User wants their tasks.") 3. }
  unfold bind. specialize (H1 g). destruct (created_loop g) as [created g1].
  specialize (H2 g1). destruct (listed_loop g1) as [listed g2].
  cbn [fst ret] in *. rewrite length_app. lia.
Qed.

Lemma gen_calendar_size g : 97 <= List.length (fst (gen_calendar g)) <= 112.
Proof.
  unfold gen_calendar.
  match goal with |- context [for_each gen_calendar_get_patterns ?b] =>
    set (listed_loop := for_each gen_calendar_get_patterns b) end.
  assert (H1 : forall g0, 15 * 3 <= List.length (fst (listed_loop g0)) <= 15 * 4).
  { intros g0. apply (for_each_length 3 4 gen_calendar_get_patterns).
    intros [user_msg args] g1 _.
    labelled_step (fun var => make_example var "get_calendar_events" args
                                [tool "get_calendar_events"; tool "create_calendar_event"]
                                "User wants calendar.") 3. }
  unfold bind. specialize (H1 g). destruct (listed_loop g) as [listed g1].
  cbn [fst ret] in *. rewrite length_app.
  match goal with |- _ <= _ + List.length ?a <= _ => change (List.length a) with 52 end.
  lia.
Qed.

Lemma gen_email_size g : 82 <= List.length (fst (gen_email g)) <= 92.
Proof.
  unfold gen_email.
  match goal with |- context [for_each gen_email_get_patterns ?b] =>
    set (listed_loop := for_each gen_email_get_patterns b) end.
  assert (H1 : forall g0, 10 * 3 <= List.length (fst (listed_loop g0)) <= 10 * 4).
  { intros g0. apply (for_each_length 3 4 gen_email_get_patterns).
    intros [user_msg args] g1 _.
    labelled_step (fun var => make_example var "get_emails" args
                                [tool "get_emails"; tool "search_emails"; tool "send_email"]
                                "User wants emails.") 3. }
  unfold bind. specialize (H1 g). destruct (listed_loop g) as [listed g1].
  cbn [fst ret] in *. rewrite !length_app.
  match goal with |- _ <= _ + (List.length ?a + List.length ?b) <= _ =>
    change (List.length a) with 48; change (List.length b) with 4 end.
  lia.
Qed.

Lemma gen_music_size g : List.length (fst (gen_music g)) = 353.
Proof.
  unfold gen_music. unfold bind at 1.
  match goal with |- context [for_each gen_music_items ?body g] =>
    pose proof (for_each_length 9 9 gen_music_items body) as H;
    specialize (H ltac:(
      intros [item typ] g0 _; apply (sampled_length 3 3 3); [simpl; lia|];
      intros pattern g1; unfold bind; destruct (Random.random g1) as [r g2];
      match goal with
      | |- context [make_example _ "play_music" ?args _ _ :: _] =>
          labelled_step (fun var => make_example var "play_music" args gen_music_tools
                                      (fstring ["Play music: "; item])) 2
      end) g);
    destruct (for_each gen_music_items body g) as [played g1]
  end.
  cbn [fst ret] in *. rewrite !length_app.
  change (List.length gen_music_items) with 36 in H.
  repeat match goal with |- context [List.length (map ?f ?l)] =>
    let n := eval vm_compute in (List.length l) in
    change (List.length (map f l)) with n end.
  lia.
Qed.

Lemma gen_negative_size g : List.length (fst (gen_negative g)) = 90.
Proof.
  unfold gen_negative.
  match goal with |- context [for_each gen_negative_no_tool ?body g] =>
    pose proof (for_each_length 3 3 gen_negative_no_tool body) as H;
    specialize (H ltac:(
      intros [user_msg response] g0 _; unfold bind;
      match goal with |- context [Random.sample ?p ?k g0] =>
        destruct (Random.sample p k g0) as [ts g1] end;
      labelled_step (fun var => make_no_tool var response ts) 2) g)
  end.
  change (List.length gen_negative_no_tool) with 30 in H. lia.
Qed.

Lemma gen_multi_tool_size g : List.length (fst (gen_multi_tool g)) = 24.
Proof.
  unfold gen_multi_tool.
  match goal with |- context [for_each gen_multi_tool_multi ?body g] =>
    pose proof (for_each_length 3 3 gen_multi_tool_multi body) as H;
    specialize (H ltac:(
      intros [[[user_msg calls] ts] thinking] g0 _;
      labelled_step (fun var => make_multi_tool var calls ts thinking) 2) g)
  end.
  change (List.length gen_multi_tool_multi) with 8 in H. lia.
Qed.

Lemma generators_sized :
  Forall2 (fun entry bounds =>
             forall g, fst bounds <= List.length (fst (snd entry g)) <= snd bounds)
          generators generator_sizes.
Proof.
  unfold generators, generator_sizes.
  constructor; [intros g; cbn [fst snd]; rewrite gen_research_size; lia|].
  constructor; [intros g; cbn [fst snd]; rewrite gen_knowledge_size; lia|].
  constructor; [exact gen_tasks_size|].
  constructor; [exact gen_calendar_size|].
  constructor; [exact gen_email_size|].
  constructor; [intros g; cbn [fst snd]; rewrite gen_music_size; lia|].
  do 11 (constructor;
         [intros g; cbn [fst snd];
          match goal with
          | |- _ <= List.length ?l <= _ =>
              let n := eval vm_compute in (List.length l) in
              change (List.length l) with n
          end; lia|]).
  constructor; [intros g; cbn [fst snd]; rewrite gen_negative_size; lia|].
  constructor; [intros g; cbn [fst snd]; rewrite gen_multi_tool_size; lia|].
  constructor.
Qed.

Lemma run_loop_size gens bounds :
  Forall2 (fun (entry : string * Gen (list Example)) (b : nat * nat) =>
             forall g, fst b <= List.length (fst (snd entry g)) <= snd b)
          gens bounds ->
  forall (st : list Example * list Output) g,
    List.length (fst st) + list_sum (map fst bounds)
    <= List.length
         (fst (fst (foldM (fun '(all_examples, out) '(name, gen) =>
                             exs <- gen ;;
                             ret (all_examples ++ exs,
                                  out ++ [Print (fstring ["  "; name; ": ";
                                                          PyStr.of_nat (List.length exs)])]))
                          gens st g)))
    <= List.length (fst st) + list_sum (map snd bounds).
Proof.
  induction 1 as [|[name gen] [lo hi] gens bounds Hb _ IH]; intros [all_examples out] g.
  - simpl. lia.
  - cbn [foldM]. unfold bind in *.
    specialize (Hb g). cbn [fst snd] in Hb. destruct (gen g) as [exs g1].
    cbn [ret fst] in *.
    match goal with |- context [foldM ?body gens ?st' g1] => specialize (IH st' g1) end.
    cbn [fst] in IH. rewrite length_app in IH.
    match type of IH with _ <= ?n <= _ => generalize dependent n end.
    intros n Hn. unfold list_sum in *. cbn [map fold_right fst snd]. lia.
Qed.

Lemma run_generators_size g :
  2414 <= List.length (fst (fst (run_generators g))) <= 2452.
Proof.
  pose proof (run_loop_size generators generator_sizes generators_sized ([], []) g) as H.
  exact H.
Qed.

Lemma blocks_length examples blocks :
  Forall2 typo_block examples blocks ->
  List.length examples <= List.length (List.concat blocks) <= 2 * List.length examples.
Proof.
  induction 1 as [|ex blk examples blocks Hblk _ IH]; simpl; [lia|].
  rewrite length_app. destruct Hblk as [->|[copy [-> _]]]; simpl; lia.
Qed.

(** X3. Whatever the draws, the generators produce between 2414 and 2452
    examples and the corpus that is written has between 2414 and 4904:
    the run always lands in the 2000-5000 range it announces. *)
Theorem corpus_size_in_target (seed : N -> Rng) (g : Rng) :
  2414 <= List.length (fst (fst (run_generators g))) <= 2452 /\
  exists c, corpus seed g = Some c /\ 2414 <= List.length c <= 4904.
Proof.
  pose proof (run_generators_size g) as Hsize. split; [exact Hsize|].
  unfold corpus. pose proof (run_generators_ok g) as Hgen.
  destruct (run_generators g) as [[all_examples counts] g1]. cbn [fst] in *.
  destruct (add_typos_blocks all_examples (Some float_0_15) g1
              (passes_well_formed _ Hgen)) as [blocks [g2 [-> HF]]].
  eexists. split; [reflexivity|].
  rewrite (Permutation_length (shuffle_Permutation (List.concat blocks) (seed 42%N))).
  pose proof (blocks_length _ _ HF). lia.
Qed.

Lemma subsequence_In {A} (l1 l2 : list A) x : subsequence l1 l2 -> In x l1 -> In x l2.
Proof.
  induction 1 as [|y l1 l2 _ IH|y l1 l2 _ IH]; intros Hin.
  - contradiction.
  - destruct Hin as [->|Hin]; [now left | right; auto].
  - right. auto.
Qed.

(** X4. Whatever the draws, the corpus that is written is the augmented
    list rearranged: nothing is lost or repeated by the shuffle, so every
    generated example is written and the number written is the number
    counted after the typo stage. *)
Theorem corpus_rearranges_augmented (seed : N -> Rng) (g : Rng) :
  exists augmented g2 c,
    add_typos (fst (fst (run_generators g))) (Some float_0_15) (snd (run_generators g))
      = Some (augmented, g2) /\
    corpus seed g = Some c /\
    Permutation c augmented /\
    List.length c = List.length augmented /\
    Forall (fun ex => In ex c) (fst (fst (run_generators g))).
Proof.
  unfold corpus. pose proof (run_generators_ok g) as Hgen.
  destruct (run_generators g) as [[all_examples counts] g1]. cbn [fst snd] in *.
  destruct (add_typos_blocks all_examples (Some float_0_15) g1
              (passes_well_formed _ Hgen)) as [blocks [g2 [-> HF]]].
  pose proof (shuffle_Permutation (List.concat blocks) (seed 42%N)) as Hperm.
  eexists _, g2, _. split; [reflexivity|]. split; [reflexivity|].
  split; [exact Hperm|]. split; [now apply Permutation_length|].
  apply Forall_forall. intros ex Hin.
  apply (Permutation_in ex (Permutation_sym Hperm)).
  apply (subsequence_In all_examples); [now apply blocks_subsequence | exact Hin].
Qed.

(* ================================================================== *)
(** * More on the typo augmenter *)
(* ================================================================== *)

Lemma random_nonnegative g : (0 <= Qnum (fst (Random.random g)))%Z.
Proof.
  unfold Random.random. destruct (Random.next_draw g) as [x g']. cbn [fst Qnum].
  apply N2Z.is_nonneg.
Qed.

Lemma random_consumes_one g : snd (Random.random g) = tl g.
Proof. unfold Random.random, Random.next_draw. destruct g; reflexivity. Qed.

Lemma float_ltb_nonpositive r rate :
  (0 <= Qnum r)%Z -> (Qnum rate <= 0)%Z -> float_ltb r rate = false.
Proof. intros Hr Hrate. unfold float_ltb. apply Z.ltb_ge. nia. Qed.

Lemma foldE_rate_zero rate examples : forall augmented g,
  (Qnum rate <= 0)%Z ->
  foldE (add_typos_step rate) examples augmented g
  = Some (augmented ++ examples, skipn (List.length examples) g).
Proof.
  induction examples as [|ex examples IH]; intros augmented g Hrate.
  - simpl. now rewrite app_nil_r.
  - cbn [foldE]. unfold bindE at 1. unfold add_typos_step, bindE, lift.
    pose proof (random_nonnegative g) as Hr. pose proof (random_consumes_one g) as Hg.
    destruct (Random.random g) as [r g1]. cbn [fst snd] in *.
    rewrite (float_ltb_nonpositive r rate Hr Hrate). unfold retE.
    rewrite (IH _ _ Hrate). subst g1. rewrite <- app_assoc. f_equal. f_equal.
    destruct g; [now rewrite skipn_nil | reflexivity].
Qed.

(** X5. With a rate that is zero or negative [add_typos] returns its
    input as it is, whatever the examples, and consumes one draw for each
    of them. *)
Theorem add_typos_rate_zero_identity (examples : list Example) (rate : Q) (g : Rng) :
  (rate <= 0)%Q ->
  add_typos examples (Some rate) g = Some (examples, skipn (List.length examples) g).
Proof.
  intros Hrate. unfold add_typos. apply (foldE_rate_zero rate examples [] g).
  unfold Qle in Hrate. cbn [Qnum Qden] in Hrate. lia.
Qed.

Lemma add_typos_rate_zero_identity_witness :
  (0 <= 0)%Q /\
  add_typos [check_calendar_example; pause_example] (Some 0%Q) [5; 6; 7]%N
  = Some ([check_calendar_example; pause_example], [7%N]).
Proof.
  split; [apply Qle_refl|].
  exact (add_typos_rate_zero_identity [check_calendar_example; pause_example] 0%Q
           [5; 6; 7]%N (Qle_refl 0)).
Defined.

Lemma typo_word_spec w g : typo_of w (fst (typo_word w g)).
Proof.
  unfold typo_word, typo_of.
  destruct (dict_get typo_map (PyStr.lower w)) as [typos|] eqn:E; [|now left].
  unfold bind. destruct (Random.random g) as [r g1].
  destruct (float_ltb r float_0_5); [|cbn [fst ret]; now left].
  unfold Random.choice, bind.
  pose proof (randbelow_lt (List.length typos) g1) as Hlt.
  destruct (Random.randbelow (List.length typos) g1) as [j g2]. cbn [fst ret] in *.
  destruct typos as [|t typos]; [left; now destruct j|].
  right. eexists. split; [reflexivity|]. apply nth_In. apply Hlt. simpl. lia.
Qed.

Lemma typo_words_from words : forall new_words g,
  exists added,
    fst (foldM (fun new_words w => t <- typo_word w ;; ret (new_words ++ [t])) words
           new_words g) = new_words ++ added /\
    Forall2 typo_of words added.
Proof.
  induction words as [|w words IH]; intros new_words g; cbn [foldM].
  - exists []. simpl. rewrite app_nil_r. split; [reflexivity | constructor].
  - unfold bind at 1. unfold bind at 1.
    pose proof (typo_word_spec w g) as Hw. destruct (typo_word w g) as [t g1].
    cbn [fst ret] in *.
    destruct (IH (new_words ++ [t]) g1) as [added [-> HF]].
    exists (t :: added). split; [now rewrite <- app_assoc | now constructor].
Qed.

Lemma typo_words_spec words g : Forall2 typo_of words (fst (typo_words words g)).
Proof.
  unfold typo_words. destruct (typo_words_from words [] g) as [added [-> HF]]. exact HF.
Qed.

Lemma typo_words_lexicon_free words g :
  Forall (fun w => dict_get typo_map (PyStr.lower w) = None) words ->
  typo_words words g = (words, g).
Proof.
  unfold typo_words. intros Hfree.
  enough (H : forall new_words,
             foldM (fun new_words w => t <- typo_word w ;; ret (new_words ++ [t])) words
               new_words g = (new_words ++ words, g)) by (apply (H [])).
  induction Hfree as [|w words Hw _ IH]; intros new_words; cbn [foldM].
  - unfold ret. now rewrite app_nil_r.
  - unfold bind at 1. unfold bind at 1. unfold typo_word. rewrite Hw. unfold ret at 1 2.
    rewrite IH. now rewrite <- app_assoc.
Qed.

Lemma add_typos_step_text rate augmented ex g :
  match add_typos_step rate augmented ex g with
  | Some (augmented', _) =>
      exists blk, augmented' = augmented ++ blk /\ typo_block_text ex blk
  | None => short ex
  end.
Proof.
  unfold add_typos_step, bindE, lift, index, typo_copy, bindE, index, retE.
  destruct (Random.random g) as [r g1].
  destruct (float_ltb r rate); [|exists [ex]; split; [reflexivity | now left]].
  destruct (nth_error (messages ex) 1) as [m1|] eqn:E1;
    [|apply (nth_error_short ex 1); [lia | exact E1]].
  pose proof (typo_words_spec (PyStr.split (content m1)) g1) as Hwords.
  destruct (typo_words (PyStr.split (content m1)) g1) as [new_words g2]. cbn [fst] in Hwords.
  destruct (String.eqb (PyStr.join " " new_words) (content m1)) eqn:E; cbn [negb];
    [exists [ex]; split; [reflexivity | now left]|].
  destruct (nth_error (messages ex) 0) as [m0|] eqn:E0;
    [|apply (nth_error_short ex 0); [lia | exact E0]].
  destruct (nth_error (messages ex) 2) as [m2|] eqn:E2;
    [|apply (nth_error_short ex 2); [lia | exact E2]].
  eexists [ex; _]. split; [now rewrite <- app_assoc|].
  right. eexists _, m1, (PyStr.join " " new_words). split; [reflexivity|].
  split; [exact E1|]. split; [reflexivity|]. split; [now exists new_words|].
  now apply String.eqb_neq.
Qed.

(** The loop of [add_typos] when each round is known to append a block
    in relation [R] with its example. *)
Lemma foldE_blocks (R : Example -> list Example -> Prop) rate
    (Hstep : forall augmented ex g,
        match add_typos_step rate augmented ex g with
        | Some (augmented', _) => exists blk, augmented' = augmented ++ blk /\ R ex blk
        | None => short ex
        end)
    examples : forall augmented g,
  match foldE (add_typos_step rate) examples augmented g with
  | Some (out, _) =>
      exists blocks, out = augmented ++ List.concat blocks /\ Forall2 R examples blocks
  | None => Exists short examples
  end.
Proof.
  induction examples as [|ex examples IH]; intros augmented g; cbn [foldE].
  - exists []. simpl. rewrite app_nil_r. split; [reflexivity | constructor].
  - unfold bindE. specialize (Hstep augmented ex g).
    destruct (add_typos_step rate augmented ex g) as [[augmented' g1]|]; [|now left].
    destruct Hstep as [blk [-> Hblk]].
    specialize (IH (augmented ++ blk) g1).
    destruct (foldE (add_typos_step rate) examples (augmented ++ blk) g1) as [[out g2]|];
      [|now right].
    destruct IH as [blocks [-> HF]]. exists (blk :: blocks). split.
    + simpl. now rewrite app_assoc.
    + now constructor.
Qed.

(** X6. Whatever the examples, the rate and the draws, when [add_typos]
    returns it has added at most one copy per example, and the text of a
    copy is the words of the example's text joined by single spaces, each
    word kept or replaced by one of the typos the lexicon has for it in
    lower case; a word the lexicon does not have is never changed. *)
Theorem add_typos_copy_text (examples : list Example) (rate : option Q) (g : Rng) :
  match add_typos examples rate g with
  | Some (out, _) =>
      List.length out <= 2 * List.length examples /\
      exists blocks,
        out = List.concat blocks /\
        Forall2 (fun ex blk =>
                   blk = [ex] \/
                   exists copy m1 new_msg,
                     blk = [ex; copy] /\
                     user_message ex = Some m1 /\
                     user_message copy = Some (mkMessage "user" new_msg None) /\
                     (exists new_words,
                         Forall2 (fun w t =>
                                    t = w \/
                                    exists typos,
                                      dict_get typo_map (PyStr.lower w) = Some typos /\
                                      In t typos)
                                 (PyStr.split (content m1)) new_words /\
                         new_msg = PyStr.join " " new_words) /\
                     new_msg <> content m1)
                examples blocks
  | None => Exists short examples
  end.
Proof.
  unfold add_typos.
  pose proof (foldE_blocks typo_block_text
                (match rate with Some r => r | None => float_0_1 end)
                (add_typos_step_text _) examples [] g) as H.
  destruct (foldE _ examples [] g) as [[out g']|]; [|exact H].
  destruct H as [blocks [-> HF]]. cbn [app]. split.
  - clear -HF. induction HF as [|ex blk examples blocks Hblk _ IH]; simpl; [lia|].
    rewrite length_app. destruct Hblk as [->|[copy [m1 [new_msg [-> _]]]]]; simpl; lia.
  - exists blocks. split; [reflexivity | exact HF].
Qed.

Lemma add_typos_step_untouchable rate augmented ex g :
  untouchable ex ->
  exists g', add_typos_step rate augmented ex g = Some (augmented ++ [ex], g').
Proof.
  intros [m1 [Hm1 [Hfree Hspaced]]]. unfold user_message in Hm1.
  unfold add_typos_step, bindE, lift, index, retE.
  destruct (Random.random g) as [r g1].
  destruct (float_ltb r rate); [|now exists g1].
  rewrite Hm1. rewrite (typo_words_lexicon_free _ g1 Hfree).
  unfold single_spaced in Hspaced. rewrite Hspaced, String.eqb_refl. cbn [negb].
  now exists g1.
Qed.

(** X7. When no word of any user text is in the typo lexicon, whatever
    its case, and every user text is its words joined by single spaces,
    [add_typos] returns its input as it is, whatever the rate and the
    draws. *)
Theorem add_typos_lexicon_free_identity (examples : list Example) (rate : option Q) (g : Rng) :
  Forall untouchable examples ->
  exists g', add_typos examples rate g = Some (examples, g').
Proof.
  intros H. unfold add_typos.
  set (r := match rate with Some r => r | None => float_0_1 end).
  enough (Hgen : forall augmented g0,
             exists g', foldE (add_typos_step r) examples augmented g0
                        = Some (augmented ++ examples, g')) by (apply (Hgen [])).
  induction H as [|ex examples Hex _ IH]; intros augmented g0; cbn [foldE].
  - exists g0. unfold retE. now rewrite app_nil_r.
  - unfold bindE. destruct (add_typos_step_untouchable r augmented ex g0 Hex) as [g1 ->].
    destruct (IH (augmented ++ [ex]) g1) as [g2 ->]. exists g2.
    now rewrite <- app_assoc.
Qed.

Lemma add_typos_lexicon_free_identity_witness :
  Forall untouchable [pause_example] /\
  exists g', add_typos [pause_example] (Some float_0_15) [0%N] = Some ([pause_example], g').
Proof.
  assert (H : Forall untouchable [pause_example]).
  { repeat constructor. eexists. split; [reflexivity|]. split.
    - repeat constructor.
    - reflexivity. }
  split; [exact H|].
  exact (add_typos_lexicon_free_identity [pause_example] (Some float_0_15) [0%N] H).
Defined.

(** A text with two spaces in a row gets a copy with one, though no
    word of it is in the lexicon. *)
Example add_typos_squeezes_spaces :
  option_map (fun r => map user_message (fst r))
             (add_typos [make_no_tool "Hi  there" "Hi!" []] (Some float_0_15) [])
  = Some [ Some (mkMessage "user" "Hi  there" None);
           Some (mkMessage "user" "Hi there" None) ].
Proof. vm_compute. reflexivity. Qed.

(* ================================================================== *)
(** * Conformance to the catalog *)
(* ================================================================== *)

Lemma option_eqb_eq {A} (eqb : A -> A -> bool) x y :
  (forall a b, eqb a b = true -> a = b) -> option_eqb eqb x y = true -> x = y.
Proof.
  intros H. destruct x, y; simpl; try discriminate; [|reflexivity].
  intros E. f_equal. now apply H.
Qed.

Lemma list_eqb_eq {A} (eqb : A -> A -> bool) :
  (forall a b, eqb a b = true -> a = b) ->
  forall l1 l2, list_eqb eqb l1 l2 = true -> l1 = l2.
Proof.
  intros H. induction l1 as [|a l1 IH]; intros [|b l2]; simpl; try discriminate.
  - reflexivity.
  - intros E. apply andb_true_iff in E. destruct E as [E1 E2].
    f_equal; [now apply H | now apply IH].
Qed.

Lemma string_eqb_eq a b : String.eqb a b = true -> a = b.
Proof. apply String.eqb_eq. Qed.

Lemma prop_eqb_eq p q : prop_eqb p q = true -> p = q.
Proof.
  destruct p as [t1 d1 e1 i1], q as [t2 d2 e2 i2]. unfold prop_eqb.
  cbn [p_type p_description p_enum p_items].
  intros H. repeat (apply andb_true_iff in H; destruct H as [H ?]).
  apply string_eqb_eq in H.
  repeat match goal with
         | E : String.eqb _ _ = true |- _ => apply string_eqb_eq in E
         | E : option_eqb String.eqb _ _ = true |- _ =>
             apply (option_eqb_eq _ _ _ string_eqb_eq) in E
         | E : option_eqb (list_eqb String.eqb) _ _ = true |- _ =>
             apply (option_eqb_eq _ _ _ (list_eqb_eq _ string_eqb_eq)) in E
         end.
  congruence.
Qed.

Lemma schema_eqb_eq s1 s2 : schema_eqb s1 s2 = true -> s1 = s2.
Proof.
  destruct s1 as [t1 p1 r1], s2 as [t2 p2 r2]. unfold schema_eqb.
  cbn [s_type s_properties s_required].
  intros H. repeat (apply andb_true_iff in H; destruct H as [H ?]).
  apply string_eqb_eq in H.
  match goal with E : list_eqb String.eqb _ _ = true |- _ =>
    apply (list_eqb_eq _ string_eqb_eq) in E end.
  match goal with E : list_eqb _ _ _ = true |- _ =>
    apply list_eqb_eq in E end.
  - congruence.
  - intros [k p] [k' p'] E. cbn [fst snd] in E. apply andb_true_iff in E.
    destruct E as [E1 E2]. apply string_eqb_eq in E1. apply prop_eqb_eq in E2. congruence.
Qed.

Lemma tool_eqb_eq t1 t2 : tool_eqb t1 t2 = true -> t1 = t2.
Proof.
  destruct t1 as [n1 d1 p1], t2 as [n2 d2 p2]. unfold tool_eqb.
  cbn [tool_name tool_description tool_parameters].
  intros H. repeat (apply andb_true_iff in H; destruct H as [H ?]).
  apply string_eqb_eq in H.
  match goal with E : String.eqb _ _ = true |- _ => apply string_eqb_eq in E end.
  match goal with E : schema_eqb _ _ = true |- _ => apply schema_eqb_eq in E end.
  congruence.
Qed.

Lemma catalogued_b_sound t : catalogued_b t = true -> catalogued t.
Proof.
  unfold catalogued_b, catalogued. destruct (dict_get TOOLS (tool_name t)) as [t'|];
    [|discriminate].
  intros H. apply tool_eqb_eq in H. now subst.
Qed.

Lemma value_ok_sound v p : value_ok v p = true -> value_conforms v p.
Proof.
  destruct v as [s|n|b]; simpl; intros H.
  - apply andb_true_iff in H. destruct H as [Ht He]. split; [now apply String.eqb_eq|].
    intros vals Hv. rewrite Hv in He. now apply mem_In.
  - now apply String.eqb_eq.
  - now apply String.eqb_eq.
Qed.

Lemma call_conforms_sound ts c : call_conforms ts c = true -> arguments_conform ts c.
Proof.
  unfold call_conforms, arguments_conform. intros H spec Hspec Hname k v Hkv.
  rewrite forallb_forall in H. specialize (H spec Hspec).
  rewrite Hname, String.eqb_refl, forallb_forall in H. specialize (H (k, v) Hkv).
  cbn [fst snd] in H.
  destruct (dict_get (s_properties (tool_parameters spec)) k) as [p|]; [|discriminate].
  exists p. split; [reflexivity | now apply value_ok_sound].
Qed.

Lemma tools_ok_sound ts : tools_ok ts = true -> ts <> [] /\ Forall catalogued ts.
Proof.
  destruct ts as [|t ts]; [discriminate|]. unfold tools_ok. intros H.
  split; [discriminate|]. apply Forall_forall. intros x Hx.
  apply catalogued_b_sound. rewrite forallb_forall in H. now apply H.
Qed.

Lemma conforms_sound ex :
  conforms ex ->
  framed ex /\
  (tools ex <> [] /\ Forall catalogued (tools ex)) /\
  Forall (arguments_conform (tools ex)) (example_calls ex).
Proof.
  unfold conforms, example_conforms, framed, example_calls, assistant_message.
  destruct (messages ex) as [|m0 [|m1 [|m2 [|? ?]]]]; try discriminate.
  destruct m0 as [r0 c0 t0], m1 as [r1 c1 t1], m2 as [r2 c2 t2].
  cbn [role content tool_calls nth_error]. intros H.
  repeat (apply andb_true_iff in H; destruct H as [H ?]).
  destruct t0; [discriminate|]. destruct t1; [discriminate|].
  repeat match goal with E : String.eqb _ _ = true |- _ => apply string_eqb_eq in E end.
  subst.
  match goal with E : tools_ok _ = true |- _ => apply tools_ok_sound in E end.
  split; [|split; [assumption|]].
  - exists c1, c2, t2. split; [reflexivity|]. intros cs ->.
    apply Forall_forall. intros c Hc.
    match goal with E : forallb _ cs = true |- _ =>
      rewrite forallb_forall in E; specialize (E c Hc);
      apply andb_true_iff in E; destruct E as [E _]; now apply String.eqb_eq in E end.
  - destruct t2 as [cs|]; [|constructor].
    apply Forall_forall. intros c Hc.
    match goal with E : forallb _ cs = true |- _ =>
      rewrite forallb_forall in E; specialize (E c Hc);
      apply andb_true_iff in E; destruct E as [_ E]; now apply call_conforms_sound end.
Qed.

Lemma make_example_conforms m n args ts th :
  tools_ok ts = true ->
  call_conforms ts (mkCall "function" (mkFunction n args)) = true ->
  example_conforms (make_example m n args ts th) = true.
Proof.
  intros Ht Hc. unfold example_conforms, make_example.
  cbn [messages tools role tool_calls content forallb call_type].
  rewrite Ht, Hc, !String.eqb_refl. reflexivity.
Qed.

Lemma make_no_tool_conforms m r ts :
  tools_ok ts = true -> example_conforms (make_no_tool m r ts) = true.
Proof.
  intros Ht. unfold example_conforms, make_no_tool.
  cbn [messages tools role tool_calls content]. rewrite Ht, !String.eqb_refl. reflexivity.
Qed.

Lemma make_multi_tool_conforms m calls ts th :
  tools_ok ts = true ->
  forallb (fun c => call_conforms ts (mkCall "function" (mkFunction (fst c) (snd c)))) calls
  = true ->
  example_conforms (make_multi_tool m calls ts th) = true.
Proof.
  intros Ht H. unfold example_conforms, make_multi_tool.
  cbn [messages tools role tool_calls content]. rewrite Ht, !String.eqb_refl.
  cbn [andb]. rewrite andb_true_r.
  rewrite forallb_forall in H.
  apply forallb_forall. intros c Hc. apply in_map_iff in Hc.
  destruct Hc as [x [<- Hx]]. cbn [call_type]. rewrite String.eqb_refl. now apply H.
Qed.

(** A copy that differs in the user text conforms when its example
    does. *)
Lemma augmented_copy_conforms ex copy :
  augmented_copy_of ex copy -> conforms ex -> conforms copy.
Proof.
  intros [Ht [m0 [m1 [m2 [new_text [H0 [H1 [H2 [Hcopy _]]]]]]]]].
  unfold conforms, example_conforms. rewrite Hcopy, Ht.
  destruct (messages ex) as [|a [|b [|c [|? ?]]]]; try discriminate.
  cbn [nth_error] in H0, H1, H2.
  injection H0 as ->. injection H1 as ->. injection H2 as ->.
  cbn [role tool_calls]. intros H.
  repeat (apply andb_true_iff in H; destruct H as [H ?]).
  repeat match goal with E : _ = true |- _ => rewrite E; clear E end.
  reflexivity.
Qed.

Lemma forallb_conforms_Forall l : forallb example_conforms l = true -> Forall conforms l.
Proof. intros H. apply Forall_forall. intros ex Hin. now apply (proj1 (forallb_forall _ _) H). Qed.

Lemma variations_conform (mk : string -> Example) (vars : list string) (n : nat) :
  (forall v, example_conforms (mk v) = true) -> Forall conforms (map mk (firstn n vars)).
Proof.
  intros H. apply Forall_forall. intros ex Hin. apply in_map_iff in Hin.
  destruct Hin as [v [<- _]]. apply H.
Qed.

Ltac split_conforming :=
  repeat (apply Forall_app; split);
  first [ assumption | (apply forallb_conforms_Forall; vm_compute; reflexivity) ].

Ltac conforms_by_evaluation :=
  apply make_example_conforms; vm_compute; reflexivity.

(** Reads a property of every row off its evaluation on the table. *)
Ltac by_table table check Hin :=
  let H := fresh "Hrows" in
  assert (H : forallb check table = true) by (vm_compute; reflexivity);
  rewrite forallb_forall in H; exact (H _ Hin).

Lemma gen_research_conforms g : Forall conforms (fst (gen_research g)).
Proof.
  unfold gen_research. apply for_each_Forall. intros topic g0 _. unfold bind at 1.
  destruct (Random.sample gen_research_patterns 4 g0) as [sampled g1]. cbn [fst].
  apply for_each_Forall. intros pattern g2 _. unfold bind.
  destruct (Random.choice "" ["quick"; "thorough"] g2) as [depth g3].
  destruct (vary_message (format1 "t" pattern topic) g3) as [vars g4]. cbn [fst ret].
  destruct (String.eqb depth "thorough") eqn:Edepth.
  - apply String.eqb_eq in Edepth. subst depth.
    constructor; [conforms_by_evaluation|].
    apply Forall_flat_map, Forall_forall. intros var _.
    destruct (negb _); [constructor; [conforms_by_evaluation | constructor] | constructor].
  - constructor; [conforms_by_evaluation|].
    apply Forall_flat_map, Forall_forall. intros var _.
    destruct (negb _); [constructor; [conforms_by_evaluation | constructor] | constructor].
Qed.

Lemma gen_knowledge_conforms g : Forall conforms (fst (gen_knowledge g)).
Proof.
  unfold gen_knowledge. unfold bind at 1.
  match goal with
  | |- context [for_each gen_knowledge_search_terms ?body g] =>
      assert (Hloop : Forall conforms (fst (for_each gen_knowledge_search_terms body g)));
      [| destruct (for_each gen_knowledge_search_terms body g) as [searches g1] ]
  end.
  - apply for_each_Forall. intros term g0 _. unfold bind at 1.
    destruct (Random.sample gen_knowledge_patterns 3 g0) as [sampled g1]. cbn [fst].
    apply for_each_Forall. intros pattern g2 _. unfold bind.
    destruct (vary_message (format1 "t" pattern term) g2) as [vars g3]. cbn [fst ret].
    constructor; [conforms_by_evaluation|].
    apply variations_conform. intros v. conforms_by_evaluation.
  - cbn [fst ret] in *. split_conforming.
Qed.

Lemma create_task_args_conform task_desc title desc priority :
  In (task_desc, title, desc, priority) gen_tasks_tasks ->
  call_conforms gen_tasks_tools
    (mkCall "function" (mkFunction "create_task" (create_task_args title desc priority)))
  = true.
Proof.
  intros Hin.
  by_table gen_tasks_tasks
    (fun row : string * string * option string * option string =>
       let '(_, title, desc, priority) := row in
       call_conforms gen_tasks_tools
         (mkCall "function" (mkFunction "create_task" (create_task_args title desc priority))))
    Hin.
Qed.

Lemma get_tasks_args_conform user_msg args :
  In (user_msg, args) gen_tasks_get_patterns ->
  call_conforms gen_tasks_tools (mkCall "function" (mkFunction "get_tasks" args)) = true.
Proof.
  intros Hin.
  by_table gen_tasks_get_patterns
    (fun row : string * Dict Value =>
       call_conforms gen_tasks_tools (mkCall "function" (mkFunction "get_tasks" (snd row))))
    Hin.
Qed.

Lemma gen_tasks_conforms g : Forall conforms (fst (gen_tasks g)).
Proof.
  unfold gen_tasks. unfold bind at 1.
  match goal with
  | |- context [for_each gen_tasks_tasks ?body g] =>
      assert (Hcreated : Forall conforms (fst (for_each gen_tasks_tasks body g)));
      [| destruct (for_each gen_tasks_tasks body g) as [created g1] ]
  end.
  - apply for_each_Forall. intros [[[task_desc title] desc] priority] g0 Hin.
    pose proof (create_task_args_conform _ _ _ _ Hin) as Hargs. unfold bind at 1.
    destruct (Random.sample gen_tasks_create_patterns 4 g0) as [sampled g1]. cbn [fst].
    apply for_each_Forall. intros pattern g2 _. unfold bind.
    destruct (vary_message (format1 "t" pattern task_desc) g2) as [vars g3]. cbn [fst ret].
    constructor; [apply make_example_conforms; [reflexivity | exact Hargs]|].
    apply variations_conform. intros v.
    apply make_example_conforms; [reflexivity | exact Hargs].
  - unfold bind.
    match goal with
    | |- context [for_each gen_tasks_get_patterns ?body g1] =>
        assert (Hlisted : Forall conforms (fst (for_each gen_tasks_get_patterns body g1)));
        [| destruct (for_each gen_tasks_get_patterns body g1) as [listed g2] ]
    end.
    + apply for_each_Forall. intros [user_msg args] g0 Hin.
      pose proof (get_tasks_args_conform _ _ Hin) as Hargs. unfold bind.
      destruct (vary_message user_msg g0) as [vars g3]. cbn [fst ret].
      constructor; [apply make_example_conforms; [reflexivity | exact Hargs]|].
      apply variations_conform. intros v.
      apply make_example_conforms; [reflexivity | exact Hargs].
    + cbn [fst ret] in *. split_conforming.
Qed.

Lemma get_calendar_args_conform user_msg args :
  In (user_msg, args) gen_calendar_get_patterns ->
  call_conforms [tool "get_calendar_events"; tool "create_calendar_event"]
    (mkCall "function" (mkFunction "get_calendar_events" args)) = true.
Proof.
  intros Hin.
  by_table gen_calendar_get_patterns
    (fun row : string * Dict Value =>
       call_conforms [tool "get_calendar_events"; tool "create_calendar_event"]
         (mkCall "function" (mkFunction "get_calendar_events" (snd row))))
    Hin.
Qed.

Lemma gen_calendar_conforms g : Forall conforms (fst (gen_calendar g)).
Proof.
  unfold gen_calendar. unfold bind at 1.
  match goal with
  | |- context [for_each gen_calendar_get_patterns ?body g] =>
      assert (Hlisted : Forall conforms (fst (for_each gen_calendar_get_patterns body g)));
      [| destruct (for_each gen_calendar_get_patterns body g) as [listed g1] ]
  end.
  - apply for_each_Forall. intros [user_msg args] g0 Hin.
    pose proof (get_calendar_args_conform _ _ Hin) as Hargs. unfold bind.
    destruct (vary_message user_msg g0) as [vars g3]. cbn [fst ret].
    constructor; [apply make_example_conforms; [reflexivity | exact Hargs]|].
    apply variations_conform. intros v.
    apply make_example_conforms; [reflexivity | exact Hargs].
  - cbn [fst ret] in *. split_conforming.
Qed.

Lemma get_emails_args_conform user_msg args :
  In (user_msg, args) gen_email_get_patterns ->
  call_conforms [tool "get_emails"; tool "search_emails"; tool "send_email"]
    (mkCall "function" (mkFunction "get_emails" args)) = true.
Proof.
  intros Hin.
  by_table gen_email_get_patterns
    (fun row : string * Dict Value =>
       call_conforms [tool "get_emails"; tool "search_emails"; tool "send_email"]
         (mkCall "function" (mkFunction "get_emails" (snd row))))
    Hin.
Qed.

Lemma gen_email_conforms g : Forall conforms (fst (gen_email g)).
Proof.
  unfold gen_email. unfold bind at 1.
  match goal with
  | |- context [for_each gen_email_get_patterns ?body g] =>
      assert (Hlisted : Forall conforms (fst (for_each gen_email_get_patterns body g)));
      [| destruct (for_each gen_email_get_patterns body g) as [listed g1] ]
  end.
  - apply for_each_Forall. intros [user_msg args] g0 Hin.
    pose proof (get_emails_args_conform _ _ Hin) as Hargs. unfold bind.
    destruct (vary_message user_msg g0) as [vars g3]. cbn [fst ret].
    constructor; [apply make_example_conforms; [reflexivity | exact Hargs]|].
    apply variations_conform. intros v.
    apply make_example_conforms; [reflexivity | exact Hargs].
  - cbn [fst ret] in *. split_conforming.
Qed.

Lemma play_music_args_conform item typ :
  In (item, typ) gen_music_items ->
  call_conforms gen_music_tools
    (mkCall "function" (mkFunction "play_music" [("query", VStr item); ("type", VStr typ)]))
  = true /\
  call_conforms gen_music_tools
    (mkCall "function"
       (mkFunction "play_music"
          (dict_set [("query", VStr item); ("type", VStr typ)] "shuffle" (VBool true))))
  = true.
Proof.
  intros Hin. apply andb_true_iff.
  by_table gen_music_items
    (fun row : string * string =>
       call_conforms gen_music_tools
         (mkCall "function"
            (mkFunction "play_music" [("query", VStr (fst row)); ("type", VStr (snd row))]))
       && call_conforms gen_music_tools
            (mkCall "function"
               (mkFunction "play_music"
                  (dict_set [("query", VStr (fst row)); ("type", VStr (snd row))]
                            "shuffle" (VBool true)))))
    Hin.
Qed.

Lemma gen_music_conforms g : Forall conforms (fst (gen_music g)).
Proof.
  unfold gen_music. unfold bind at 1.
  match goal with
  | |- context [for_each gen_music_items ?body g] =>
      assert (Hplayed : Forall conforms (fst (for_each gen_music_items body g)));
      [| destruct (for_each gen_music_items body g) as [played g1] ]
  end.
  - apply for_each_Forall. intros [item typ] g0 Hin.
    destruct (play_music_args_conform _ _ Hin) as [Hplain Hshuffle]. unfold bind at 1.
    destruct (Random.sample gen_music_patterns 3 g0) as [sampled g1]. cbn [fst].
    apply for_each_Forall. intros pattern g2 _. unfold bind.
    destruct (Random.random g2) as [r g3].
    destruct (vary_message (format1 "i" pattern item) g3) as [vars g4]. cbn [fst ret].
    destruct (float_ltb float_0_8 r).
    + constructor; [apply make_example_conforms; [reflexivity | exact Hshuffle]|].
      apply variations_conform. intros v.
      apply make_example_conforms; [reflexivity | exact Hshuffle].
    + constructor; [apply make_example_conforms; [reflexivity | exact Hplain]|].
      apply variations_conform. intros v.
      apply make_example_conforms; [reflexivity | exact Hplain].
  - cbn [fst ret] in *. split_conforming.
Qed.

Lemma gen_code_conforms g : Forall conforms (fst (gen_code g)).
Proof. apply forallb_conforms_Forall. vm_compute. reflexivity. Qed.

Lemma gen_reminders_conforms g : Forall conforms (fst (gen_reminders g)).
Proof. apply forallb_conforms_Forall. vm_compute. reflexivity. Qed.

Lemma gen_files_conforms g : Forall conforms (fst (gen_files g)).
Proof. apply forallb_conforms_Forall. vm_compute. reflexivity. Qed.

Lemma gen_images_conforms g : Forall conforms (fst (gen_images g)).
Proof. apply forallb_conforms_Forall. vm_compute. reflexivity. Qed.

Lemma gen_youtube_conforms g : Forall conforms (fst (gen_youtube g)).
Proof. apply forallb_conforms_Forall. vm_compute. reflexivity. Qed.

Lemma gen_system_conforms g : Forall conforms (fst (gen_system g)).
Proof. apply forallb_conforms_Forall. vm_compute. reflexivity. Qed.

Lemma gen_browser_conforms g : Forall conforms (fst (gen_browser g)).
Proof. apply forallb_conforms_Forall. vm_compute. reflexivity. Qed.

Lemma gen_documents_conforms g : Forall conforms (fst (gen_documents g)).
Proof. apply forallb_conforms_Forall. vm_compute. reflexivity. Qed.

Lemma gen_mood_conforms g : Forall conforms (fst (gen_mood g)).
Proof. apply forallb_conforms_Forall. vm_compute. reflexivity. Qed.

Lemma gen_background_conforms g : Forall conforms (fst (gen_background g)).
Proof. apply forallb_conforms_Forall. vm_compute. reflexivity. Qed.

Lemma gen_projects_conforms g : Forall conforms (fst (gen_projects g)).
Proof. apply forallb_conforms_Forall. vm_compute. reflexivity. Qed.

(** Every spec of the catalog is filed under its own name, and no name
    is filed twice. *)
Lemma catalog_catalogued t : In t (map snd TOOLS) -> catalogued_b t = true.
Proof.
  assert (H : forallb catalogued_b (map snd TOOLS) = true) by (vm_compute; reflexivity).
  rewrite forallb_forall in H. apply H.
Qed.

Lemma tools_ok_intro ts :
  ts <> [] -> (forall t, In t ts -> catalogued_b t = true) -> tools_ok ts = true.
Proof.
  destruct ts as [|t ts]; [congruence|]. intros _ H. unfold tools_ok.
  apply forallb_forall. exact H.
Qed.

Lemma sampled_tools_ok g :
  tools_ok (fst (Random.sample (map snd TOOLS)
                   (Nat.min 5 (List.length (map snd TOOLS))) g)) = true.
Proof.
  apply tools_ok_intro.
  - intros E. apply (f_equal (@List.length ToolSpec)) in E.
    rewrite sample_length in E; [vm_compute in E; discriminate | apply Nat.le_min_r].
  - intros t Ht. apply catalog_catalogued. eapply sample_In. exact Ht.
Qed.

Lemma gen_negative_conforms g : Forall conforms (fst (gen_negative g)).
Proof.
  unfold gen_negative. apply for_each_Forall. intros [user_msg response] g0 _.
  unfold bind.
  pose proof (sampled_tools_ok g0) as Hts.
  destruct (Random.sample (map snd TOOLS) (Nat.min 5 (List.length (map snd TOOLS))) g0)
    as [ts g1].
  destruct (vary_message user_msg g1) as [vars g2]. cbn [fst ret] in *.
  constructor; [now apply make_no_tool_conforms|].
  apply variations_conform. intros v. now apply make_no_tool_conforms.
Qed.

Lemma multi_rows_conform user_msg calls ts thinking :
  In (user_msg, calls, ts, thinking) gen_multi_tool_multi ->
  tools_ok ts = true /\
  forallb (fun c => call_conforms ts (mkCall "function" (mkFunction (fst c) (snd c)))) calls
  = true.
Proof.
  intros Hin. apply andb_true_iff.
  by_table gen_multi_tool_multi
    (fun row : string * list (string * Dict Value) * list ToolSpec * string =>
       let '(_, calls, ts, _) := row in
       tools_ok ts
       && forallb (fun c => call_conforms ts (mkCall "function" (mkFunction (fst c) (snd c))))
                  calls)
    Hin.
Qed.

Lemma gen_multi_tool_conforms g : Forall conforms (fst (gen_multi_tool g)).
Proof.
  unfold gen_multi_tool. apply for_each_Forall.
  intros [[[user_msg calls] ts] thinking] g0 Hin.
  destruct (multi_rows_conform _ _ _ _ Hin) as [Hts Hrow]. unfold bind.
  destruct (vary_message user_msg g0) as [vars g1]. cbn [fst ret].
  constructor; [now apply make_multi_tool_conforms|].
  apply variations_conform. intros v. now apply make_multi_tool_conforms.
Qed.

Lemma generators_conform name gen g :
  In (name, gen) generators -> Forall conforms (fst (gen g)).
Proof.
  intros H. unfold generators in H. cbn [In] in H.
  destruct H as [H|H]; [injection H as <- <-; apply gen_research_conforms|].
  destruct H as [H|H]; [injection H as <- <-; apply gen_knowledge_conforms|].
  destruct H as [H|H]; [injection H as <- <-; apply gen_tasks_conforms|].
  destruct H as [H|H]; [injection H as <- <-; apply gen_calendar_conforms|].
  destruct H as [H|H]; [injection H as <- <-; apply gen_email_conforms|].
  destruct H as [H|H]; [injection H as <- <-; apply gen_music_conforms|].
  destruct H as [H|H]; [injection H as <- <-; apply gen_code_conforms|].
  destruct H as [H|H]; [injection H as <- <-; apply gen_reminders_conforms|].
  destruct H as [H|H]; [injection H as <- <-; apply gen_files_conforms|].
  destruct H as [H|H]; [injection H as <- <-; apply gen_images_conforms|].
  destruct H as [H|H]; [injection H as <- <-; apply gen_youtube_conforms|].
  destruct H as [H|H]; [injection H as <- <-; apply gen_system_conforms|].
  destruct H as [H|H]; [injection H as <- <-; apply gen_browser_conforms|].
  destruct H as [H|H]; [injection H as <- <-; apply gen_documents_conforms|].
  destruct H as [H|H]; [injection H as <- <-; apply gen_mood_conforms|].
  destruct H as [H|H]; [injection H as <- <-; apply gen_background_conforms|].
  destruct H as [H|H]; [injection H as <- <-; apply gen_projects_conforms|].
  destruct H as [H|H]; [injection H as <- <-; apply gen_negative_conforms|].
  destruct H as [H|H]; [injection H as <- <-; apply gen_multi_tool_conforms|].
  contradiction.
Qed.

Lemma run_generators_conform g : Forall conforms (fst (fst (run_generators g))).
Proof.
  unfold run_generators.
  apply (foldM_invariant (fun st : list Example * list Output => Forall conforms (fst st))).
  - intros [all_examples out] [name gen] g0 Hin Hall. unfold bind.
    pose proof (generators_conform name gen g0 Hin) as Hgen.
    destruct (gen g0) as [exs g1]. cbn [fst ret] in *.
    apply Forall_app. split; assumption.
  - constructor.
Qed.

Lemma corpus_conforms (seed : N -> Rng) g :
  exists c, corpus seed g = Some c /\ Forall conforms c.
Proof.
  unfold corpus. pose proof (run_generators_conform g) as Hgen.
  pose proof (run_generators_ok g) as Hok.
  destruct (run_generators g) as [[all_examples counts] g1]. cbn [fst] in Hgen, Hok.
  destruct (add_typos_blocks all_examples (Some float_0_15) g1
              (passes_well_formed _ Hok)) as [blocks [g2 [Htypos HF]]].
  rewrite Htypos. eexists. split; [reflexivity|].
  apply shuffle_Forall. apply (blocks_Forall conforms all_examples blocks); try assumption.
  exact augmented_copy_conforms.
Qed.

(** X8. Whatever the draws, the pipeline gets to write a corpus in which
    every example consists of the fixed developer prompt, one user
    message and one assistant message, in this order, and every call of
    the assistant message has the type ["function"]. *)
Theorem corpus_examples_framed (seed : N -> Rng) (g : Rng) :
  exists c, corpus seed g = Some c /\ Forall framed c.
Proof.
  destruct (corpus_conforms seed g) as [c [Hc HF]]. exists c. split; [exact Hc|].
  revert HF. apply Forall_impl. intros ex H. now apply conforms_sound.
Qed.

(** X9. Whatever the draws, every example of the corpus has a non-empty
    [tools] list, each spec of which is the entry the catalog [TOOLS]
    has under the spec's name: no lookup of the generators misses the
    catalog, and no spec is altered on the way. *)
Theorem corpus_tools_from_catalog (seed : N -> Rng) (g : Rng) :
  exists c, corpus seed g = Some c /\
    Forall (fun ex => tools ex <> [] /\ Forall catalogued (tools ex)) c.
Proof.
  destruct (corpus_conforms seed g) as [c [Hc HF]]. exists c. split; [exact Hc|].
  revert HF. apply Forall_impl. intros ex H. now apply conforms_sound.
Qed.

(** X10. Whatever the draws, in every example of the corpus each argument
    of each call is a property declared by the schema of the called
    tool, its value has the JSON type the property declares (string,
    integer or boolean), and a string value of a property with an
    [enum] is one of the listed values. *)
Theorem corpus_arguments_conform (seed : N -> Rng) (g : Rng) :
  exists c, corpus seed g = Some c /\
    Forall (fun ex => Forall (arguments_conform (tools ex)) (example_calls ex)) c.
Proof.
  destruct (corpus_conforms seed g) as [c [Hc HF]]. exists c. split; [exact Hc|].
  revert HF. apply Forall_impl. intros ex H. now apply conforms_sound.
Qed.

(* ================================================================== *)
(** * Statistics *)
(* ================================================================== *)

Lemma dict_get_set {V} (d : Dict V) k v k' :
  dict_get (dict_set d k v) k' = if String.eqb k' k then Some v else dict_get d k'.
Proof.
  induction d as [|[k0 v0] d IH]; simpl.
  - reflexivity.
  - destruct (String.eqb k k0) eqn:E; simpl.
    + apply String.eqb_eq in E. subst k0. destruct (String.eqb k' k); reflexivity.
    + destruct (String.eqb k' k0) eqn:E0.
      * apply String.eqb_eq in E0. subst k0. rewrite String.eqb_sym, E. reflexivity.
      * exact IH.
Qed.

Lemma dict_keys_set {V} (d : Dict V) k v k' :
  In k' (dict_keys (dict_set d k v)) <-> k' = k \/ In k' (dict_keys d).
Proof.
  unfold dict_keys. induction d as [|[k0 v0] d IH]; simpl.
  - intuition.
  - destruct (String.eqb k k0) eqn:E; simpl.
    + apply String.eqb_eq in E. subst k0. intuition.
    + rewrite IH. intuition.
Qed.

Lemma dict_set_NoDup {V} (d : Dict V) k v :
  NoDup (dict_keys d) -> NoDup (dict_keys (dict_set d k v)).
Proof.
  induction d as [|[k0 v0] d IH]; simpl; intros H.
  - constructor; [intros [] | constructor].
  - inversion H as [|? ? Hk0 Hd]; subst. destruct (String.eqb k k0) eqn:E; simpl.
    + apply String.eqb_eq in E. subst k0. now constructor.
    + constructor; [|now apply IH].
      intros Hin. apply dict_keys_set in Hin. destruct Hin as [->|Hin].
      * rewrite String.eqb_refl in E. discriminate.
      * now apply Hk0.
Qed.

Lemma dict_get_In {V} (d : Dict V) k v : dict_get d k = Some v -> In (k, v) d.
Proof.
  induction d as [|[k0 v0] d IH]; simpl; [discriminate|].
  destruct (String.eqb k k0) eqn:E.
  - apply String.eqb_eq in E. subst k0. intros H. injection H as ->. now left.
  - intros H. right. now apply IH.
Qed.

Lemma dict_get_keys {V} (d : Dict V) k :
  dict_get d k = None <-> ~ In k (dict_keys d).
Proof.
  unfold dict_keys. induction d as [|[k0 v0] d IH]; simpl.
  - intuition.
  - destruct (String.eqb k k0) eqn:E.
    + apply String.eqb_eq in E. subst k0. split; [discriminate | intros H; exfalso; auto].
    + rewrite IH. apply String.eqb_neq in E. split.
      * intros H [H1|H1]; [now subst | auto].
      * intros H H1. apply H. now right.
Qed.

Lemma dict_NoDup_get {V} (d : Dict V) k v :
  NoDup (dict_keys d) -> In (k, v) d -> dict_get d k = Some v.
Proof.
  unfold dict_keys. induction d as [|[k0 v0] d IH]; simpl; intros Hnd Hin; [contradiction|].
  inversion Hnd as [|? ? Hk0 Hd]; subst. destruct Hin as [Hin|Hin].
  - injection Hin as -> ->. now rewrite String.eqb_refl.
  - destruct (String.eqb k k0) eqn:E.
    + apply String.eqb_eq in E. subst k0. exfalso. apply Hk0.
      apply in_map_iff. now exists (k, v).
    + now apply IH.
Qed.

(** The inner loop of the statistics: one more for each call's name. *)
Lemma count_calls (calls : list ToolCall) : forall (d : Dict nat),
  let d' := fold_left (fun counts c =>
                         let name := fn_name (call_function c) in
                         let seen := match dict_get counts name with
                                     | Some n => n
                                     | None => 0
                                     end in
                         dict_set counts name (seen + 1))
                      calls d in
  (forall name, count_of d' name
                = count_of d name + count_occ string_dec (map call_name calls) name) /\
  (forall name, In name (dict_keys d')
                <-> In name (dict_keys d) \/ In name (map call_name calls)) /\
  (NoDup (dict_keys d) -> NoDup (dict_keys d')).
Proof.
  induction calls as [|c calls IH]; intros d; cbn zeta.
  - simpl. split; [intros; lia|]. split; [intuition | auto].
  - cbn [fold_left map]. specialize (IH (dict_set d (fn_name (call_function c))
                                           (match dict_get d (fn_name (call_function c)) with
                                            | Some n => n
                                            | None => 0
                                            end + 1))).
    cbn zeta in IH. destruct IH as [Hc [Hk Hn]]. split; [|split].
    + intros name. rewrite Hc. unfold count_of. rewrite dict_get_set.
      cbn [count_occ]. unfold call_name at 2.
      destruct (string_dec (fn_name (call_function c)) name) as [E|E].
      * subst name. rewrite String.eqb_refl. lia.
      * destruct (String.eqb name (fn_name (call_function c))) eqn:E'.
        -- apply String.eqb_eq in E'. congruence.
        -- lia.
    + intros name. rewrite Hk, dict_keys_set. unfold call_name at 2. cbn [In].
      intuition.
    + intros H. apply Hn. now apply dict_set_NoDup.
Qed.

Lemma times_called_cons name ex exs :
  times_called name (ex :: exs)
  = count_occ string_dec (map call_name (example_calls ex)) name + times_called name exs.
Proof.
  unfold times_called. cbn [flat_map]. now rewrite map_app, count_occ_app.
Qed.

Lemma stats_loop_counted (exs : list Example) : forall st0,
  match stats_loop st0 exs with
  | Some st => counted st0 exs st
  | None => Exists short exs
  end.
Proof.
  induction exs as [|ex exs IH]; intros st0.
  - simpl. unfold counted, times_called. simpl.
    split; [lia|]. split; [lia|]. split; [intros; lia|]. split; [|auto].
    intros name. split; [now left | intros [H|H]; [exact H | lia]].
  - cbn [stats_loop]. unfold stats_step.
    destruct (nth_error (messages ex) 2) as [msg|] eqn:Emsg.
    2:{ left. unfold short. apply nth_error_None in Emsg. lia. }
    assert (Hcalls : example_calls ex = match tool_calls msg with
                                        | Some calls => calls
                                        | None => []
                                        end).
    { unfold example_calls, assistant_message. now rewrite Emsg. }
    assert (Hwithout : without_calls ex = match tool_calls msg with
                                          | Some _ => false
                                          | None => true
                                          end).
    { unfold without_calls, assistant_message. now rewrite Emsg. }
    destruct (tool_calls msg) as [calls|] eqn:Etc.
    + match goal with |- match stats_loop ?s exs with _ => _ end => specialize (IH s) end.
      destruct (stats_loop _ exs) as [st|]; [|now right].
      destruct IH as [Hno [Hmulti [Hcount [Hkeys Hnd]]]].
      cbn [no_tool multi_tool tool_counts] in *.
      destruct (count_calls calls (tool_counts st0)) as [Hc [Hk Hn]]. cbn zeta in Hc, Hk, Hn.
      unfold counted. cbn [filter]. rewrite Hwithout.
      unfold with_many_calls at 1. rewrite Hcalls.
      split; [exact Hno|]. split; [|split; [|split]].
      * rewrite Hmulti. destruct (1 <? List.length calls); simpl; lia.
      * intros name. rewrite Hcount, Hc, times_called_cons, Hcalls. lia.
      * intros name. rewrite Hkeys, Hk, times_called_cons, Hcalls.
        rewrite (count_occ_In string_dec (map call_name calls)). unfold gt.
        clear. intuition lia.
      * intros H. auto.
    + match goal with |- match stats_loop ?s exs with _ => _ end => specialize (IH s) end.
      destruct (stats_loop _ exs) as [st|]; [|now right].
      destruct IH as [Hno [Hmulti [Hcount [Hkeys Hnd]]]].
      cbn [no_tool multi_tool tool_counts] in *.
      unfold counted. cbn [filter]. rewrite Hwithout.
      unfold with_many_calls at 1. rewrite Hcalls. cbn [List.length Nat.ltb Nat.leb].
      split; [simpl; lia|]. split; [exact Hmulti|]. split; [|split].
      * intros name. rewrite Hcount, times_called_cons, Hcalls. simpl. lia.
      * intros name. rewrite Hkeys, times_called_cons, Hcalls. simpl. reflexivity.
      * exact Hnd.
Qed.

(** X11. The statistics loop of [main], started from empty counters,
    either raises on an example with fewer than three messages or ends
    with: [no_tool] the number of examples whose assistant message has no
    ["tool_calls"] key, [multi_tool] the number of examples with more than
    one call, and [tool_counts] holding, for each name called at least
    once, the number of calls that name it, under one key per name, and
    nothing for any other name. *)
Theorem stats_loop_counts (exs : list Example) :
  match stats_loop (mkStats [] 0 0) exs with
  | Some st =>
      no_tool st = List.length (filter without_calls exs) /\
      multi_tool st = List.length (filter with_many_calls exs) /\
      NoDup (dict_keys (tool_counts st)) /\
      forall name,
        dict_get (tool_counts st) name
        = if times_called name exs =? 0 then None else Some (times_called name exs)
  | None => Exists short exs
  end.
Proof.
  pose proof (stats_loop_counted exs (mkStats [] 0 0)) as H.
  destruct (stats_loop (mkStats [] 0 0) exs) as [st|]; [|exact H].
  destruct H as [Hno [Hmulti [Hcount [Hkeys Hnd]]]]. cbn [no_tool multi_tool tool_counts] in *.
  split; [exact Hno|]. split; [exact Hmulti|]. split; [apply Hnd; constructor|].
  intros name. specialize (Hcount name). specialize (Hkeys name).
  unfold count_of in Hcount. cbn [dict_get] in Hcount. cbn [dict_keys map In] in Hkeys.
  destruct (times_called name exs =? 0) eqn:E.
  - apply Nat.eqb_eq in E. apply dict_get_keys. rewrite Hkeys. lia.
  - apply Nat.eqb_neq in E.
    destruct (dict_get (tool_counts st) name) as [n|] eqn:Eg.
    + simpl in Hcount. now subst.
    + exfalso. apply dict_get_keys in Eg. apply Eg. apply Hkeys. right. lia.
Qed.

Lemma insert_by_count_Permutation x l : Permutation (insert_by_count x l) (x :: l).
Proof.
  induction l as [|y l IH]; simpl; [reflexivity|].
  destruct (snd x <=? snd y); [|reflexivity].
  rewrite IH. apply perm_swap.
Qed.

Lemma insert_by_count_descending x l : descending l -> descending (insert_by_count x l).
Proof.
  unfold descending. induction l as [|y l IH]; simpl; intros H.
  - constructor; constructor.
  - inversion H as [|? ? Hl Hy]; subst. destruct (snd x <=? snd y) eqn:E.
    + apply Nat.leb_le in E. constructor; [now apply IH|].
      apply Forall_forall. intros z Hz.
      apply (Permutation_in _ (insert_by_count_Permutation x l)) in Hz.
      destruct Hz as [<-|Hz]; [exact E|]. rewrite Forall_forall in Hy. now apply Hy.
    + apply Nat.leb_gt in E. constructor; [exact H|].
      constructor; [lia|]. revert Hy. apply Forall_impl. intros z Hz. lia.
Qed.

Lemma sorted_fold items : forall acc,
  descending acc ->
  Permutation (fold_left (fun acc x => insert_by_count x acc) items acc) (acc ++ items) /\
  descending (fold_left (fun acc x => insert_by_count x acc) items acc).
Proof.
  induction items as [|x items IH]; intros acc Hacc; simpl.
  - rewrite app_nil_r. split; [reflexivity | exact Hacc].
  - destruct (IH (insert_by_count x acc) (insert_by_count_descending x acc Hacc)) as [Hp Hd].
    split; [|exact Hd]. rewrite Hp, insert_by_count_Permutation.
    simpl. apply Permutation_middle.
Qed.

Lemma sorted_by_count_sorted items :
  Permutation (sorted_by_count items) items /\ descending (sorted_by_count items).
Proof. apply (sorted_fold items []). constructor. Qed.

(** Equal counts stay in the order they come in. *)
Lemma insert_by_count_stable n x l :
  descending l ->
  filter (fun y => snd y =? n) (insert_by_count x l)
  = if snd x =? n then filter (fun y => snd y =? n) l ++ [x]
    else filter (fun y => snd y =? n) l.
Proof.
  unfold descending. induction l as [|y l IH]; intros H.
  - simpl. destruct (snd x =? n); reflexivity.
  - inversion H as [|? ? Hl Hy]; subst. cbn [insert_by_count].
    destruct (snd x <=? snd y) eqn:E.
    + cbn [filter]. rewrite (IH Hl).
      destruct (snd y =? n), (snd x =? n); reflexivity.
    + apply Nat.leb_gt in E. cbn [filter].
      destruct (snd x =? n) eqn:Ex; [|reflexivity].
      apply Nat.eqb_eq in Ex.
      assert (Hy' : (snd y =? n) = false) by (apply Nat.eqb_neq; lia).
      rewrite Hy'.
      assert (Hnone : filter (fun y0 => snd y0 =? n) l = []).
      { clear -Hy E Ex. induction l as [|z l IHl]; [reflexivity|].
        inversion Hy as [|? ? Hz Hl]; subst. cbn [filter].
        assert (Hz' : (snd z =? snd x) = false) by (apply Nat.eqb_neq; lia).
        rewrite Hz'. now apply IHl. }
      rewrite Hnone. reflexivity.
Qed.

Lemma sorted_fold_stable n items : forall acc,
  descending acc ->
  filter (fun y => snd y =? n) (fold_left (fun acc x => insert_by_count x acc) items acc)
  = filter (fun y => snd y =? n) (acc ++ items).
Proof.
  induction items as [|x items IH]; intros acc Hacc; simpl.
  - now rewrite app_nil_r.
  - rewrite (IH _ (insert_by_count_descending x acc Hacc)).
    rewrite !filter_app, (insert_by_count_stable n x acc Hacc). cbn [filter].
    destruct (snd x =? n); [|reflexivity].
    now rewrite <- app_assoc.
Qed.

(** X12. [sorted(items, key=lambda x: -x[1])] as [main] uses it for the
    tool distribution: the result holds the same items, the counts never
    increase along it, and items of equal count keep the order they had
    in [items]. *)
Theorem sorted_by_count_stable_descending (items : list (string * nat)) :
  Permutation (sorted_by_count items) items /\
  descending (sorted_by_count items) /\
  forall n, filter (fun x => snd x =? n) (sorted_by_count items)
            = filter (fun x => snd x =? n) items.
Proof.
  split; [apply sorted_by_count_sorted|]. split; [apply sorted_by_count_sorted|].
  intros n. unfold sorted_by_count. rewrite sorted_fold_stable; [reflexivity | constructor].
Qed.

Lemma stats_loop_returns exs :
  Forall (fun ex => ~ short ex) exs ->
  exists st, stats_loop (mkStats [] 0 0) exs = Some st /\ counted (mkStats [] 0 0) exs st.
Proof.
  intros Hlong. pose proof (stats_loop_counted exs (mkStats [] 0 0)) as H.
  destruct (stats_loop (mkStats [] 0 0) exs) as [st|].
  - now exists st.
  - exfalso. apply Exists_exists in H. destruct H as [ex [Hin Hs]].
    rewrite Forall_forall in Hlong. now apply (Hlong ex).
Qed.

(** X13. On a non-empty list of examples that all have three messages,
    the statistics stage of [main] returns after printing the total, the
    number of examples without calls, the number of examples with more
    than one call and the first twenty lines of a ranking that lists
    every tool called at least once, once, with the number of calls
    that name it, by non-increasing count. *)
Theorem print_stats_reports (exs : list Example) :
  exs <> [] ->
  Forall (fun ex => ~ short ex) exs ->
  exists ranking,
    print_stats exs
    = ([ Print (fstring [PyStr.nl; "Total: "; PyStr.of_nat (List.length exs)]);
         PrintNegative (List.length (filter without_calls exs)) (List.length exs);
         Print (fstring ["Multi-tool: ";
                         PyStr.of_nat (List.length (filter with_many_calls exs))]);
         Print (fstring [PyStr.nl; "Tool distribution:"]) ]
       ++ map distribution_line (firstn 20 ranking),
       Returned) /\
    NoDup (map fst ranking) /\
    (forall t n, In (t, n) ranking <-> n = times_called t exs /\ 0 < n) /\
    descending ranking.
Proof.
  intros Hne Hlong. destruct (stats_loop_returns exs Hlong) as [st [Hst Hc]].
  destruct Hc as [Hno [Hmulti [Hcount [Hkeys Hnd]]]].
  cbn [no_tool multi_tool tool_counts] in *.
  destruct (sorted_by_count_sorted (tool_counts st)) as [Hperm Hdesc].
  exists (sorted_by_count (tool_counts st)). split; [|split; [|split]].
  - unfold print_stats. rewrite Hst.
    destruct (List.length exs =? 0) eqn:E.
    + apply Nat.eqb_eq, length_zero_iff_nil in E. contradiction.
    + rewrite Hno, Hmulti. cbn [Nat.add app]. f_equal. f_equal. f_equal. f_equal. f_equal.
      apply map_ext. now intros [t n].
  - apply (Permutation_NoDup (Permutation_map fst (Permutation_sym Hperm))).
    apply Hnd. constructor.
  - intros t n. assert (Hnd' : NoDup (dict_keys (tool_counts st))) by (apply Hnd; constructor).
    specialize (Hcount t). specialize (Hkeys t).
    unfold count_of in Hcount. cbn [dict_get] in Hcount. cbn [dict_keys map In] in Hkeys.
    split.
    + intros Hin. apply (Permutation_in _ Hperm) in Hin.
      rewrite (dict_NoDup_get _ _ _ Hnd' Hin) in Hcount. split; [exact Hcount|].
      assert (Hk : In t (dict_keys (tool_counts st)))
        by (apply in_map_iff; now exists (t, n)).
      apply Hkeys in Hk. destruct Hk as [[]|Hk]. lia.
    + intros [-> Hpos]. apply (Permutation_in _ (Permutation_sym Hperm)).
      destruct (dict_get (tool_counts st) t) as [m|] eqn:Eg.
      * apply dict_get_In in Eg. simpl in Hcount. now subst.
      * exfalso. apply dict_get_keys in Eg. apply Eg. apply Hkeys. now right.
  - exact Hdesc.
Qed.

Lemma print_stats_reports_witness :
  exists ranking,
    print_stats [check_calendar_example; pause_example]
    = ([ Print (fstring [PyStr.nl; "Total: "; PyStr.of_nat 2]);
         PrintNegative 0 2;
         Print (fstring ["Multi-tool: "; PyStr.of_nat 0]);
         Print (fstring [PyStr.nl; "Tool distribution:"]) ]
       ++ map distribution_line (firstn 20 ranking),
       Returned) /\
    NoDup (map fst ranking) /\
    (forall t n, In (t, n) ranking
                 <-> n = times_called t [check_calendar_example; pause_example] /\ 0 < n) /\
    descending ranking.
Proof.
  apply (print_stats_reports [check_calendar_example; pause_example]).
  - discriminate.
  - repeat constructor; unfold short; simpl; lia.
Defined.

(* ================================================================== *)
(** * Writing and reading back *)
(* ================================================================== *)

Lemma read_lines_line s rest :
  one_line s = true ->
  read_lines (s ++ PyStr.nl ++ rest)%string = (s ++ PyStr.nl)%string :: read_lines rest.
Proof.
  induction s as [|c r IH]; intros H.
  - reflexivity.
  - cbn [one_line] in H. apply andb_true_iff in H. destruct H as [H Hr].
    apply andb_true_iff in H. destruct H as [H10 H13].
    apply negb_true_iff in H10, H13.
    cbn [String.append read_lines]. rewrite H10, H13.
    change (read_lines (r ++ String (ascii_of_nat 10) rest)%string)
      with (read_lines (r ++ PyStr.nl ++ rest)%string).
    rewrite (IH Hr). reflexivity.
Qed.

Lemma concat_empty_cons x xs :
  String.concat "" (x :: xs) = (x ++ String.concat "" xs)%string.
Proof.
  destruct xs as [|y ys]; simpl.
  - clear. induction x as [|c x IH]; simpl; [reflexivity | now rewrite <- IH].
  - reflexivity.
Qed.

Lemma append_assoc (a b c : string) : ((a ++ b) ++ c = a ++ b ++ c)%string.
Proof. induction a as [|x a IH]; simpl; [reflexivity | now rewrite IH]. Qed.

Section ReadBack.

Variable json_dumps : Example -> string.

Lemma serialize_cons ex exs :
  serialize json_dumps (ex :: exs)
  = (json_dumps ex ++ PyStr.nl ++ serialize json_dumps exs)%string.
Proof.
  unfold serialize. cbn [map]. rewrite concat_empty_cons. unfold fstring at 1.
  cbn [String.concat]. change ("" ++ PyStr.nl)%string with PyStr.nl.
  now rewrite append_assoc.
Qed.

Lemma read_lines_written exs :
  Forall (fun ex => one_line (json_dumps ex) = true) exs ->
  read_lines (serialize json_dumps exs)
  = map (fun ex => (json_dumps ex ++ PyStr.nl)%string) exs.
Proof.
  induction 1 as [|ex exs Hex _ IH]; [reflexivity|].
  rewrite serialize_cons, (read_lines_line _ _ Hex), IH. reflexivity.
Qed.

End ReadBack.

(** X14. When [json.dumps] gives no text with a line feed or a carriage
    return, reading back the file [main] writes yields one line per
    example, in order: the serialization of the example followed by a
    line feed. *)
Theorem read_back_one_line_per_example (json_dumps : Example -> string)
    (exs : list Example) :
  Forall (fun ex => one_line (json_dumps ex) = true) exs ->
  read_lines (serialize json_dumps exs)
  = map (fun ex => (json_dumps ex ++ PyStr.nl)%string) exs.
Proof. apply read_lines_written. Qed.

Lemma read_back_one_line_per_example_witness :
  read_lines (serialize (fun ex => PyStr.of_nat (List.length (messages ex)))
                [check_calendar_example; pause_example])
  = map (fun ex => (PyStr.of_nat (List.length (messages ex)) ++ PyStr.nl)%string)
        [check_calendar_example; pause_example].
Proof.
  apply (read_back_one_line_per_example
           (fun ex => PyStr.of_nat (List.length (messages ex)))
           [check_calendar_example; pause_example]).
  repeat constructor.
Defined.

(** A carriage return inside a serialization splits its line in two. *)
Example read_back_splits_at_carriage_return :
  read_lines (serialize (fun _ => String "a" (String (ascii_of_nat 13) "b"))
                [pause_example])
  = [String "a" PyStr.nl; String "b" PyStr.nl].
Proof. reflexivity. Qed.

(* ================================================================== *)
(** * The run of main *)
(* ================================================================== *)

Lemma passes_not_short exs : Forall passes exs -> Forall (fun ex => ~ short ex) exs.
Proof.
  apply Forall_impl. intros ex H. apply example_ok_sound in H.
  destruct H as [[m0 [u [m2 Hm]]] _]. unfold short. rewrite Hm. simpl. lia.
Qed.

Lemma corpus_not_empty (seed : N -> Rng) g :
  exists c, corpus seed g = Some c /\ Forall passes c /\ c <> [].
Proof.
  unfold corpus. pose proof (run_generators_ok g) as Hgen.
  pose proof (run_generators_size g) as Hsize.
  destruct (run_generators g) as [[all_examples counts] g1]. cbn [fst] in Hgen, Hsize.
  destruct (add_typos_blocks all_examples (Some float_0_15) g1
              (passes_well_formed _ Hgen)) as [blocks [g2 [Htypos HF]]].
  rewrite Htypos. eexists. split; [reflexivity|]. split.
  - apply shuffle_Forall. apply (blocks_Forall passes all_examples blocks); try assumption.
    exact augmented_copy_ok.
  - intros E. apply (f_equal (@List.length Example)) in E.
    rewrite (Permutation_length (shuffle_Permutation (List.concat blocks) (seed 42%N))) in E.
    pose proof (blocks_length _ _ HF). simpl in E. lia.
Qed.

Lemma print_stats_returns exs :
  exs <> [] -> Forall (fun ex => ~ short ex) exs -> snd (print_stats exs) = Returned.
Proof.
  intros Hne Hlong. destruct (stats_loop_returns exs Hlong) as [st [Hst _]].
  unfold print_stats. rewrite Hst.
  destruct (List.length exs =? 0) eqn:E; [|reflexivity].
  apply Nat.eqb_eq, length_zero_iff_nil in E. contradiction.
Qed.

Lemma shuffle_length {A} (x : list A) g :
  List.length (fst (Random.shuffle x g)) = List.length x.
Proof. apply Permutation_length, shuffle_Permutation. Qed.

(** A run of [main], stage by stage, on each kind of file system. *)
Lemma main_run {Json : Type} (json_dumps : Example -> string)
    (json_loads : string -> string + Json) (seed : N -> Rng) (disk : Disk) (g : Rng) :
  exists c,
    corpus seed g = Some c /\ c <> [] /\ Forall passes c /\
    main json_dumps json_loads seed disk g
    = match disk with
      | WriteRaises =>
          mkRun (generation_output (snd (fst (run_generators g)))
                   (List.length (fst (fst (run_generators g)))) (List.length c))
                None Raised
      | ReadRaises =>
          mkRun (generation_output (snd (fst (run_generators g)))
                   (List.length (fst (fst (run_generators g)))) (List.length c)
                 ++ [written_output (List.length c)])
                (Some (serialize json_dumps c)) Raised
      | Reliable =>
          mkRun (generation_output (snd (fst (run_generators g)))
                   (List.length (fst (fst (run_generators g)))) (List.length c)
                 ++ written_output (List.length c)
                 :: match validate json_loads (read_lines (serialize json_dumps c)) with
                    | Some (i, e) => [error_output i e]
                    | None => Print "All JSON valid!" :: fst (print_stats c)
                    end)
                (Some (serialize json_dumps c)) Returned
      end.
Proof.
  destruct (corpus_not_empty seed g) as [c [Hc [Hok Hne]]].
  pose proof (print_stats_returns c Hne (passes_not_short c Hok)) as Hstats.
  exists c. split; [exact Hc|]. split; [exact Hne|]. split; [exact Hok|].
  unfold main. unfold corpus in Hc.
  destruct (run_generators g) as [[all_examples counts] g1]. cbn [fst snd].
  destruct (add_typos all_examples (Some float_0_15) g1) as [[augmented g2]|];
    [|discriminate].
  injection Hc as Hc.
  assert (Hlen : List.length augmented = List.length c)
    by (rewrite <- Hc; symmetry; apply shuffle_length).
  rewrite Hc, Hlen. unfold generation_output, written_output, error_output.
  destruct disk.
  - f_equal. rewrite <- !app_assoc. reflexivity.
  - f_equal. rewrite <- !app_assoc. reflexivity.
  - destruct (validate json_loads (read_lines (serialize json_dumps c))) as [[i e]|].
    + f_equal. rewrite <- !app_assoc. reflexivity.
    + destruct (print_stats c) as [stats_out st]. cbn [fst snd] in *. subst st.
      f_equal. rewrite <- !app_assoc. reflexivity.
Qed.

(** C7 as stated fails: the validator consults no record schema. The
    JSON document [null] has none of the keys of a record, and a file
    whose one line is [null] passes the validation. *)
Lemma validation_ignores_record_schema_counterexample :
  json_loads_null (String.append "null" PyStr.nl) = inr JNull /\
  record_schema JNull = false /\
  validate json_loads_null [String.append "null" PyStr.nl] = None.
Proof. repeat split. Qed.

(** C7, as the code has it. The validator hands each line to
    [json.loads], in order, and stops at the first one that raises, with
    its number counted from 1; it passes exactly when no line raises.
    When [json.dumps] gives single-line texts and the file system is
    reliable, the lines the validator reads back are the lines written,
    one per example of the corpus, in order. The run then prints the
    lines of the generation, the line of the written file and, when a
    line raises, the error with the number of that line and nothing
    else: no verdict and no statistics; otherwise the verdict and the
    statistics. It returns in both cases, and the file written is
    there. *)
Theorem validation_stops_at_first_bad_line (Json : Type) (json_dumps : Example -> string)
    (json_loads : string -> string + Json) (seed : N -> Rng) (g : Rng) :
  (forall ex, one_line (json_dumps ex) = true) ->
  (forall lines i e,
      validate json_loads lines = Some (i, e) <->
      exists before bad after,
        lines = before ++ bad :: after /\
        Forall (parses json_loads) before /\
        json_loads bad = inl e /\
        i = List.length before + 1) /\
  (forall lines,
      validate json_loads lines = None <-> Forall (parses json_loads) lines) /\
  exists c,
    corpus seed g = Some c /\
    read_lines (serialize json_dumps c) = map (written_line json_dumps) c /\
    file (main json_dumps json_loads seed Reliable g) = Some (serialize json_dumps c) /\
    status (main json_dumps json_loads seed Reliable g) = Returned /\
    printed (main json_dumps json_loads seed Reliable g)
    = generation_output (snd (fst (run_generators g)))
        (List.length (fst (fst (run_generators g)))) (List.length c)
      ++ written_output (List.length c)
      :: match validate json_loads (map (written_line json_dumps) c) with
         | Some (i, e) => [error_output i e]
         | None => Print "All JSON valid!" :: fst (print_stats c)
         end.
Proof.
  intros Hline. split; [|split].
  - intros lines i e. unfold validate. split.
    + intros H. apply validate_from_fails in H.
      destruct H as [before [bad [after [-> [Hb [Hbad ->]]]]]].
      exists before, bad, after. repeat split; try assumption. lia.
    + intros [before [bad [after [-> [Hb [Hbad ->]]]]]].
      rewrite (validate_from_first json_loads before 1 bad after e Hb Hbad).
      f_equal. f_equal. lia.
  - intros lines. apply validate_from_passes.
  - destruct (main_run json_dumps json_loads seed Reliable g) as [c [Hc [_ [_ Hrun]]]].
    assert (Hread : read_lines (serialize json_dumps c) = map (written_line json_dumps) c).
    { apply read_lines_written. apply Forall_forall. intros ex _. apply Hline. }
    exists c. rewrite Hrun, Hread. cbn [file status printed].
    split; [exact Hc|]. repeat split; reflexivity.
Qed.

Lemma validation_stops_at_first_bad_line_witness :
  (forall ex : Example, one_line "{}" = true) /\
  exists c,
    corpus (fun _ => []) [] = Some c /\
    printed (main (fun _ => "{}") (fun _ : string => @inl string unit "Expecting value")
               (fun _ => []) Reliable [])
    = generation_output (snd (fst (run_generators [])))
        (List.length (fst (fst (run_generators [])))) (List.length c)
      ++ written_output (List.length c)
      :: match validate (fun _ : string => @inl string unit "Expecting value")
                 (map (written_line (fun _ => "{}")) c) with
         | Some (i, e) => [error_output i e]
         | None => Print "All JSON valid!" :: fst (print_stats c)
         end.
Proof.
  split; [intros ex; reflexivity|].
  destruct (validation_stops_at_first_bad_line unit (fun _ => "{}")
              (fun _ : string => @inl string unit "Expecting value") (fun _ => []) []
              (fun ex => eq_refl)) as [_ [_ [c [Hc [_ [_ [_ Hprinted]]]]]]].
  exists c. split; [exact Hc | exact Hprinted].
Defined.

(** X15. Whatever the draws, the seeding and the [json] functions, [main]
    raises only where the operating system refuses the output file: the
    augmenter and the statistics find three messages in every example
    and the percentage is not a division by zero. When the file cannot
    be written the run ends after the count of the typo stage and writes
    nothing; when it cannot be read back the run ends after the line of
    the written file; on a reliable file system the run returns. In the
    last two cases the file holds the serialization of the corpus. *)
Theorem main_raises_only_on_file_errors {Json : Type} (json_dumps : Example -> string)
    (json_loads : string -> string + Json) (seed : N -> Rng) (disk : Disk) (g : Rng) :
  exists c,
    corpus seed g = Some c /\
    match disk with
    | WriteRaises =>
        status (main json_dumps json_loads seed disk g) = Raised /\
        file (main json_dumps json_loads seed disk g) = None /\
        printed (main json_dumps json_loads seed disk g)
        = generation_output (snd (fst (run_generators g)))
            (List.length (fst (fst (run_generators g)))) (List.length c)
    | ReadRaises =>
        status (main json_dumps json_loads seed disk g) = Raised /\
        file (main json_dumps json_loads seed disk g) = Some (serialize json_dumps c) /\
        printed (main json_dumps json_loads seed disk g)
        = generation_output (snd (fst (run_generators g)))
            (List.length (fst (fst (run_generators g)))) (List.length c)
          ++ [written_output (List.length c)]
    | Reliable =>
        status (main json_dumps json_loads seed disk g) = Returned /\
        file (main json_dumps json_loads seed disk g) = Some (serialize json_dumps c)
    end.
Proof.
  destruct (main_run json_dumps json_loads seed disk g) as [c [Hc [_ [_ Hrun]]]].
  exists c. split; [exact Hc|]. rewrite Hrun.
  destruct disk; cbn [status file printed]; repeat split; reflexivity.
Qed.

(** X16. When [json.dumps] gives single-line texts that [json.loads]
    accepts back with the line feed [main] appends, every run of [main]
    on a reliable file system passes its validation: it prints the lines
    of the generation, the line of the written file, ["All JSON valid!"]
    and the statistics of the corpus, nothing else, and returns. *)
Theorem main_valid_run {Json : Type} (json_dumps : Example -> string)
    (json_loads : string -> string + Json) (seed : N -> Rng) (g : Rng) :
  (forall ex, one_line (json_dumps ex) = true) ->
  (forall ex, parses json_loads (written_line json_dumps ex)) ->
  exists c,
    corpus seed g = Some c /\
    validate json_loads (read_lines (serialize json_dumps c)) = None /\
    printed (main json_dumps json_loads seed Reliable g)
    = generation_output (snd (fst (run_generators g)))
        (List.length (fst (fst (run_generators g)))) (List.length c)
      ++ written_output (List.length c) :: Print "All JSON valid!" :: fst (print_stats c) /\
    status (main json_dumps json_loads seed Reliable g) = Returned /\
    file (main json_dumps json_loads seed Reliable g) = Some (serialize json_dumps c).
Proof.
  intros Hline Hloads.
  destruct (main_run json_dumps json_loads seed Reliable g) as [c [Hc [_ [_ Hrun]]]].
  assert (Hvalid : validate json_loads (read_lines (serialize json_dumps c)) = None).
  { unfold validate. apply validate_from_passes. rewrite read_lines_written.
    - apply Forall_forall. intros line Hin. apply in_map_iff in Hin.
      destruct Hin as [ex [<- _]]. apply Hloads.
    - apply Forall_forall. intros ex _. apply Hline. }
  exists c. rewrite Hrun, Hvalid. cbn [status file printed].
  split; [exact Hc|]. repeat split; reflexivity.
Qed.

Lemma main_valid_run_witness :
  exists c,
    corpus (fun _ => []) [] = Some c /\
    validate (fun _ : string => @inr string unit tt)
             (read_lines (serialize (fun _ => "{}") c)) = None /\
    printed (main (fun _ => "{}") (fun _ : string => @inr string unit tt)
               (fun _ => []) Reliable [])
    = generation_output (snd (fst (run_generators [])))
        (List.length (fst (fst (run_generators [])))) (List.length c)
      ++ written_output (List.length c) :: Print "All JSON valid!" :: fst (print_stats c) /\
    status (main (fun _ => "{}") (fun _ : string => @inr string unit tt)
              (fun _ => []) Reliable [])
    = Returned /\
    file (main (fun _ => "{}") (fun _ : string => @inr string unit tt)
            (fun _ => []) Reliable [])
    = Some (serialize (fun _ => "{}") c).
Proof.
  apply (main_valid_run (fun _ => "{}") (fun _ : string => @inr string unit tt)
           (fun _ => []) []).
  - intros ex. reflexivity.
  - intros ex. exists tt. reflexivity.
Defined.

(* ================================================================== *)
(** * The shape of the generated blocks *)
(* ================================================================== *)

Lemma distinct_NoDup l : distinct l = true -> NoDup l.
Proof.
  induction l as [|x r IH]; simpl; intros H; constructor.
  - apply andb_true_iff in H. destruct H as [H _]. apply negb_true_iff in H.
    intros Hin. apply mem_In in Hin. congruence.
  - apply IH. apply andb_true_iff in H. tauto.
Qed.

Lemma catalog_NoDup : NoDup (map snd TOOLS).
Proof.
  apply (NoDup_map_inv tool_name). apply distinct_NoDup. vm_compute. reflexivity.
Qed.

(** A loop whose every round appends [k] blocks appends [k] blocks per
    round. *)
Lemma for_each_grouped {A B} (P : list B -> Prop) (k : nat) (xs : list A)
    (body : A -> Gen (list B)) :
  (forall x g, In x xs ->
     exists blocks, fst (body x g) = List.concat blocks /\ List.length blocks = k /\
                    Forall P blocks) ->
  forall g, exists blocks,
    fst (for_each xs body g) = List.concat blocks /\
    List.length blocks = List.length xs * k /\ Forall P blocks.
Proof.
  induction xs as [|x xs IH]; intros Hbody g; simpl.
  - exists []. repeat split; constructor.
  - unfold bind. destruct (Hbody x g (or_introl eq_refl)) as [b1 [E1 [L1 F1]]].
    destruct (body x g) as [out g1]. cbn [fst] in E1.
    destruct (IH (fun x0 g0 H => Hbody x0 g0 (or_intror H)) g1) as [b2 [E2 [L2 F2]]].
    destruct (for_each xs body g1) as [outs g2]. cbn [fst ret] in *.
    exists (b1 ++ b2). rewrite concat_app, length_app, E1, E2, L1, L2.
    split; [reflexivity|]. split; [lia|]. now apply Forall_app.
Qed.

Lemma sampled_grouped (P : list Example -> Prop) (k : nat) (patterns : list string)
    (body : string -> Gen (list Example)) g :
  k <= List.length patterns ->
  (forall pattern g0, In pattern patterns -> P (fst (body pattern g0))) ->
  exists blocks,
    fst ((sampled <- Random.sample patterns k ;; for_each sampled body) g)
    = List.concat blocks /\
    List.length blocks = k /\ Forall P blocks.
Proof.
  intros Hk Hbody. unfold bind.
  pose proof (sample_length patterns k g Hk) as Hlen.
  assert (Hsub : forall p, In p (fst (Random.sample patterns k g)) -> In p patterns)
    by (intros p; apply sample_In).
  destruct (Random.sample patterns k g) as [sampled g1]. cbn [fst] in Hlen, Hsub.
  destruct (for_each_grouped P 1 sampled body) with (g := g1) as [blocks [E [L F]]].
  - intros x g0 Hx. exists [fst (body x g0)]. simpl. rewrite app_nil_r.
    split; [reflexivity|]. split; [reflexivity|]. constructor; [|constructor].
    apply Hbody. now apply Hsub.
  - exists blocks. split; [exact E|]. split; [lia | exact F].
Qed.

(** X17. Whatever the draws, [gen_research] yields 392 examples in 196
    pairs, four per topic: an utterance built from a pattern and the
    topic, labelled with the [research] call on the topic (with depth
    ["thorough"] or none), followed by one variation of the utterance
    that differs from it and has the same label. The loop over the first
    two variations never adds two: the first is the utterance itself. *)
Theorem gen_research_pairs (g : Rng) :
  exists blocks,
    fst (gen_research g) = List.concat blocks /\
    List.length blocks = 196 /\
    Forall research_pair blocks.
Proof.
  unfold gen_research.
  match goal with |- context [for_each gen_research_topics ?body g] =>
    destruct (for_each_grouped research_pair 4 gen_research_topics body) with (g := g)
      as [blocks [E [L F]]]
  end.
  2:{ exists blocks. split; [exact E|]. split; [exact L | exact F]. }
  intros topic g0 Htopic.
  apply (sampled_grouped research_pair 4); [simpl; lia|].
  intros pattern g2 Hpattern. unfold bind.
  pose proof (fun d => proj1 (String.eqb_eq d "thorough")) as Hthorough.
  destruct (Random.choice "" ["quick"; "thorough"] g2) as [depth g3].
  destruct (research_message_stripped topic pattern Htopic Hpattern) as [Hne Hfix].
  match goal with
  | |- context [flat_map ?f (firstn 2 _)] =>
      match f with
      | (fun var => if _ then [@?mk var] else []) =>
          destruct (research_variation mk (format1 "t" pattern topic) g3 Hne Hfix)
            as [v [Hvar [Hdiff Hblock]]]
      end
  end.
  destruct (vary_message (format1 "t" pattern topic) g3) as [vars g4].
  cbn [fst ret] in *. rewrite Hblock.
  destruct (String.eqb depth "thorough") eqn:Edepth.
  - apply Hthorough in Edepth. subst depth.
    exists topic, pattern,
      [("query", VStr (fstring [topic; " latest developments"]));
       ("depth", VStr "thorough")], v.
    cbn zeta. split; [exact Htopic|]. split; [exact Hpattern|]. split; [now right|].
    split; [exact Hvar|]. split; [exact Hdiff | reflexivity].
  - exists topic, pattern, [("query", VStr (fstring [topic; " latest developments"]))], v.
    cbn zeta. split; [exact Htopic|]. split; [exact Hpattern|]. split; [now left|].
    split; [exact Hvar|]. split; [exact Hdiff | reflexivity].
Qed.

Lemma sampled_tools g :
  let ts := fst (Random.sample (map snd TOOLS)
                   (Nat.min 5 (List.length (map snd TOOLS))) g) in
  List.length ts = 5 /\ NoDup ts /\ Forall catalogued ts.
Proof.
  cbn zeta. split; [|split].
  - rewrite sample_length; [reflexivity | apply Nat.le_min_r].
  - apply sample_NoDup, catalog_NoDup.
  - apply Forall_forall. intros t Ht. apply catalogued_b_sound, catalog_catalogued.
    eapply sample_In. exact Ht.
Qed.

(** X18. Whatever the draws, [gen_negative] yields, for each row of its
    bank in order, three examples without calls that share one sample
    of five distinct specs of the catalog and the row's answer: the
    row's utterance, the same utterance again (the first of its
    variations) and one variation of it. *)
Theorem gen_negative_blocks (g : Rng) :
  exists blocks,
    fst (gen_negative g) = List.concat blocks /\
    Forall2 negative_block gen_negative_no_tool blocks.
Proof.
  unfold gen_negative. apply for_each_blocks. intros [user_msg response] g0 _.
  unfold bind. pose proof (sampled_tools g0) as Hts. cbn zeta in Hts.
  destruct (Random.sample (map snd TOOLS) (Nat.min 5 (List.length (map snd TOOLS))) g0)
    as [ts g1]. cbn [fst] in Hts. destruct Hts as [Hlen [Hnd Hcat]].
  destruct (vary_message_first_two user_msg g1) as [v [rest [Hv Hvar]]].
  destruct (vary_message user_msg g1) as [vars g2]. cbn [fst ret] in *. subst vars.
  exists ts, v. cbn [fst snd firstn map].
  split; [exact Hlen|]. split; [exact Hnd|]. split; [exact Hcat|].
  split; [exact Hvar | reflexivity].
Qed.

(* ================================================================== *)
(** * The progress lines *)
(* ================================================================== *)

Lemma run_loop_counts (gens : list (string * Gen (list Example))) :
  forall (st : list Example * list Output) g,
  exists sizes,
    let st' := fst (foldM (fun '(all_examples, out) '(name, gen) =>
                             exs <- gen ;;
                             ret (all_examples ++ exs,
                                  out ++ [Print (fstring ["  "; name; ": ";
                                                          PyStr.of_nat (List.length exs)])]))
                          gens st g) in
    List.length sizes = List.length gens /\
    snd st' = snd st ++ map (fun '(name, n) => count_line name n)
                            (combine (map fst gens) sizes) /\
    List.length (fst st') = List.length (fst st) + list_sum sizes.
Proof.
  match goal with |- context [foldM ?b gens] => set (body := b) end.
  assert (Hbody : forall all_examples out name gen g,
             body (all_examples, out) (name, gen) g
             = ((all_examples ++ fst (gen g),
                 out ++ [count_line name (List.length (fst (gen g)))]),
                snd (gen g))).
  { intros all_examples out name gen g. unfold body, bind.
    destruct (gen g) as [exs g1]. reflexivity. }
  clearbody body.
  induction gens as [|[name gen] gens IH]; intros [all_examples out] g; cbn zeta.
  - exists []. cbn [foldM ret fst snd combine map list_sum].
    split; [reflexivity|]. split; [now rewrite app_nil_r | simpl; lia].
  - cbn [foldM]. unfold bind. rewrite Hbody.
    destruct (IH (all_examples ++ fst (gen g),
                  out ++ [count_line name (List.length (fst (gen g)))])
                 (snd (gen g))) as [sizes [Hlen [Hout Hsum]]].
    cbn zeta in Hout, Hsum. cbn [fst snd] in Hout, Hsum.
    exists (List.length (fst (gen g)) :: sizes).
    cbn [List.length map combine fst snd].
    split; [now rewrite Hlen|]. split.
    + rewrite Hout, <- app_assoc. reflexivity.
    + rewrite Hsum, length_app. unfold list_sum. simpl. lia.
Qed.

(** X19. Whatever the draws, the generator loop of [main] prints one line
    per generator, in the order of the table and under its name, and the
    counts of these lines add up to the number of examples collected,
    which is the count of the ["Base"] line. *)
Theorem run_generators_counts (g : Rng) :
  exists sizes,
    List.length sizes = 19 /\
    snd (fst (run_generators g))
    = map (fun '(name, n) => count_line name n) (combine (map fst generators) sizes) /\
    list_sum sizes = List.length (fst (fst (run_generators g))).
Proof.
  destruct (run_loop_counts generators ([], []) g) as [sizes [Hlen [Hout Hsum]]].
  cbn zeta in Hout, Hsum. cbn [fst snd List.length Nat.add app] in Hout, Hsum.
  exists sizes. split; [exact Hlen|]. split; [exact Hout|]. symmetry. exact Hsum.
Qed.
